(** * The argument database of [module/config/db.py]

    A shallow embedding of [module/config/db.py]: the Python values the
    module handles, the built-in conversions [parse_value] relies on, the
    nested-mapping helpers, the row store, and the methods of [Database]
    as state-passing functions that may raise.

    Conventions of the model.
    - A character is a code point below 256, a [str] is a [string].
    - A mapping is an insertion-ordered association list with [str] keys,
      as the YAML and JSON documents of the program have them; sequences
      do not occur in those documents and are not part of [value].
    - A float is a binary64 number other than NaN.
    - The document store is the list of its rows in insertion order; with
      it goes the query cache of TinyDB, which keeps the documents of the
      ten queries used last and hands out those very documents again.
    - A document is shared between the query cache and the trees built
      from a search: the [value] that [select_function] sets under the
      path of a row in such a tree is set in the document, and the next
      search for the same query finds it there.  A document differs
      from its row by its [value] at most; this leaves out what a path
      with more names does, which the rows and the configurations can
      only have when one of their names holds a dot. *)

From Stdlib Require Import String Ascii List ZArith QArith Bool Lia SpecFloat
  Permutation.
Import ListNotations.

Set Warnings "-register-all".

Local Open Scope string_scope.
Local Open Scope list_scope.

(** ** Python values *)

Module Py.

(** [datetime.datetime]: the civil fields and, for an aware value, the
    offset from UTC in microseconds. *)
Record datetime : Type := mk_datetime {
  year : Z; month : Z; day : Z;
  hour : Z; minute : Z; second : Z; microsecond : Z;
  utcoffset : option Z
}.

(** binary64 without NaN: [FFin neg m e] is [(-1)^neg * m * 2^e]. *)
Inductive pyfloat : Type :=
| FZero (neg : bool)
| FInf (neg : bool)
| FFin (neg : bool) (m : positive) (e : Z).

Inductive value : Type :=
| VNone
| VBool (b : bool)
| VInt (z : Z)
| VFloat (f : pyfloat)
| VStr (s : string)
| VDate (d : datetime)
| VDict (d : list (string * value)).

Definition dict : Type := list (string * value).

(** Exceptions the module can raise. *)
Inductive exn : Type :=
| TypeError
| KeyError (k : string)
| AttributeError
| AssertionError (msg : string).

Inductive result (A : Type) : Type :=
| Ok (a : A)
| Raise (e : exn).
Arguments Ok {A} a.
Arguments Raise {A} e.

Definition rbind {A B} (r : result A) (k : A -> result B) : result B :=
  match r with
  | Ok a => k a
  | Raise e => Raise e
  end.

Declare Scope result_scope.
Delimit Scope result_scope with result.
Notation "'do' x <- c ; k" := (rbind c (fun x => k))
  (at level 10, x name, c at level 100, k at level 200) : result_scope.

(** *** Truth value testing *)

Definition truthy (v : value) : bool :=
  match v with
  | VNone => false
  | VBool b => b
  | VInt z => negb (z =? 0)%Z
  | VFloat (FZero _) => false
  | VFloat _ => true
  | VStr s => negb (s =? "")
  | VDate _ => true
  | VDict d => match d with [] => false | _ => true end
  end.

(** *** Equality, [==] *)

(** Numbers compare by value across [bool], [int] and [float]. *)
Inductive num : Type :=
| NFin (m e : Z)
| NInf (neg : bool).

Definition num_of_float (f : pyfloat) : num :=
  match f with
  | FZero _ => NFin 0 0
  | FInf s => NInf s
  | FFin s m e => NFin (if s then Z.neg m else Z.pos m) e
  end.

Definition num_of (v : value) : option num :=
  match v with
  | VBool b => Some (NFin (if b then 1 else 0) 0)
  | VInt z => Some (NFin z 0)
  | VFloat f => Some (num_of_float f)
  | _ => None
  end.

Definition num_eqb (a b : num) : bool :=
  match a, b with
  | NFin m1 e1, NFin m2 e2 =>
      Qeq_bool (inject_Z m1 * Qpower 2 e1) (inject_Z m2 * Qpower 2 e2)
  | NInf s1, NInf s2 => Bool.eqb s1 s2
  | _, _ => false
  end.

(** Days before January 1st of [y], and before the first of month [m]. *)
Definition is_leap (y : Z) : bool :=
  ((y mod 4 =? 0) && (negb (y mod 100 =? 0) || (y mod 400 =? 0)))%Z.

Definition days_in_month (y m : Z) : Z :=
  (if m =? 2 then (if is_leap y then 29 else 28)
   else if (m =? 4) || (m =? 6) || (m =? 9) || (m =? 11) then 30
   else 31)%Z.

Definition days_before_year (y : Z) : Z :=
  (let p := y - 1 in p * 365 + p / 4 - p / 100 + p / 400)%Z.

Fixpoint days_before_month_aux (y : Z) (n : nat) : Z :=
  match n with
  | O => 0%Z
  | S n' => (days_before_month_aux y n' + days_in_month y (Z.of_nat n))%Z
  end.

Definition days_before_month (y m : Z) : Z :=
  days_before_month_aux y (Z.to_nat (m - 1)).

(** Microseconds since 0001-01-01 of the civil fields. *)
Definition civil_us (d : datetime) : Z :=
  (((((days_before_year (year d) + days_before_month (year d) (month d)
      + (day d - 1)) * 24 + hour d) * 60 + minute d) * 60 + second d)
   * 1000000 + microsecond d)%Z.

(** A naive and an aware datetime are never equal; two aware ones are
    equal when they denote the same instant. *)
Definition datetime_eqb (a b : datetime) : bool :=
  match utcoffset a, utcoffset b with
  | None, None => (civil_us a =? civil_us b)%Z
  | Some oa, Some ob => (civil_us a - oa =? civil_us b - ob)%Z
  | _, _ => false
  end.

Fixpoint assoc {A : Type} (k : string) (d : list (string * A)) : option A :=
  match d with
  | [] => None
  | (k', v) :: d' => if k' =? k then Some v else assoc k d'
  end.

Fixpoint py_eqb (a b : value) {struct a} : bool :=
  match a with
  | VNone => match b with VNone => true | _ => false end
  | VStr s => match b with VStr t => s =? t | _ => false end
  | VDate d => match b with VDate d' => datetime_eqb d d' | _ => false end
  | VDict d =>
      match b with
      | VDict d' =>
          Nat.eqb (List.length d) (List.length d') &&
          (fix all (l : list (string * value)) : bool :=
             match l with
             | [] => true
             | (k, v) :: l' =>
                 match assoc k d' with
                 | Some w => py_eqb v w
                 | None => false
                 end && all l'
             end) d
      | _ => false
      end
  | _ =>
      match num_of a, num_of b with
      | Some x, Some y => num_eqb x y
      | _, _ => false
      end
  end.

(** Values that can be members of a [set]. *)
Definition hashable (v : value) : bool :=
  match v with
  | VDict _ => false
  | _ => true
  end.

(** *** [str] methods *)

(** [s.split(sep)] for a one-character separator. *)
Fixpoint split (sep : ascii) (s : string) : list string :=
  match s with
  | EmptyString => [EmptyString]
  | String c s' =>
      if Ascii.eqb c sep then EmptyString :: split sep s'
      else match split sep s' with
           | h :: t => String c h :: t
           | [] => [String c EmptyString]
           end
  end.

(** [sep.join(l)] *)
Definition join (sep : string) (l : list string) : string :=
  String.concat sep l.

(** [sub in s] *)
Fixpoint str_contains (sub s : string) : bool :=
  if String.prefix sub s then true
  else match s with
       | EmptyString => false
       | String _ s' => str_contains sub s'
       end.

(** Iterating a [str] yields its characters. *)
Fixpoint chars (s : string) : list string :=
  match s with
  | EmptyString => []
  | String c s' => String c EmptyString :: chars s'
  end.

(** *** [int(s)] *)

Definition is_digit (c : ascii) : bool :=
  let n := nat_of_ascii c in Nat.leb 48 n && Nat.leb n 57.

Definition digit_val (c : ascii) : Z := Z.of_nat (nat_of_ascii c - 48).

(** The white space [int] and [float] skip around a number, among the
    code points below 256: tab to carriage return and the space, and the
    two spaces above 127, which the conversion first turns into a
    space. *)
Definition is_space (c : ascii) : bool :=
  let n := nat_of_ascii c in
  (Nat.leb 9 n && Nat.leb n 13) || Nat.eqb n 32
  || Nat.eqb n 133 || Nat.eqb n 160.

Fixpoint lstrip (cs : list ascii) : list ascii :=
  match cs with
  | c :: r => if is_space c then lstrip r else cs
  | [] => []
  end.

Definition strip (cs : list ascii) : list ascii :=
  rev (lstrip (rev (lstrip cs))).

(** An underscore is accepted between two digits only; it is dropped. *)
Fixpoint drop_underscores (prev_digit : bool) (cs : list ascii)
  : option (list ascii) :=
  match cs with
  | [] => Some []
  | c :: r =>
      if Ascii.eqb c "_" then
        if prev_digit && match r with d :: _ => is_digit d | [] => false end
        then drop_underscores false r
        else None
      else option_map (cons c) (drop_underscores (is_digit c) r)
  end.

Definition read_sign (cs : list ascii) : bool * list ascii :=
  match cs with
  | c :: r => if Ascii.eqb c "-" then (true, r)
              else if Ascii.eqb c "+" then (false, r)
              else (false, cs)
  | [] => (false, [])
  end.

(** The leading decimal digits of [cs], most significant first. *)
Fixpoint span_digits (cs : list ascii) : list ascii * list ascii :=
  match cs with
  | c :: r => if is_digit c
              then let '(ds, rest) := span_digits r in (c :: ds, rest)
              else ([], cs)
  | [] => ([], [])
  end.

Definition decimal (ds : list ascii) : Z :=
  fold_left (fun acc c => (acc * 10 + digit_val c)%Z) ds 0%Z.

(** [int(s)] in base ten; [None] stands for [ValueError]. *)
Definition py_int (s : string) : option Z :=
  match drop_underscores false (strip (list_ascii_of_string s)) with
  | None => None
  | Some cs =>
      let '(neg, body) := read_sign cs in
      match span_digits body with
      | ((_ :: _) as ds, []) =>
          Some (if neg then (- decimal ds)%Z else decimal ds)
      | _ => None
      end
  end.

(** *** [float(s)] *)

Definition float_of_spec (x : spec_float) : option pyfloat :=
  match x with
  | S754_zero s => Some (FZero s)
  | S754_infinity s => Some (FInf s)
  | S754_finite s m e => Some (FFin s m e)
  | S754_nan => None
  end.

(** The binary64 number nearest to [(-1)^neg * d * 10^e], ties to even. *)
Definition float_of_decimal (neg : bool) (d e : Z) : option pyfloat :=
  match d with
  | Zpos p =>
      match e with
      | Zneg q =>
          float_of_spec
            (SFdiv 53 1024 (S754_finite neg p 0)
                           (S754_finite false (Pos.pow 10 q) 0))
      | _ => float_of_spec (binary_normalize 53 1024
                              (if neg then (- (d * 10 ^ e))%Z else (d * 10 ^ e)%Z)
                              0 neg)
      end
  | _ => Some (FZero neg)
  end.

Definition lower (c : ascii) : ascii :=
  let n := nat_of_ascii c in
  if Nat.leb 65 n && Nat.leb n 90 then ascii_of_nat (n + 32) else c.

(** The exponent part: nothing, or [e], an optional sign and digits. *)
Definition read_exponent (cs : list ascii) : option Z :=
  match cs with
  | [] => Some 0%Z
  | c :: r =>
      if Ascii.eqb (lower c) "e" then
        let '(neg, body) := read_sign r in
        match span_digits body with
        | ((_ :: _) as ds, []) =>
            Some (if neg then (- decimal ds)%Z else decimal ds)
        | _ => None
        end
      else None
  end.

(** [float(s)]; [None] stands for [ValueError].  The literal [nan], whose
    value this model does not represent, is [None] as well: [parse_value]
    calls [float] on strings holding a dot only, and no spelling of [nan]
    holds one. *)
Definition py_float (s : string) : option pyfloat :=
  match drop_underscores false (strip (list_ascii_of_string s)) with
  | None => None
  | Some cs =>
      let '(neg, body) := read_sign cs in
      let word := string_of_list_ascii (map lower body) in
      if (word =? "inf") || (word =? "infinity") then Some (FInf neg)
      else
        let '(ip, r1) := span_digits body in
        let '(fp, r2) :=
          match r1 with
          | c :: r => if Ascii.eqb c "." then span_digits r else ([], r1)
          | [] => ([], [])
          end in
        match ip ++ fp with
        | [] => None
        | ds =>
            match read_exponent r2 with
            | Some ex =>
                float_of_decimal neg (decimal ds)
                                 (ex - Z.of_nat (List.length fp))
            | None => None
            end
        end
  end.

(** *** [datetime.fromisoformat(s)] *)

(** Exactly [n] decimal digits. *)
Fixpoint read_digits (n : nat) (acc : Z) (cs : list ascii)
  : option (Z * list ascii) :=
  match n with
  | O => Some (acc, cs)
  | S n' =>
      match cs with
      | c :: r => if is_digit c
                  then read_digits n' (acc * 10 + digit_val c)%Z r
                  else None
      | [] => None
      end
  end.

Definition expect (c : ascii) (cs : list ascii) : option (list ascii) :=
  match cs with
  | c' :: r => if Ascii.eqb c' c then Some r else None
  | [] => None
  end.

Definition obind {A B} (o : option A) (k : A -> option B) : option B :=
  match o with
  | Some a => k a
  | None => None
  end.

(** [HH[:MM[:SS[.fff[fff]]]]], the whole of [cs]. *)
Definition parse_hh_mm_ss_ff (cs : list ascii) : option (Z * Z * Z * Z) :=
  obind (read_digits 2 0 cs) (fun '(hh, r) =>
  match r with
  | [] => Some (hh, 0, 0, 0)%Z
  | _ =>
  obind (expect ":" r) (fun r =>
  obind (read_digits 2 0 r) (fun '(mm, r) =>
  match r with
  | [] => Some (hh, mm, 0, 0)%Z
  | _ =>
  obind (expect ":" r) (fun r =>
  obind (read_digits 2 0 r) (fun '(ss, r) =>
  match r with
  | [] => Some (hh, mm, ss, 0)%Z
  | _ =>
  obind (expect "." r) (fun r =>
  match List.length r with
  | 3%nat => obind (read_digits 3 0 r) (fun '(ff, _) =>
             Some (hh, mm, ss, ff * 1000)%Z)
  | 6%nat => obind (read_digits 6 0 r) (fun '(ff, _) =>
             Some (hh, mm, ss, ff)%Z)
  | _ => None
  end)
  end))
  end))
  end).

(** The time part up to the first sign, and the zone after it. *)
Fixpoint split_zone (cs : list ascii)
  : list ascii * option (bool * list ascii) :=
  match cs with
  | [] => ([], None)
  | c :: r =>
      if Ascii.eqb c "+" then ([], Some (false, r))
      else if Ascii.eqb c "-" then ([], Some (true, r))
      else let '(t, z) := split_zone r in (c :: t, z)
  end.

Definition parse_isoformat_time (cs : list ascii)
  : option (Z * Z * Z * Z * option Z) :=
  let '(t, z) := split_zone cs in
  obind (parse_hh_mm_ss_ff t) (fun tc =>
  match z with
  | None => Some (tc, None)
  | Some (neg, zs) =>
      let n := List.length zs in
      if Nat.eqb n 5 || Nat.eqb n 8 || Nat.eqb n 15 then
        obind (parse_hh_mm_ss_ff zs) (fun '(zh, zm, zsec, zus) =>
        let off := (((zh * 60 + zm) * 60 + zsec) * 1000000 + zus)%Z in
        Some (tc, Some (if neg then (- off)%Z else off)))
      else None
  end).

Definition day_us : Z := 86400000000.

(** The range checks of the [datetime] and [timezone] constructors. *)
Definition valid_datetime (d : datetime) : bool :=
  ((1 <=? year d) && (year d <=? 9999)
   && (1 <=? month d) && (month d <=? 12)
   && (1 <=? day d) && (day d <=? days_in_month (year d) (month d))
   && (hour d <=? 23) && (minute d <=? 59) && (second d <=? 59)
   && match utcoffset d with
      | Some o => (- day_us <? o) && (o <? day_us)
      | None => true
      end)%Z.

(** [datetime.fromisoformat(s)] for the format
    [YYYY-MM-DD[*HH[:MM[:SS[.fff[fff]]]][+HH:MM[:SS[.ffffff]]]]], where [*]
    is any one character; [None] stands for [ValueError]. *)
Definition fromisoformat (s : string) : option datetime :=
  let cs := list_ascii_of_string s in
  obind (read_digits 4 0 cs) (fun '(y, r) =>
  obind (expect "-" r) (fun r =>
  obind (read_digits 2 0 r) (fun '(m, r) =>
  obind (expect "-" r) (fun r =>
  obind (read_digits 2 0 r) (fun '(d, r) =>
  obind (match r with
         | [] => Some (0, 0, 0, 0, None)%Z
         | _ :: t => parse_isoformat_time t
         end) (fun '(hh, mm, ss, us, tz) =>
  let dt := mk_datetime y m d hh mm ss us tz in
  if valid_datetime dt then Some dt else None)))))).

(** *** Mappings *)

(** [d[k] = v]: an existing key keeps its place, a new one goes last. *)
Fixpoint dict_set (d : dict) (k : string) (v : value) : dict :=
  match d with
  | [] => [(k, v)]
  | (k', v') :: d' =>
      if k' =? k then (k, v) :: d' else (k', v') :: dict_set d' k v
  end.

(** [d.update(e)] *)
Definition dict_update (d e : dict) : dict :=
  fold_left (fun acc kv => dict_set acc (fst kv) (snd kv)) e d.

(** [d.get(k, default)] *)
Definition dict_get (d : dict) (k : string) (default : value) : value :=
  match assoc k d with
  | Some v => v
  | None => default
  end.

(** [v[k]] *)
Definition getitem (v : value) (k : string) : result value :=
  match v with
  | VDict d =>
      match assoc k d with
      | Some x => Ok x
      | None => Raise (KeyError k)
      end
  | _ => Raise TypeError
  end.

(** [v.items()] *)
Definition items (v : value) : result dict :=
  match v with
  | VDict d => Ok d
  | _ => Raise AttributeError
  end.

(** [x in c] *)
Definition py_in (x c : value) : result bool :=
  match c with
  | VDict d =>
      match x with
      | VStr s => Ok (match assoc s d with Some _ => true | None => false end)
      | VDict _ => Raise TypeError
      | _ => Ok false
      end
  | VStr s =>
      match x with
      | VStr t => Ok (str_contains t s)
      | _ => Raise TypeError
      end
  | _ => Raise TypeError
  end.

(** [for k in c]: the keys of a mapping, the characters of a [str]. *)
Definition iter (c : value) : result (list string) :=
  match c with
  | VDict d => Ok (map fst d)
  | VStr s => Ok (chars s)
  | _ => Raise TypeError
  end.

End Py.




Import Py.
Local Open Scope result_scope.

(** ** [module/config/utils.py]: nested mappings addressed by dotted paths *)

Module Utils.

(** Modelled from the spec: [deep_get], of [module/config/utils.py].  The
    path is split on the dot; the result is [default] when a key on the way
    is absent or the container at that level is not a mapping. *)
Fixpoint deep_get_keys (d : value) (keys : list string) (default : value)
  : value :=
  match keys with
  | [] => d
  | k :: ks =>
      match d with
      | VDict m =>
          match assoc k m with
          | Some v => deep_get_keys v ks default
          | None => default
          end
      | _ => default
      end
  end.

Definition deep_get (d : value) (keys : string) (default : value) : value :=
  deep_get_keys d (split "." keys) default.

(** Modelled from the spec: [deep_set], of [module/config/utils.py].  The
    mappings on the way are created as needed, also in place of a value
    that is not a mapping. *)
Fixpoint deep_set_keys (d : value) (keys : list string) (v : value) : value :=
  match keys with
  | [] => v
  | k :: ks =>
      let m := match d with VDict m => m | _ => [] end in
      VDict (dict_set m k (deep_set_keys (dict_get m k VNone) ks v))
  end.

Definition deep_set (d : dict) (keys : string) (v : value) : dict :=
  match deep_set_keys (VDict d) (split "." keys) v with
  | VDict m => m
  | _ => d
  end.

(** Whether the path leads to a value. *)
Fixpoint deep_has_keys (d : value) (keys : list string) : bool :=
  match keys with
  | [] => true
  | k :: ks =>
      match d with
      | VDict m =>
          match assoc k m with
          | Some v => deep_has_keys v ks
          | None => false
          end
      | _ => false
      end
  end.

(** Modelled from the spec: [deep_default], of [module/config/utils.py],
    the set-if-absent of the path operations. *)
Definition deep_default (d : dict) (keys : string) (v : value) : dict :=
  if deep_has_keys (VDict d) (split "." keys) then d else deep_set d keys v.

End Utils.

Import Utils.

(** ** The functions of [module/config/db.py] *)

Definition INFO : string := "_info".

(** [parse_value(value, data)] *)
Definition parse_value (value0 data : value) : result value :=
  do option <- getitem data "option";
  do rejected <- (if truthy option
                  then (do found <- py_in value0 option; Ok (negb found))
                  else Ok false);
  if rejected then getitem data "value"
  else
    match value0 with
    | VStr s =>
        if s =? "" then Ok VNone
        else
          let typed :=
            if str_contains "." s
            then option_map VFloat (py_float s)
            else option_map VInt (py_int s) in
          match typed with
          | Some v => Ok v
          | None =>
              match fromisoformat s with
              | Some d => Ok (VDate d)
              | None => Ok value0
              end
          end
    | _ => Ok value0
    end.

(** A TinyDB query: the conjunction of the tests [where(k) == v]. *)
Definition query : Type := list (string * value).

(** [request_to_query(request)]; [None] is Python's [None]. *)
Definition request_to_query (request : dict) : option query :=
  let test (k : string) : query :=
    let v := dict_get request k VNone in
    if truthy v then [(k, v)] else [] in
  match test "func" ++ test "group" ++ test "arg" ++ test "lang" with
  | [] => None
  | q => Some q
  end.

(** [str.join] over values: every item has to be a [str]. *)
Fixpoint join_values (l : list value) : result (list string) :=
  match l with
  | [] => Ok []
  | VStr s :: l' => do r <- join_values l'; Ok (s :: r)
  | _ :: _ => Raise TypeError
  end.

(** [data_to_path(data)] *)
Definition data_to_path (data : dict) : result string :=
  do parts <- join_values
                (map (fun attr => dict_get data attr (VStr ""))
                     ["func"; "group"; "arg"]);
  Ok (join "." parts).

(** ** The document store *)

Module TinyDB.

(** The rows of the one table, in insertion order. *)
Definition store : Type := list dict.

(** [where(k) == v] on a document: false when the document has no [k]. *)
Definition test (doc : dict) (kv : string * value) : bool :=
  match assoc (fst kv) doc with
  | Some x => py_eqb x (snd kv)
  | None => false
  end.

Definition matches (q : query) (doc : dict) : bool := forallb (test doc) q.

(** The documents a search makes when the query is not cached: a copy of
    every row the condition holds of.  Calling the condition [None] on a
    row raises. *)
Definition scan (cond : option query) (db : store) : result (list dict) :=
  match cond with
  | Some q => Ok (filter (matches q) db)
  | None => match db with [] => Ok [] | _ :: _ => Raise TypeError end
  end.

(** *** The query cache

    A table keeps the documents of the queries it was asked last, ten at
    most, and a search for one of them hands out those documents again,
    the same objects.  The rows do not change while a query is cached (a
    write clears the cache), and the only code that changes a document
    in place is the overlay of [select_function], whose query tests
    [func] and [lang] and which sets the [value] of a document: the
    entry of such a query keeps the value each of its documents has once
    they have been overlaid, any other entry stands for the rows its
    query matches. *)
Inductive cached : Type :=
| Matched (q : query)
| Overlaid (func lang : value) (values : list (option value)).

(** The documents of rows given the value each of them has: [None] for
    a document without the key. *)
Fixpoint with_values (rows : list dict) (values : list (option value))
  : list dict :=
  match rows, values with
  | doc :: rows', Some v :: values' =>
      dict_set doc "value" v :: with_values rows' values'
  | doc :: rows', None :: values' => doc :: with_values rows' values'
  | _, _ => rows
  end.

(** The entries, least recently used first. *)
Definition cache : Type := list cached.

Definition capacity : nat := 10.

(** Two queries are the same key when they make the same tests, on
    values that are equal. *)
Fixpoint query_eqb (p q : query) : bool :=
  match p, q with
  | [], [] => true
  | a :: p', b :: q' =>
      (fst a =? fst b) && py_eqb (snd a) (snd b) && query_eqb p' q'
  | _, _ => false
  end.

Definition cached_query (e : cached) : query :=
  match e with
  | Matched q => q
  | Overlaid func lang _ => [("func", func); ("lang", lang)]
  end.

Definition holds (q : query) (e : cached) : bool :=
  query_eqb (cached_query e) q.

Definition find (q : query) (c : cache) : option cached :=
  List.find (holds q) c.

(** The values overlaid in the documents of the query [q]. *)
Definition held (q : query) (c : cache) : list (option value) :=
  match find q c with
  | Some (Overlaid _ _ values) => values
  | _ => []
  end.

(** The documents of the entry that holds the query [q]. *)
Definition documents (q : query) (e : cached) (db : store) : list dict :=
  match e with
  | Matched _ => filter (matches q) db
  | Overlaid _ _ values => with_values (filter (matches q) db) values
  end.

(** A query that is found becomes the most recently used. *)
Definition refresh (q : query) (c : cache) : cache :=
  match find q c with
  | Some e => filter (fun e' => negb (holds q e')) c ++ [e]
  | None => c
  end.

(** A new entry goes last; the least recently used one is dropped when
    the cache holds more than [capacity] entries. *)
Definition put (e : cached) (c : cache) : cache :=
  let c := c ++ [e] in
  if Nat.ltb capacity (List.length c) then tl c else c.

(** [table.search(cond)]: the documents, and the cache afterwards.  The
    methods of [Database] never search without a condition. *)
Definition search (cond : option query) (c : cache) (db : store)
  : result (list dict) * cache :=
  match cond with
  | Some q =>
      match find q c with
      | Some e => (Ok (documents q e db), refresh q c)
      | None => (scan cond db, put (Matched q) c)
      end
  | None => (scan cond db, c)
  end.

(** The documents of the query on [func] and [lang] have been changed in
    place, to what [f] makes of them. *)
Definition change (func lang : value) (f : list dict -> list dict)
  (db : store) (c : cache) : cache :=
  let q := [("func", func); ("lang", lang)] in
  map (fun e => if holds q e
                then Overlaid func lang
                       (map (assoc "value") (f (documents q e db)))
                else e) c.

(** [db.update(fields, cond)]: [fields] merged into every matching row,
    into every row when there is no condition.  A write clears the query
    cache. *)
Definition update (fields : dict) (cond : option query) (db : store) : store :=
  map (fun doc =>
         match cond with
         | Some q => if matches q doc then dict_update doc fields else doc
         | None => dict_update doc fields
         end) db.

(** [db.insert(doc)] *)
Definition insert (doc : dict) (db : store) : store := db ++ [doc].

End TinyDB.

(** ** Migration: [_data_iter] and [_data_merge] *)

(** [Database.lang] *)
Definition lang : list string := ["zh-CN"].

(** The 4-tuple [(func, group, arg, lang)] of a row. *)
Definition key4 : Type := value * value * value * value.

Definition key4_eqb (a b : key4) : bool :=
  let '(a1, a2, a3, a4) := a in
  let '(b1, b2, b3, b4) := b in
  py_eqb a1 b1 && py_eqb a2 b2 && py_eqb a3 b3 && py_eqb a4 b4.

Definition key4_hashable (a : key4) : bool :=
  let '(a1, a2, a3, a4) := a in
  hashable a1 && hashable a2 && hashable a3 && hashable a4.

Definition row_key (raw : dict) : result key4 :=
  do f <- getitem (VDict raw) "func";
  do g <- getitem (VDict raw) "group";
  do a <- getitem (VDict raw) "arg";
  do l <- getitem (VDict raw) "lang";
  Ok (f, g, a, l).

(** One round of the loop of [info]: the key of [raw] is looked up in
    [visited]; a tuple holding a mapping cannot be hashed. *)
Definition info_step (raw : dict) (st : list key4 * list dict)
  : result (list key4 * list dict) :=
  let '(visited, out) := st in
  do key <- row_key raw;
  if key4_hashable key then
    if existsb (key4_eqb key) visited then Ok (visited, out)
    else Ok (visited ++ [key], out ++ [raw])
  else Raise TypeError.

(** The local function [info] of [_data_iter], with the set [visited] it
    closes over: the row itself, the row of its group and the row of its
    function, each unless seen before, in reverse. *)
Definition info (raw : dict) (visited : list key4)
  : result (list key4 * list dict) :=
  do st <- info_step raw (visited, []);
  let raw := dict_set raw "arg" (VStr INFO) in
  do st <- info_step raw st;
  let raw := dict_set raw "group" (VStr INFO) in
  do st <- info_step raw st;
  Ok (fst st, rev (snd st)).

(** The draft row of a leaf of the schema definition. *)
Definition draft (func group arg lang0 : string) (value0 : value) : dict :=
  let data := [("func", VStr func); ("group", VStr group); ("arg", VStr arg);
               ("lang", VStr lang0); ("value", value0)] in
  match value0 with
  | VDict detail => dict_update data detail
  | _ => data
  end.

(** A generator that has run: the rows it yielded and, when an exception
    ended it, that exception. *)
Definition generated : Type := (list dict * option exn)%type.

(** A [for] loop of a generator body over [l]; [body] gets the set
    [visited] and returns it with what it yields. *)
Fixpoint gen_for {A : Type}
  (body : A -> list key4 -> list key4 * generated)
  (l : list A) (visited : list key4) : list key4 * generated :=
  match l with
  | [] => (visited, ([], None))
  | x :: l' =>
      match body x visited with
      | (visited, (rows, Some e)) => (visited, (rows, Some e))
      | (visited, (rows, None)) =>
          let '(visited, (rows', e)) := gen_for body l' visited in
          (visited, (rows ++ rows', e))
      end
  end.

(** A loop over [v.items()]. *)
Definition gen_items
  (body : string * value -> list key4 -> list key4 * generated)
  (v : value) (visited : list key4) : list key4 * generated :=
  match items v with
  | Ok d => gen_for body d visited
  | Raise e => (visited, ([], Some e))
  end.

(** [Database._data_iter(args)] *)
Definition _data_iter (args : value) : generated :=
  snd (gen_items (fun '(func, func_data) =>
       gen_items (fun '(group, group_data) =>
       gen_items (fun '(arg, value0) =>
       gen_for (fun lang0 visited =>
         match info (draft func group arg lang0 value0) visited with
         | Ok (visited, rows) => (visited, (rows, None))
         | Raise e => (visited, ([], Some e))
         end) lang) group_data) func_data) args []).

(** The dict comprehension of [_data_merge]. *)
Definition option_labels (old : dict) (keys : list string) : dict :=
  fold_left
    (fun acc k =>
       dict_set acc k (deep_get (VDict old) ("option." ++ k) (VStr k)))
    keys [].

(** [Database._data_merge(old, args)] *)
Definition _data_merge (old args : dict) : result dict :=
  let data := [("func", VStr ""); ("group", VStr ""); ("arg", VStr "");
               ("lang", VStr ""); ("name", VStr ""); ("help", VStr "");
               ("type", VStr "input"); ("value", VStr "");
               ("option", VDict [])] in
  let data := dict_update data args in
  do key <- data_to_path data;
  let data :=
    fold_left
      (fun data attr =>
         let v := dict_get old attr (VStr "") in
         let v := if truthy v then v else VStr (key ++ "." ++ attr) in
         dict_set data attr v)
      ["name"; "help"] data in
  do option <- getitem (VDict data) "option";
  do data <- (if truthy option
              then (do keys <- iter option;
                    Ok (dict_set data "option"
                                 (VDict (option_labels old keys))))
              else Ok data);
  do arg <- getitem (VDict data) "arg";
  if py_eqb arg (VStr INFO)
  then Ok (dict_update data [("type", VStr ""); ("value", VStr "");
                             ("option", VDict [])])
  else Ok data.

(** ** The state of the process and of the files *)

(** A line of the generated code.  A declaration is kept with the path it
    declares and the dictionary built for it; [render] gives its text. *)
Record decl : Type := mk_decl {
  decl_value : value;
  decl_path : string;
  decl_option : option (list string)
}.

Inductive line : Type :=
| Text (s : string)
| Declaration (path : string) (data : decl).

Record Database : Type := mk_Database {
  (* the files *)
  file_arg : value;                      (* filepath_arg() *)
  file_db : TinyDB.store;                (* filepath_db() *)
  file_config : list (string * dict);    (* filepath_config(name) *)
  file_code : list string;               (* filepath_code() *)
  (* the process *)
  CONFIG_IMPORT : list line;             (* the module-level list *)
  db : option TinyDB.store;              (* the cached property *)
  query_cache : TinyDB.cache;            (* the query cache of self.db *)
  _config : list (value * dict);
  _config_updated : list value;
  random_ids : nat -> string;            (* what random_id() will return *)
  random_calls : nat
}.

(** A method: it may raise, and the state it leaves is kept either way. *)
Definition M (A : Type) : Type := Database -> result A * Database.

Definition ret {A} (a : A) : M A := fun s => (Ok a, s).

Definition bind {A B} (c : M A) (k : A -> M B) : M B :=
  fun s =>
    match c s with
    | (Ok a, s') => k a s'
    | (Raise e, s') => (Raise e, s')
    end.

Definition lift {A} (r : result A) : M A := fun s => (r, s).

Definition gets {A} (f : Database -> A) : M A := fun s => (Ok (f s), s).

Definition modify (f : Database -> Database) : M unit :=
  fun s => (Ok tt, f s).

Definition assert (b : bool) (msg : string) : M unit :=
  lift (if b then Ok tt else Raise (AssertionError msg)).

Declare Scope method_scope.
Delimit Scope method_scope with method.
Notation "'let*' x := c 'in' k" := (bind c (fun x => k))
  (at level 10, x name, c at level 100, k at level 200) : method_scope.
Notation "c ;; k" := (bind c (fun _ => k))
  (at level 100, right associativity) : method_scope.

(** A [for] loop whose body may raise. *)
Fixpoint for_each {A : Type} (l : list A) (body : A -> M unit) : M unit :=
  match l with
  | [] => ret tt
  | x :: l' => bind (body x) (fun _ => for_each l' body)
  end.

Definition set_file_db (v : TinyDB.store) (s : Database) : Database :=
  mk_Database (file_arg s) v (file_config s) (file_code s) (CONFIG_IMPORT s)
    (db s) (query_cache s) (_config s) (_config_updated s) (random_ids s)
    (random_calls s).

Definition set_file_config (v : list (string * dict)) (s : Database)
  : Database :=
  mk_Database (file_arg s) (file_db s) v (file_code s) (CONFIG_IMPORT s)
    (db s) (query_cache s) (_config s) (_config_updated s) (random_ids s)
    (random_calls s).

Definition set_file_code (v : list string) (s : Database) : Database :=
  mk_Database (file_arg s) (file_db s) (file_config s) v (CONFIG_IMPORT s)
    (db s) (query_cache s) (_config s) (_config_updated s) (random_ids s)
    (random_calls s).

Definition set_CONFIG_IMPORT (v : list line) (s : Database) : Database :=
  mk_Database (file_arg s) (file_db s) (file_config s) (file_code s) v
    (db s) (query_cache s) (_config s) (_config_updated s) (random_ids s)
    (random_calls s).

Definition set_db (v : option TinyDB.store) (s : Database) : Database :=
  mk_Database (file_arg s) (file_db s) (file_config s) (file_code s)
    (CONFIG_IMPORT s) v (query_cache s) (_config s) (_config_updated s)
    (random_ids s) (random_calls s).

Definition set_query_cache (v : TinyDB.cache) (s : Database) : Database :=
  mk_Database (file_arg s) (file_db s) (file_config s) (file_code s)
    (CONFIG_IMPORT s) (db s) v (_config s) (_config_updated s)
    (random_ids s) (random_calls s).

Definition set__config (v : list (value * dict)) (s : Database) : Database :=
  mk_Database (file_arg s) (file_db s) (file_config s) (file_code s)
    (CONFIG_IMPORT s) (db s) (query_cache s) v (_config_updated s)
    (random_ids s) (random_calls s).

Definition set__config_updated (v : list value) (s : Database) : Database :=
  mk_Database (file_arg s) (file_db s) (file_config s) (file_code s)
    (CONFIG_IMPORT s) (db s) (query_cache s) (_config s) v (random_ids s)
    (random_calls s).

Definition set_random_calls (v : nat) (s : Database) : Database :=
  mk_Database (file_arg s) (file_db s) (file_config s) (file_code s)
    (CONFIG_IMPORT s) (db s) (query_cache s) (_config s) (_config_updated s)
    (random_ids s) v.

(** The rows [self.db] holds: the cached ones, or those of the file. *)
Definition current_rows (s : Database) : TinyDB.store :=
  match db s with
  | Some rows => rows
  | None => file_db s
  end.

(** The query cache of [self.db]: a store that is not loaded has none. *)
Definition current_cache (s : Database) : TinyDB.cache :=
  match db s with
  | Some _ => query_cache s
  | None => []
  end.

(** The literal [CONFIG_IMPORT] starts as. *)
Definition CONFIG_IMPORT_literal : list line :=
  let q := String (ascii_of_nat 34) EmptyString in
  map Text
    ["import datetime";
     "";
     "from module.config.argument import Argument";
     "";
     "# This file was automatically generated by module/config/db.py.";
     "# Don't modify it manually.";
     "";
     "";
     "class GeneratedConfig:";
     ("    " ++ q ++ q ++ q)%string;
     "    Auto generated configuration";
     ("    " ++ q ++ q ++ q)%string].

(** Dictionaries and sets keyed by values. *)
Fixpoint vassoc {A : Type} (k : value) (d : list (value * A)) : option A :=
  match d with
  | [] => None
  | (k', v) :: d' => if py_eqb k' k then Some v else vassoc k d'
  end.

Fixpoint vset {A : Type} (d : list (value * A)) (k : value) (v : A)
  : list (value * A) :=
  match d with
  | [] => [(k, v)]
  | (k', v') :: d' =>
      if py_eqb k' k then (k', v) :: d' else (k', v') :: vset d' k v
  end.

Fixpoint vpop {A : Type} (d : list (value * A)) (k : value)
  : list (value * A) :=
  match d with
  | [] => []
  | (k', v') :: d' => if py_eqb k' k then d' else (k', v') :: vpop d' k
  end.

Definition vmem (k : value) (l : list value) : bool := existsb (py_eqb k) l.

Definition hash_check (k : value) : M unit :=
  lift (if hashable k then Ok tt else Raise TypeError).

(** ** The methods of [Database] *)

Local Open Scope method_scope.

Section Methods.

(** What the functions of [module/config/utils.py] used below compute, and
    how an f-string formats a value that is not a [str]. *)
Variable filepath_config : value -> string.
Variable path_to_arg : string -> string.
Variable dict_to_kv : decl -> string.
Variable py_str : value -> string.

(** [f'{v}'] *)
Definition fmt (v : value) : string :=
  match v with
  | VStr s => s
  | _ => py_str v
  end.

Definition render (l : line) : string :=
  match l with
  | Text s => s
  | Declaration path data =>
      "    " ++ path_to_arg path ++ " = Argument(" ++ dict_to_kv data ++ ")"
  end.

(** [read_file(filepath_config(name))]: a file that does not exist reads
    as the empty mapping. *)
Definition read_config (config_name : value) : M dict :=
  gets (fun s => match assoc (filepath_config config_name) (file_config s) with
                 | Some d => d
                 | None => []
                 end).

(** [write_file(filepath_config(name), data)] *)
Definition write_config (config_name : value) (data : dict) : M unit :=
  modify (fun s => set_file_config
                     ((filepath_config config_name, data)
                      :: filter (fun kv => negb (fst kv =? filepath_config config_name))
                                (file_config s)) s).

(** [random_id()] *)
Definition random_id : M string :=
  fun s => (Ok (random_ids s (random_calls s)),
            set_random_calls (S (random_calls s)) s).

(** [Database.db], the cached property: loaded on first use, with an
    empty query cache. *)
Definition self_db : M TinyDB.store :=
  fun s =>
    match db s with
    | Some rows => (Ok rows, s)
    | None => (Ok (file_db s),
               set_query_cache [] (set_db (Some (file_db s)) s))
    end.

(** [self.db.search(cond)]: the search goes through the query cache of
    the store. *)
Definition db_search (cond : option query) : M (list dict) :=
  let* rows := self_db in
  fun s => let '(docs, cache) := TinyDB.search cond (query_cache s) rows in
           (docs, set_query_cache cache s).

(** [Database._check_config(data, is_template)] *)
Definition _check_config (data : dict) (is_template : bool) : M dict :=
  if is_template
  then ret (deep_set data "Alas.DropRecord.AzurStatsID" VNone)
  else let* id := random_id in
       ret (deep_default data "Alas.DropRecord.AzurStatsID" (VStr id)).

(** The body of the loop of [update_config]. *)
Definition project_row (old : dict) (new : dict) (arg : dict) : result dict :=
  do g <- getitem (VDict arg) "group";
  if py_eqb g (VStr INFO) then Ok new
  else
    do a <- getitem (VDict arg) "arg";
    if py_eqb a (VStr INFO) then Ok new
    else
      do path <- data_to_path arg;
      do default <- getitem (VDict arg) "value";
      let value0 := deep_get (VDict old) path default in
      do value0 <- parse_value value0 (VDict arg);
      Ok (deep_set new path value0).

Fixpoint project_rows (old : dict) (new : dict) (arguments : list dict)
  : result dict :=
  match arguments with
  | [] => Ok new
  | arg :: rest =>
      do new <- project_row old new arg;
      project_rows old new rest
  end.

(** [Database.update_config(config_name)] *)
Definition update_config (config_name : value) : M dict :=
  let* old := read_config config_name in
  let* arguments := db_search (Some [("lang", VStr "zh-CN")]) in
  let* new := lift (project_rows old [] arguments) in
  let* new := _check_config new (py_eqb config_name (VStr "template")) in
  write_config config_name new ;;
  ret new.

(** [Database.config(config_name)] *)
Definition config (config_name : value) : M dict :=
  hash_check config_name ;;
  let* cache := gets _config in
  match vassoc config_name cache with
  | Some data => ret data
  | None =>
      let* updated := gets _config_updated in
      if vmem config_name updated then
        let* data := read_config config_name in
        modify (fun s => set__config (vset (_config s) config_name data) s) ;;
        ret data
      else
        let* data := update_config config_name in
        modify (fun s => set__config_updated
                           (if vmem config_name (_config_updated s)
                            then _config_updated s
                            else _config_updated s ++ [config_name]) s) ;;
        modify (fun s => set__config (vset (_config s) config_name data) s) ;;
        ret data
  end.

(** [Database.config_save(config_name)] *)
Definition config_save (config_name : value) : M unit :=
  let* data := config config_name in
  write_config config_name data.

(** [Database.config_clear(config_name)] *)
Definition config_clear (config_name : value) : M unit :=
  let config_name :=
    match config_name with
    | VDict d => dict_get d "config" VNone
    | _ => config_name
    end in
  if truthy config_name then
    hash_check config_name ;;
    modify (fun s => set__config (vpop (_config s) config_name) s)
  else ret tt.

(** The body of the loop of [update_db]: the prior row of the draft, the
    merge, the insertion.  The documents of a query on the four fields
    are the rows it matches; what the search does to the query cache is
    in [migrate_cache]. *)
Definition migrate_row (old : TinyDB.store) (new : TinyDB.store) (data : dict)
  : result TinyDB.store :=
  do key <- row_key data;
  let '(f, g, a, l) := key in
  do res <- TinyDB.scan
              (Some [("func", f); ("group", g); ("arg", a); ("lang", l)]) old;
  let res := match res with r :: _ => r | [] => [] end in
  do res <- _data_merge res data;
  Ok (TinyDB.insert res new).

Fixpoint migrate_rows (old : TinyDB.store) (new : TinyDB.store)
  (rows : list dict) : result TinyDB.store :=
  match rows with
  | [] => Ok new
  | data :: rest =>
      do new <- migrate_row old new data;
      migrate_rows old new rest
  end.

(** The loop of [update_db] over the generator [_data_iter]: the rows it
    yields are merged one by one, then the exception that ended it, if
    any, is raised. *)
Definition migrate (old : TinyDB.store) (args : value) : result TinyDB.store :=
  let '(rows, e) := _data_iter args in
  do new <- migrate_rows old [] rows;
  match e with
  | Some e => Raise e
  | None => Ok new
  end.

(** The queries the loop of [update_db] sends to the old store: one for
    each row the generator yields, up to a row that has no 4-tuple or
    whose merge raises. *)
Fixpoint migrate_queries (old : TinyDB.store) (rows : list dict)
  : list query :=
  match rows with
  | [] => []
  | data :: rest =>
      match row_key data with
      | Ok (f, g, a, l) =>
          [("func", f); ("group", g); ("arg", a); ("lang", l)]
          :: match migrate_row old [] data with
             | Ok _ => migrate_queries old rest
             | Raise _ => []
             end
      | Raise _ => []
      end
  end.

(** The query cache of the old store after those searches. *)
Definition migrate_cache (old : TinyDB.store) (args : value)
  (cache : TinyDB.cache) : TinyDB.cache :=
  fold_left (fun cache q => snd (TinyDB.search (Some q) cache old))
            (migrate_queries old (fst (_data_iter args))) cache.

(** [Database.update_db()].  The searches of the loop go through the
    query cache of the old store, which keeps them also when the loop
    raises; [del self.__dict__['db']] drops the store of the process
    with its query cache. *)
Definition update_db : M unit :=
  let* old := self_db in
  let* data := gets file_arg in
  modify (fun s => set_query_cache (migrate_cache old data (query_cache s)) s) ;;
  let* new := lift (migrate old data) in
  modify (set_file_db new) ;;
  let* _ := update_config (VStr "template") in
  modify (fun s => set_query_cache [] (set_db None s)).

(** [lines.append(l)], on the list [CONFIG_IMPORT] that [lines] aliases. *)
Definition append_line (l : line) : M unit :=
  modify (fun s => set_CONFIG_IMPORT (CONFIG_IMPORT s ++ [l]) s).

(** [tuple(list(option.keys()))] *)
Definition option_keys (option : value) : result (list string) :=
  match option with
  | VDict d => Ok (map fst d)
  | _ => Raise AttributeError
  end.

(** The loop of [update_code], with its two sets. *)
Fixpoint code_loop (args : list dict) (visited_path : list string)
  (visited_func : list value) : M unit :=
  match args with
  | [] => ret tt
  | arg :: rest =>
      let* func := lift (getitem (VDict arg) "func") in
      hash_check func ;;
      let* visited_func :=
        (if vmem func visited_func then ret visited_func
         else
           append_line (Text "") ;;
           append_line (Text ("    # Func `" ++ fmt func ++ "`")) ;;
           ret (visited_func ++ [func])) in
      let* g := lift (getitem (VDict arg) "group") in
      let* a := lift (getitem (VDict arg) "arg") in
      let path := (fmt g ++ "." ++ fmt a)%string in
      if existsb (String.eqb path) visited_path || str_contains INFO path
      then code_loop rest visited_path visited_func
      else
        let* v := lift (getitem (VDict arg) "value") in
        let* v := lift (parse_value v (VDict arg)) in
        let* option := lift (getitem (VDict arg) "option") in
        let* keys := lift (if truthy option
                           then (do ks <- option_keys option; Ok (Some ks))
                           else Ok None) in
        append_line (Declaration path (mk_decl v path keys)) ;;
        code_loop rest (visited_path ++ [path]) visited_func
  end.

(** [Database.update_code()] *)
Definition update_code : M unit :=
  let* args := db_search (request_to_query [("lang", VStr "zh-CN")]) in
  code_loop args [] [] ;;
  let* lines := gets CONFIG_IMPORT in
  modify (set_file_code (map render lines)).

(** The loop of [select_db]. *)
Fixpoint nest_rows (response : dict) (rows : list dict) : result dict :=
  match rows with
  | [] => Ok response
  | arg :: rest =>
      do path <- data_to_path arg;
      nest_rows (deep_set response path (VDict arg)) rest
  end.

(** [Database.select_db(request)] *)
Definition select_db (request : dict) : M dict :=
  let func := dict_get request "func" VNone in
  let group := dict_get request "group" VNone in
  let arg := dict_get request "arg" VNone in
  assert (truthy func || truthy group || truthy arg)
    "Must fill one of `func`, `group` or `arg` in request" ;;
  let* result := db_search (request_to_query request) in
  lift (nest_rows [] result).

(** [Database.select_config(request)] *)
Definition select_config (request : dict) : M dict :=
  let func := dict_get request "func" VNone in
  let group := dict_get request "group" VNone in
  let arg := dict_get request "arg" VNone in
  let config0 := dict_get request "config" VNone in
  assert (truthy func) "Must fill `func` in request" ;;
  assert (truthy config0) "Must fill `config` in request" ;;
  (if truthy group
   then assert (truthy func) "Must fill `func` in request, if `group filled`"
   else ret tt) ;;
  (if truthy arg
   then assert (truthy func) "Must fill `group` in request, if `arg filled`"
   else ret tt) ;;
  let* response := select_db request in
  let* parts := lift (join_values (filter truthy [func; group; arg])) in
  let path := join "." parts in
  let* data := config config0 in
  let value0 := deep_get (VDict data) path VNone in
  ret (deep_set response path value0).

(** A [for] loop over [v.items()] that changes the tree in place: the
    tree it has reached, and the exception that ended it, if any. *)
Definition items_step (body : string * value -> dict -> dict * option exn)
  (st : dict * option exn) (kv : string * value) : dict * option exn :=
  match snd st with
  | None => body kv (fst st)
  | Some _ => st
  end.

Definition fold_items (v : value)
  (body : string * value -> dict -> dict * option exn) (acc : dict)
  : dict * option exn :=
  match items v with
  | Ok d => fold_left (items_step body) d (acc, None)
  | Raise e => (acc, Some e)
  end.

(** The loops of [select_function], innermost first: a value of the
    configuration that is not [None] is set in the tree. *)
Definition overlay_arg (func group : string) (kv : string * value)
  (database : dict) : dict * option exn :=
  let '(arg, value0) := kv in
  let path := (func ++ "." ++ group ++ "." ++ arg ++ ".value")%string in
  match value0 with
  | VNone => (database, None)
  | _ => (deep_set database path value0, None)
  end.

Definition overlay_group (func : string) (kv : string * value)
  (database : dict) : dict * option exn :=
  let '(group, group_data) := kv in
  fold_items group_data (overlay_arg func group) database.

Definition overlay_func (kv : string * value) (database : dict)
  : dict * option exn :=
  let '(func, func_data) := kv in
  fold_items func_data (overlay_group func) database.

Definition overlay (config0 : dict) (database : dict) : dict * option exn :=
  fold_items (VDict config0) overlay_func database.

(** The documents of a search that went into the tree of [select_db],
    after [deep_set] has changed the tree in place: a document is in the
    tree at its path unless a later document of the list has the same
    path, and it is then what the tree has there. *)
Fixpoint documents_after (database : dict) (docs : list dict) : list dict :=
  match docs with
  | [] => []
  | doc :: rest =>
      match data_to_path doc with
      | Ok path =>
          if existsb (fun d => match data_to_path d with
                               | Ok p => p =? path
                               | Raise _ => false
                               end) rest
          then doc
          else match deep_get (VDict database) path VNone with
               | VDict m => m
               | _ => doc
               end
      | Raise _ => doc
      end :: documents_after database rest
  end.

(** The documents of the query of [select_function] stay in the query
    cache as the loops have left them, also when a loop raises. *)
Definition keep_documents (func lang0 : value) (database : dict) : M unit :=
  modify (fun s => set_query_cache
                     (TinyDB.change func lang0 (documents_after database)
                                    (current_rows s) (current_cache s)) s).

(** [Database.select_function(request)] *)
Definition select_function (request : dict) : M dict :=
  let func := dict_get request "func" VNone in
  let lang0 := dict_get request "lang" VNone in
  let config0 := dict_get request "config" VNone in
  assert (truthy func) "Must fill `func` in request" ;;
  assert (truthy lang0) "Must fill `lang` in request" ;;
  assert (truthy config0) "Must fill `config` in request" ;;
  let request := [("func", func); ("lang", lang0); ("config", config0)] in
  let* database := select_db request in
  let* config0 := select_config request in
  keep_documents func lang0 (fst (overlay config0 database)) ;;
  match snd (overlay config0 database) with
  | None => ret (fst (overlay config0 database))
  | Some e => lift (Raise e)
  end.

(** [Database.upsert_config(request)] *)
Definition upsert_config (request : dict) : M dict :=
  let func := dict_get request "func" VNone in
  let group := dict_get request "group" VNone in
  let arg := dict_get request "arg" VNone in
  let lang0 := dict_get request "lang" VNone in
  let value0 := dict_get request "value" VNone in
  let config0 := dict_get request "config" VNone in
  assert (truthy func && truthy group && truthy arg && truthy lang0)
    "Must fill all of `func`, `group`,  `arg` and `lang` in request" ;;
  assert (match value0 with VNone => false | _ => true end)
    "Must fill `value` in request" ;;
  assert (truthy config0) "Must fill `config` in request" ;;
  let* path := lift (data_to_path request) in
  let* view := select_db request in
  let default := deep_get (VDict view) path VNone in
  let* value0 := lift (parse_value value0 default) in
  let* value0 := lift (match value0 with
                       | VNone => getitem default "value"
                       | _ => Ok value0
                       end) in
  let* data := config config0 in
  modify (fun s => set__config
                     (vset (_config s) config0 (deep_set data path value0)) s) ;;
  let* response :=
    select_function [("func", func); ("lang", lang0); ("config", config0)] in
  let* data := config config0 in
  write_config config0 data ;;
  ret response.

(** [Database.upsert_db(request)]; [self.db.update] clears the query
    cache of the store. *)
Definition upsert_db (request : dict) : M dict :=
  let func := dict_get request "func" VNone in
  let group := dict_get request "group" VNone in
  let arg := dict_get request "arg" VNone in
  let lang0 := dict_get request "lang" VNone in
  let config0 := dict_get request "config" VNone in
  assert (truthy func && truthy group && truthy arg && truthy lang0)
    "Must fill all of `func`, `group`,  `arg` and `lang` in request" ;;
  let* rows := self_db in
  modify (set_db (Some (TinyDB.update request (request_to_query request) rows))) ;;
  modify (set_query_cache []) ;;
  let* rows := self_db in
  modify (set_file_db rows) ;;
  select_function [("func", func); ("lang", lang0); ("config", config0)].

(** [Database.select_menu(request)] *)
Definition select_menu (request : dict) : M dict :=
  let lang0 := dict_get request "lang" VNone in
  assert (truthy lang0) "Must fill `lang` in request" ;;
  select_db [("group", VStr INFO); ("lang", lang0)].

End Methods.

(** ** A concrete instance, for running the methods *)

Module Demo.

Definition py_str (v : value) : string :=
  match v with
  | VNone => "None"
  | VBool true => "True"
  | VBool false => "False"
  | _ => "?"
  end.

Definition filepath_config (name : value) : string :=
  "./config/" ++ match name with VStr s => s | _ => py_str name end ++ ".yaml".

Definition path_to_arg (path : string) : string :=
  join "_" (split "." path).

Definition dict_to_kv (data : decl) : string := "path='" ++ decl_path data ++ "'".

(** A fresh process over the given files. *)
Definition start (args : value) (rows : TinyDB.store)
  (configs : list (string * dict)) : Database :=
  mk_Database args rows configs [] CONFIG_IMPORT_literal None [] [] []
              (fun _ => "id") 0.

Definition run {A} (m : M A) (s : Database) : result A := fst (m s).
Definition exec {A} (m : M A) (s : Database) : Database := snd (m s).

Abbreviation update_db := (update_db filepath_config).
Abbreviation update_code := (update_code path_to_arg dict_to_kv py_str).
Abbreviation update_config := (update_config filepath_config).
Abbreviation select_function := (select_function filepath_config).
Abbreviation upsert_config := (upsert_config filepath_config).
Abbreviation upsert_db := (upsert_db filepath_config).

End Demo.

(** * The vocabulary of the properties *)

(** The rows of the canonical language, as [update_code] and
    [update_config] read them. *)
Definition canonical_rows (s : Database) : list dict :=
  filter (TinyDB.matches [("lang", VStr "zh-CN")]) (current_rows s).

(** The process when the loop of [update_db] has ended: the store is
    loaded and has been searched for every row the loop merged. *)
Definition migrating (s : Database) : Database :=
  set_query_cache
    (migrate_cache (current_rows s) (file_arg s) (current_cache s))
    (snd (self_db s)).

(** The float that [float] reads from the text 3.5 is 7 * 2^-1. *)
Definition float_3_5 : pyfloat := FFin false 7881299347898368 (-51).

Definition date_2024_01_01 : datetime :=
  mk_datetime 2024 1 1 0 0 0 0 None.

Definition decl_paths (ls : list line) : list string :=
  flat_map (fun l => match l with Declaration p _ => [p] | Text _ => [] end) ls.

(** The paths [update_code] declares, given the ones it has visited: the
    first occurrence of each path that holds no [_info]. *)
Fixpoint emitted_paths (paths visited_path : list string) : list string :=
  match paths with
  | [] => []
  | p :: rest =>
      if existsb (String.eqb p) visited_path || str_contains INFO p
      then emitted_paths rest visited_path
      else p :: emitted_paths rest (visited_path ++ [p])
  end.

(** The path [update_code] forms for a row, [group.arg]. *)
Definition code_path (py_str : value -> string) (arg : dict) : string :=
  fmt py_str (dict_get arg "group" VNone) ++ "." ++
  fmt py_str (dict_get arg "arg" VNone).

(** A store of one argument row, in a fresh process. *)
Definition interval_row : dict :=
  [("func", VStr "Main"); ("group", VStr "Scheduler"); ("arg", VStr "Interval");
   ("lang", VStr "zh-CN"); ("name", VStr "Main.Scheduler.Interval.name");
   ("help", VStr "Main.Scheduler.Interval.help"); ("type", VStr "input");
   ("value", VInt 10); ("option", VDict [])].

Definition interval_lines : list line :=
  [Text ""; Text "    # Func `Main`";
   Declaration "Scheduler.Interval"
               (mk_decl (VInt 10) "Scheduler.Interval" None)].

(** [stable P m]: a state that satisfies [P] still does after [m],
    whether [m] returns or raises. *)
Definition stable {A : Type} (P : Database -> Prop) (m : M A) : Prop :=
  forall s, P s -> P (snd (m s)).

(** The store, once loaded, and its file: only [update_db] and
    [upsert_db] change them. *)
Definition store_is (rows : TinyDB.store) (s : Database) : Prop :=
  file_db s = rows /\ db s = Some rows.

(** The condition [request_to_query] builds from a full request. *)
Definition query4 (request : dict) : query :=
  [("func", dict_get request "func" VNone);
   ("group", dict_get request "group" VNone);
   ("arg", dict_get request "arg" VNone);
   ("lang", dict_get request "lang" VNone)].

(** A name that holds no dot. *)
Fixpoint no_dot (s : string) : bool :=
  match s with
  | EmptyString => true
  | String c s' => negb (Ascii.eqb c ".") && no_dot s'
  end.

(** The label the prior row has for an option key, the key itself when it
    has none. *)
Definition prior_label (old : dict) (k : string) : value :=
  match assoc "option" old with
  | Some (VDict labels) =>
      match assoc k labels with
      | Some l => l
      | None => VStr k
      end
  | _ => VStr k
  end.

Definition merged_label (old : dict) (k : string) : value :=
  deep_get (VDict old) ("option." ++ k) (VStr k).

(** The placeholder of a human field of the row at [func.group.arg]. *)
Definition sticky (old : dict) (f g a attr : string) : value :=
  let v := dict_get old attr (VStr "") in
  if truthy v then v else VStr (join "." [f; g; a] ++ "." ++ attr).

(** A sequence of writes. *)
Definition apply_writes (d : value) (ws : list (list string * value)) : value :=
  fold_left (fun d w => deep_set_keys d (fst w) (snd w)) ws d.

(** A row that describes a group or a function. *)
Definition is_info (row : dict) : bool :=
  py_eqb (dict_get row "group" VNone) (VStr INFO)
  || py_eqb (dict_get row "arg" VNone) (VStr INFO).

Definition str_of (v : value) : string :=
  match v with
  | VStr s => s
  | _ => ""
  end.

(** The keys of the path of a row. *)
Definition row_keys (row : dict) : list string :=
  map (fun attr => str_of (dict_get row attr (VStr "")))
      ["func"; "group"; "arg"].

(** The default of a row, typed against the option set of the row. *)
Definition typed_default (row : dict) : result value :=
  do d <- getitem (VDict row) "value";
  parse_value d (VDict row).

(** The rows [update_config] can project: an [_info] row, or a row whose
    three names are [str] without dots and whose default can be typed. *)
Definition projectable (row : dict) : bool :=
  match assoc "group" row, assoc "arg" row with
  | Some g, Some a =>
      is_info row ||
      match dict_get row "func" (VStr ""), g, a, typed_default row with
      | VStr f, VStr g, VStr a, Ok _ => no_dot f && no_dot g && no_dot a
      | _, _, _, _ => false
      end
  | _, _ => false
  end.

Definition row_writes (rows : list dict) : list (list string * value) :=
  flat_map (fun row =>
              if is_info row then []
              else match typed_default row with
                   | Ok v => [(row_keys row, v)]
                   | Raise _ => []
                   end) rows.

Definition stats_keys : list string := ["Alas"; "DropRecord"; "AzurStatsID"].

Definition cached (k : value) (data : dict) (s : Database) : Prop :=
  vassoc k (_config s) = Some data.

(** What the loops over the subtree of a function write: the value of
    each argument that is not [None], under the [value] key of its row. *)
Definition arg_writes (f g : string) (m : dict) : list (list string * value) :=
  flat_map (fun kv => match snd kv with
                      | VNone => []
                      | v => [([f; g; fst kv; "value"], v)]
                      end) m.

Definition overlay_writes (f : string) (sub : dict)
  : list (list string * value) :=
  flat_map (fun kv => match snd kv with
                      | VDict m => arg_writes f (fst kv) m
                      | _ => []
                      end) sub.

(** The names of the groups and of the arguments hold no dot. *)
Definition dotfree (sub : dict) : bool :=
  forallb (fun kv => no_dot (fst kv)
                     && match snd kv with
                        | VDict m => forallb (fun kv' => no_dot (fst kv')) m
                        | _ => true
                        end) sub.

(** The 4-tuple of a row. *)
Definition key_of (r : dict) : key4 :=
  (dict_get r "func" VNone, dict_get r "group" VNone,
   dict_get r "arg" VNone, dict_get r "lang" VNone).

(** The 4-tuples of the [_info] rows of the group and of the function. *)
Definition group_key (k : key4) : key4 :=
  let '(f, g, _, l) := k in (f, g, VStr INFO, l).

Definition func_key (k : key4) : key4 :=
  let '(f, _, _, l) := k in (f, VStr INFO, VStr INFO, l).

(** The row has the four fields. *)
Definition has4 (r : dict) : Prop := row_key r = Ok (key_of r).

(** The number of keys of [ks] that equal [k]. *)
Definition count_key (k : key4) (ks : list key4) : nat :=
  List.length (filter (fun k' => key4_eqb k' k) ks).

Definition mem_key (k : key4) (ks : list key4) : bool :=
  existsb (key4_eqb k) ks.

(** No two keys of the list are equal. *)
Definition uniq (ks : list key4) : Prop :=
  forall k, In k ks -> count_key k ks = 1%nat.

(** What holds of the set [visited] and of the rows yielded so far. *)
Record iter_inv (visited : list key4) (rows : list dict) : Prop := {
  inv_perm : Permutation (map key_of rows) visited;
  inv_hash : Forall (fun k => key4_hashable k = true) visited;
  inv_has4 : Forall has4 rows;
  inv_nodup : Forall (fun r => NoDup (map fst r)) rows;
  inv_uniq : uniq visited;
  inv_closed : forall k, In k visited ->
      mem_key (group_key k) visited = true
      /\ mem_key (func_key k) visited = true
}.

(** The invariant without its last clause, which a single round of [info]
    does not keep. *)
Definition base_inv (visited : list key4) (rows : list dict) : Prop :=
  Permutation (map key_of rows) visited
  /\ Forall (fun k => key4_hashable k = true) visited
  /\ Forall has4 rows
  /\ Forall (fun r => NoDup (map fst r)) rows
  /\ uniq visited.

Definition merge_defaults : dict :=
  [("func", VStr ""); ("group", VStr ""); ("arg", VStr "");
   ("lang", VStr ""); ("name", VStr ""); ("help", VStr "");
   ("type", VStr "input"); ("value", VStr ""); ("option", VDict [])].

Definition info_reset : dict :=
  [("type", VStr ""); ("value", VStr ""); ("option", VDict [])].

(** The human field the merge gives the row at [key]. *)
Definition kept (old : dict) (key attr : string) : value :=
  let v := dict_get old attr (VStr "") in
  if truthy v then v else VStr (key ++ "." ++ attr).

(** The prior row [update_db] finds for a draft: the first row of the
    old store with the 4-tuple of the draft, the empty record if none. *)
Definition prior_row (old : TinyDB.store) (data : dict) : dict :=
  let '(f, g, a, l) := key_of data in
  match filter (TinyDB.matches [("func", f); ("group", g); ("arg", a);
                                ("lang", l)]) old with
  | r :: _ => r
  | [] => []
  end.

(** The number of rows whose 4-tuple equals [k]. *)
Definition count_rows (k : key4) (rows : list dict) : nat :=
  count_key k (map key_of rows).

Definition is_dict (v : value) : bool :=
  match v with
  | VDict _ => true
  | _ => false
  end.

(** The option labels of the row are not themselves mappings. *)
Definition labels_flat (o : dict) : bool :=
  match assoc "option" o with
  | Some (VDict labels) => forallb (fun kv => negb (is_dict (snd kv))) labels
  | _ => true
  end.

Definition mk_row (f g a : string) (v o : value) : dict :=
  [("func", VStr f); ("group", VStr g); ("arg", VStr a); ("lang", VStr "zh-CN");
   ("name", VStr (f ++ "." ++ g ++ "." ++ a ++ ".name"));
   ("help", VStr (f ++ "." ++ g ++ "." ++ a ++ ".help"));
   ("type", VStr "input"); ("value", v); ("option", o)].

Definition interval_schema : value :=
  VDict [("Main", VDict [("Scheduler", VDict [("Interval", VInt 10)])])].

Definition labelled_interval_row : dict :=
  dict_set interval_row "name" (VStr "Custom Label").

(** A schema whose one argument has the option key [a.b], and a prior row
    of that argument whose option [a] is labelled with a mapping. *)
Definition dotted_schema : value :=
  VDict [("F", VDict [("G", VDict [("A",
    VDict [("value", VStr "a.b"); ("option", VDict [("a.b", VNone)])])])])].

Definition nested_label_row : dict :=
  mk_row "F" "G" "A" (VStr "a") (VDict [("a", VDict [("b", VStr "X")])]).

Definition labelled_prior : dict :=
  [("name", VStr "Custom Label"); ("option", VDict [("a", VStr "Alpha")])].

Definition mode_draft : dict :=
  draft "Main" "Scheduler" "Mode" "zh-CN"
        (VDict [("value", VStr "a");
                ("option", VDict [("a", VNone); ("b", VNone)])]).

(** A schema with a group named [_info]: the function then has two rows
    with [group = _info], the row of the argument and its own. *)
Definition info_group_schema : value :=
  VDict [("F", VDict [("_info", VDict [("A", VInt 1)])])].

(** A default that is the text 3 is projected as the integer 3. *)
Definition text_default_row : dict :=
  mk_row "Main" "Scheduler" "Interval" (VStr "3") (VDict []).

(** Two functions with the same group and argument: two paths
    [func.group.arg], one declaration. *)
Definition shared_group_rows : list dict :=
  [mk_row "F1" "G" "A" (VInt 1) (VDict []);
   mk_row "F2" "G" "A" (VInt 2) (VDict [])].

Definition demo_request : dict :=
  [("func", VStr "Main"); ("lang", VStr "zh-CN"); ("config", VStr "demo")].


Definition interval_upsert : dict :=
  [("func", VStr "Main"); ("group", VStr "Scheduler"); ("arg", VStr "Interval");
   ("lang", VStr "zh-CN"); ("value", VStr "20"); ("config", VStr "demo")].

(** A row whose default is [None], and an empty raw value: [None] is what
    is stored. *)
Definition serial_row : dict :=
  mk_row "Main" "Emulator" "Serial" VNone (VDict []).

Definition serial_upsert : dict :=
  [("func", VStr "Main"); ("group", VStr "Emulator"); ("arg", VStr "Serial");
   ("lang", VStr "zh-CN"); ("value", VStr ""); ("config", VStr "demo")].


Definition rename_upsert : dict :=
  [("func", VStr "Main"); ("group", VStr "Scheduler"); ("arg", VStr "Interval");
   ("lang", VStr "zh-CN"); ("name", VStr "Interval"); ("config", VStr "demo")].

(** ** Requests, projections and what stays unchanged *)

(** The fields a request is matched on. *)
Definition request_fields : list string := ["func"; "group"; "arg"; "lang"].

Definition filled (request : dict) (k : string) : bool :=
  truthy (dict_get request k VNone).

(** The test a request puts on the field [k] of a row: none when the
    request leaves [k] empty. *)
Definition field_test (request : dict) (k : string) (row : dict) : bool :=
  if filled request k
  then TinyDB.test row (k, dict_get request k VNone)
  else true.

Definition is_str (v : value) : bool :=
  match v with
  | VStr _ => true
  | _ => false
  end.

(** The three names of the row are [str] and hold no dot. *)
Definition well_named (row : dict) : bool :=
  match dict_get row "func" (VStr ""), dict_get row "group" (VStr ""),
        dict_get row "arg" (VStr "") with
  | VStr f, VStr g, VStr a => no_dot f && no_dot g && no_dot a
  | _, _, _ => false
  end.

(** The rows of the store a request selects. *)
Definition selected (request : dict) (rows : TinyDB.store) : list dict :=
  match request_to_query request with
  | Some q => filter (TinyDB.matches q) rows
  | None => []
  end.

(** The documents a search for the request gets: the rows it selects,
    with the values that overlays have set in the documents of its
    query. *)
Definition documents_of (request : dict) (s : Database) : list dict :=
  match request_to_query request with
  | Some q =>
      TinyDB.with_values (filter (TinyDB.matches q) (current_rows s))
                         (TinyDB.held q (current_cache s))
  | None => []
  end.

(** The process after the store has been searched for the request. *)
Definition searched (request : dict) (s : Database) : Database :=
  snd (db_search (request_to_query request) s).

(** A row as a tree shows it at its path. *)
Definition shown (tree : dict) (row : dict) : dict :=
  match deep_get_keys (VDict tree) (row_keys row) VNone with
  | VDict m => m
  | _ => row
  end.

(** The writes of the loop of [select_db]. *)
Definition view_writes (rows : list dict) : list (list string * value) :=
  map (fun r => (row_keys r, VDict r)) rows.

Definition menu_request (request : dict) : dict :=
  [("group", VStr INFO); ("lang", dict_get request "lang" VNone)].

(** How many entries of the cache have the name: at most one in a
    [dict]. *)
Definition cached_times (name : value) (s : Database) : nat :=
  List.length (filter (fun kv => py_eqb (fst kv) name) (_config s)).

(** What the file of a configuration reads as. *)
Definition config_file (filepath_config : value -> string) (name : value)
  (s : Database) : dict :=
  match assoc (filepath_config name) (file_config s) with
  | Some d => d
  | None => []
  end.

(** The value [update_config] gives the path of a row: the value the prior
    file has there, the default of the row when it has none, typed against
    the row. *)
Definition projected (old row : dict) : result value :=
  do default <- getitem (VDict row) "value";
  parse_value (deep_get_keys (VDict old) (row_keys row) default) (VDict row).

(** The rows [update_config] can project over the prior file [old]. *)
Definition projectable_from (old row : dict) : bool :=
  match assoc "group" row, assoc "arg" row with
  | Some _, Some _ =>
      is_info row
      || (well_named row
          && match projected old row with Ok _ => true | Raise _ => false end)
  | _, _ => false
  end.

Definition projected_writes (old : dict) (rows : list dict)
  : list (list string * value) :=
  flat_map (fun row =>
              if is_info row then []
              else match projected old row with
                   | Ok v => [(row_keys row, v)]
                   | Raise _ => []
                   end) rows.

Definition plain_rows (rows : list dict) : list dict :=
  filter (fun r => negb (is_info r)) rows.

Definition stats_path : string := "Alas.DropRecord.AzurStatsID".

(** The generator [_data_iter] with the set [visited] it ends with. *)
Definition data_iter_run (args : value) : list key4 * generated :=
  gen_items (fun '(func, func_data) =>
  gen_items (fun '(group, group_data) =>
  gen_items (fun '(arg, value0) =>
  gen_for (fun lang0 visited =>
    match info (draft func group arg lang0 value0) visited with
    | Ok (visited, rows) => (visited, (rows, None))
    | Raise e => (visited, ([], Some e))
    end) lang) group_data) func_data) args [].

(** The details of a leaf do not redefine the identifying fields. *)
Definition keeps_names (value0 : value) : bool :=
  match value0 with
  | VDict detail =>
      forallb (fun k => negb (existsb (String.eqb k) request_fields))
              (map fst detail)
  | _ => true
  end.

(** The body of a loop of the generator only adds to [visited]. *)
Definition grows {A : Type}
  (body : A -> list key4 -> list key4 * generated) : Prop :=
  forall x visited, exists more, fst (body x visited) = visited ++ more.

Definition merged_fields : list string :=
  ["func"; "group"; "arg"; "lang"; "name"; "help"; "type"; "value"; "option"].

(** The request fills all of [func], [group], [arg] and [lang]. *)
Definition complete (request : dict) : bool :=
  forallb (filled request) request_fields.

Definition is_none (v : value) : bool :=
  match v with
  | VNone => true
  | _ => false
  end.

(** The path [select_config] reads: the names the request fills. *)
Definition request_path (request : dict) : string :=
  join "." (map str_of
              (filter truthy [dict_get request "func" VNone;
                              dict_get request "group" VNone;
                              dict_get request "arg" VNone])).


(** The store and the configurations are as in [s]. *)
Definition same_data (s st : Database) : Prop :=
  file_db st = file_db s /\ current_rows st = current_rows s
  /\ file_arg st = file_arg s
  /\ file_config st = file_config s /\ _config st = _config s
  /\ _config_updated st = _config_updated s
  /\ file_code st = file_code s.

(** The rows a migration of [interval_schema] stores. *)
Definition main_info_row : dict :=
  [("func", VStr "Main"); ("group", VStr "_info"); ("arg", VStr "_info");
   ("lang", VStr "zh-CN"); ("name", VStr "Main._info._info.name");
   ("help", VStr "Main._info._info.help"); ("type", VStr "");
   ("value", VStr ""); ("option", VDict [])].

Definition scheduler_info_row : dict :=
  [("func", VStr "Main"); ("group", VStr "Scheduler"); ("arg", VStr "_info");
   ("lang", VStr "zh-CN"); ("name", VStr "Main.Scheduler._info.name");
   ("help", VStr "Main.Scheduler._info.help"); ("type", VStr "");
   ("value", VStr ""); ("option", VDict [])].

Definition interval_store : TinyDB.store :=
  [main_info_row; scheduler_info_row; interval_row].

(** A file of the configuration [demo] with a value of the user and a
    path the schema does not have. *)
Definition demo_files : list (string * dict) :=
  [("./config/demo.yaml",
    [("Main", VDict [("Scheduler", VDict [("Interval", VStr "30")])]);
     ("Old", VDict [("Group", VDict [("Arg", VInt 1)])])])].

(** * Properties *)

(** ** Equality of values *)

Section Equality.

Lemma num_eqb_refl (x : num) : num_eqb x x = true.
Proof. destruct x; simpl; [apply Qeq_bool_refl | apply Bool.eqb_reflx]. Qed.

Lemma num_eqb_sym (x y : num) : num_eqb x y = num_eqb y x.
Proof.
  destruct x, y; simpl; try reflexivity; [apply Qeq_bool_comm|].
  now destruct neg, neg0.
Qed.

Lemma num_eqb_trans (x y z : num) :
  num_eqb x y = true -> num_eqb y z = true -> num_eqb x z = true.
Proof.
  destruct x, y, z; simpl; try discriminate; [apply Qeq_bool_trans|].
  destruct neg, neg0, neg1; auto.
Qed.

Lemma datetime_eqb_refl (d : datetime) : datetime_eqb d d = true.
Proof. unfold datetime_eqb. destruct (utcoffset d); apply Z.eqb_refl. Qed.

Lemma datetime_eqb_sym (a b : datetime) : datetime_eqb a b = datetime_eqb b a.
Proof.
  unfold datetime_eqb. destruct (utcoffset a), (utcoffset b);
    try reflexivity; apply Z.eqb_sym.
Qed.

Lemma datetime_eqb_trans (a b c : datetime) :
  datetime_eqb a b = true -> datetime_eqb b c = true -> datetime_eqb a c = true.
Proof.
  unfold datetime_eqb.
  destruct (utcoffset a), (utcoffset b), (utcoffset c); try discriminate;
    rewrite !Z.eqb_eq; congruence.
Qed.

(** On hashable values [==] is an equivalence. *)
Lemma py_eqb_refl (v : value) : hashable v = true -> py_eqb v v = true.
Proof.
  destruct v; cbn [py_eqb num_of hashable]; intros H; try discriminate H;
    try reflexivity; try apply num_eqb_refl.
  - apply String.eqb_refl.
  - apply datetime_eqb_refl.
Qed.

Lemma py_eqb_sym (a b : value) :
  hashable a = true -> hashable b = true -> py_eqb a b = py_eqb b a.
Proof.
  destruct a, b; cbn [py_eqb num_of hashable]; intros Ha Hb;
    try discriminate; try reflexivity; try apply num_eqb_sym.
  - apply String.eqb_sym.
  - apply datetime_eqb_sym.
Qed.

Lemma py_eqb_trans (a b c : value) :
  hashable a = true -> hashable b = true -> hashable c = true ->
  py_eqb a b = true -> py_eqb b c = true -> py_eqb a c = true.
Proof.
  destruct a, b, c; cbn [py_eqb num_of hashable]; intros Ha Hb Hc;
    try discriminate; try reflexivity; try apply num_eqb_trans.
  - rewrite !String.eqb_eq. congruence.
  - apply datetime_eqb_trans.
Qed.

(** Only a [str] equals a [str]. *)
Lemma py_eqb_str_r (x : value) (t : string) :
  py_eqb x (VStr t) = true -> x = VStr t.
Proof.
  destruct x; cbn [py_eqb num_of]; try discriminate.
  intros H. apply String.eqb_eq in H. now subst.
Qed.

End Equality.

(** ** Mappings *)

Section DictFacts.

Lemma assoc_dict_set_same (d : dict) (k : string) (v : value) :
  assoc k (dict_set d k v) = Some v.
Proof.
  induction d as [|[k' v'] d IH]; simpl.
  - now rewrite String.eqb_refl.
  - destruct (k' =? k)%string eqn:E; simpl.
    + now rewrite String.eqb_refl.
    + now rewrite E.
Qed.

Lemma assoc_dict_set_other (d : dict) (k k0 : string) (v : value) :
  k <> k0 -> assoc k0 (dict_set d k v) = assoc k0 d.
Proof.
  intros Hne. induction d as [|[k' v'] d IH]; simpl.
  - destruct (k =? k0)%string eqn:E; [apply String.eqb_eq in E; contradiction | reflexivity].
  - destruct (k' =? k)%string eqn:E; simpl.
    + apply String.eqb_eq in E; subst k'.
      destruct (k =? k0)%string eqn:E'; [apply String.eqb_eq in E'; contradiction | reflexivity].
    + destruct (k' =? k0)%string; [reflexivity | exact IH].
Qed.

Lemma assoc_In {A : Type} (k : string) (d : list (string * A)) (v : A) :
  assoc k d = Some v -> In (k, v) d.
Proof.
  induction d as [|[k' v'] d IH]; simpl; [discriminate|].
  destruct (k' =? k)%string eqn:E.
  - apply String.eqb_eq in E; subst. intros [= ->]. now left.
  - intros H. right. now apply IH.
Qed.

Lemma assoc_None_not_In {A : Type} (k : string) (d : list (string * A)) :
  assoc k d = None <-> ~ In k (map fst d).
Proof.
  induction d as [|[k' v'] d IH]; simpl.
  - tauto.
  - destruct (k' =? k)%string eqn:E.
    + apply String.eqb_eq in E. split; [discriminate | intros H; exfalso; apply H; now left].
    + apply String.eqb_neq in E. rewrite IH. tauto.
Qed.

Lemma assoc_NoDup_In {A : Type} (k : string) (d : list (string * A)) (v : A) :
  NoDup (map fst d) -> In (k, v) d -> assoc k d = Some v.
Proof.
  induction d as [|[k' v'] d IH]; simpl; [tauto|].
  intros Hnd [H|H].
  - injection H as -> ->. now rewrite String.eqb_refl.
  - inversion Hnd as [|? ? Hni Hnd']; subst.
    destruct (k' =? k)%string eqn:E.
    + apply String.eqb_eq in E; subst k'. exfalso. apply Hni.
      change k with (fst (k, v)). now apply in_map.
    + now apply IH.
Qed.

Lemma dict_set_keys_present (d : dict) (k : string) (v : value) :
  In k (map fst d) -> map fst (dict_set d k v) = map fst d.
Proof.
  induction d as [|[k' v'] d IH]; simpl; [tauto|].
  intros H. destruct (k' =? k)%string eqn:E; simpl.
  - apply String.eqb_eq in E. now subst.
  - f_equal. apply IH. destruct H as [H|H]; [|exact H].
    apply String.eqb_neq in E. contradiction.
Qed.

Lemma dict_set_keys_absent (d : dict) (k : string) (v : value) :
  ~ In k (map fst d) -> dict_set d k v = d ++ [(k, v)].
Proof.
  induction d as [|[k' v'] d IH]; simpl; [reflexivity|].
  intros H. destruct (k' =? k)%string eqn:E.
  - apply String.eqb_eq in E. exfalso. apply H. now left.
  - f_equal. apply IH. tauto.
Qed.

(** Overwriting twice is overwriting once. *)
Lemma dict_set_twice (d : dict) (k : string) (v w : value) :
  dict_set (dict_set d k v) k w = dict_set d k w.
Proof.
  induction d as [|[k' v'] d IH]; simpl.
  - now rewrite String.eqb_refl.
  - destruct (k' =? k)%string eqn:E; simpl.
    + now rewrite String.eqb_refl.
    + now rewrite E, IH.
Qed.

(** Writes to two keys the mapping already has commute. *)
Lemma dict_set_comm (d : dict) (k k' : string) (v w : value) :
  k <> k' -> In k (map fst d) -> In k' (map fst d) ->
  dict_set (dict_set d k v) k' w = dict_set (dict_set d k' w) k v.
Proof.
  intros Hne. induction d as [|[k0 v0] d IH]; simpl; [tauto|].
  intros Hk Hk'.
  destruct (k0 =? k)%string eqn:E; destruct (k0 =? k')%string eqn:E'; simpl.
  - apply String.eqb_eq in E, E'. congruence.
  - apply String.eqb_eq in E; subst k0.
    rewrite String.eqb_refl.
    destruct (k =? k')%string eqn:E2; [apply String.eqb_eq in E2; contradiction|].
    reflexivity.
  - apply String.eqb_eq in E'; subst k0.
    rewrite String.eqb_refl.
    destruct (k' =? k)%string eqn:E2; [apply String.eqb_eq in E2; congruence|].
    reflexivity.
  - rewrite E, E'. f_equal. apply IH.
    + destruct Hk as [Hk|Hk]; [apply String.eqb_neq in E; contradiction | exact Hk].
    + destruct Hk' as [Hk'|Hk']; [apply String.eqb_neq in E'; contradiction | exact Hk'].
Qed.

Lemma dict_set_In_keys (d : dict) (k k0 : string) (v : value) :
  In k0 (map fst d) -> In k0 (map fst (dict_set d k v)).
Proof.
  induction d as [|[k' v'] d IH]; simpl; [tauto|].
  intros [H|H]; destruct (k' =? k)%string eqn:E; simpl.
  - apply String.eqb_eq in E. left. congruence.
  - now left.
  - now right.
  - right. now apply IH.
Qed.

Lemma dict_update_In_keys (e d : dict) (k0 : string) :
  In k0 (map fst d) -> In k0 (map fst (dict_update d e)).
Proof.
  unfold dict_update. revert d.
  induction e as [|[k v] e IH]; simpl; intros d H; [exact H|].
  apply IH. now apply dict_set_In_keys.
Qed.

(** After [d.update(e)], a key outside [e] keeps its value. *)
Lemma assoc_dict_update_other (e d : dict) (k : string) :
  ~ In k (map fst e) -> assoc k (dict_update d e) = assoc k d.
Proof.
  unfold dict_update. revert d.
  induction e as [|[k' v'] e IH]; simpl; intros d H; [reflexivity|].
  rewrite IH by tauto. apply assoc_dict_set_other. intros ->. tauto.
Qed.

(** After [d.update(e)], a key of [e] has the value [e] gives it, [e]
    being a mapping. *)
Lemma assoc_dict_update_In (e d : dict) (k : string) (v : value) :
  NoDup (map fst e) -> In (k, v) e -> assoc k (dict_update d e) = Some v.
Proof.
  unfold dict_update. revert d.
  induction e as [|[k' v'] e IH]; simpl; intros d Hnd H; [tauto|].
  inversion Hnd as [|? ? Hni Hnd']; subst.
  destruct H as [H|H].
  - injection H as -> ->.
    pose proof (assoc_dict_update_other e (dict_set d k v) k Hni) as Ho.
    unfold dict_update in Ho. rewrite Ho. apply assoc_dict_set_same.
  - now apply IH.
Qed.

End DictFacts.

(** ** Value typing *)

Section ValueTyping.

(** C3. With an empty option set [parse_value] maps the text 3 to the
    integer 3, the text 3.5 to the float 3.5, the empty text to [None],
    the text abc to itself and the text 2024-01-01 to a timestamp; with a
    non-empty option set, a raw value that is not in the set gives the
    value of the row unchanged. *)
Theorem parse_value_typing (data : value) (o : dict) :
  getitem data "option" = Ok (VDict o) ->
  (o = [] ->
     parse_value (VStr "3") data = Ok (VInt 3)
     /\ parse_value (VStr "3.5") data = Ok (VFloat float_3_5)
     /\ py_eqb (VFloat float_3_5) (VFloat (FFin false 7 (-1))) = true
     /\ parse_value (VStr "") data = Ok VNone
     /\ parse_value (VStr "abc") data = Ok (VStr "abc")
     /\ parse_value (VStr "2024-01-01") data = Ok (VDate date_2024_01_01))
  /\ (o <> [] ->
      forall raw default : value,
        py_in raw (VDict o) = Ok false ->
        getitem data "value" = Ok default ->
        parse_value raw data = Ok default).
Proof.
  intros Hopt. split.
  - intros ->. unfold parse_value. rewrite Hopt. simpl.
    repeat split; vm_compute; reflexivity.
  - intros Hne raw default Hin Hval.
    unfold parse_value. rewrite Hopt. cbn [rbind].
    assert (Ht : truthy (VDict o) = true) by (destruct o; [contradiction | reflexivity]).
    rewrite Ht, Hin. cbn [rbind negb]. exact Hval.
Qed.

Lemma parse_value_typing_witness :
  let data := VDict [("value", VStr "a");
                     ("option", VDict [("a", VStr "A"); ("b", VStr "B")])] in
  parse_value (VStr "c") data = Ok (VStr "a").
Proof.
  intros data.
  refine (proj2 (parse_value_typing data [("a", VStr "A"); ("b", VStr "B")] _) _
                (VStr "c") (VStr "a") _ _).
  - reflexivity.
  - discriminate.
  - reflexivity.
  - reflexivity.
Defined.

(** Without an option set, a value that is not a [str] is returned as it
    is, and only the empty [str] becomes [None]. *)
Lemma parse_value_no_option (raw data : value) :
  getitem data "option" = Ok (VDict []) ->
  exists v, parse_value raw data = Ok v
            /\ ((forall s, raw <> VStr s) -> v = raw)
            /\ (raw = VStr "" -> v = VNone)
            /\ (v = VNone -> raw = VNone \/ raw = VStr "").
Proof.
  intros Hopt. unfold parse_value. rewrite Hopt. cbn [rbind truthy].
  destruct raw;
    try (eexists; split; [reflexivity |
         split; [reflexivity | split; [discriminate | intros H; (now left) || discriminate H]]]).
  destruct (s =? "")%string eqn:E.
  - apply String.eqb_eq in E. subst s.
    eexists; split; [reflexivity|].
    split; [intros H; now contradiction (H "") |].
    split; [reflexivity | now right].
  - assert (Hs : s <> "") by (now apply String.eqb_neq).
    destruct (if str_contains "." s then option_map VFloat (py_float s)
              else option_map VInt (py_int s)) as [v|] eqn:Et;
      [|destruct (fromisoformat s)];
      (eexists; split; [reflexivity|]);
      (split; [intros H; now contradiction (H s) |]);
      (split; [intros [= ->]; contradiction |]).
    + intros ->. destruct (str_contains "." s);
        [destruct (py_float s) | destruct (py_int s)]; discriminate.
    + discriminate.
    + discriminate.
Qed.

End ValueTyping.

(** ** Reasoning about methods *)

Section MonadFacts.

Context {A B : Type}.

Lemma bind_Ok (c : M A) (k : A -> M B) (s s' : Database) (b : B) :
  bind c k s = (Ok b, s') ->
  exists a s1, c s = (Ok a, s1) /\ k a s1 = (Ok b, s').
Proof.
  unfold bind. destruct (c s) as [[a|e] s1]; [|discriminate].
  intros H. now exists a, s1.
Qed.

Lemma lift_Ok (r : result A) (s s' : Database) (a : A) :
  lift r s = (Ok a, s') -> r = Ok a /\ s' = s.
Proof. unfold lift. now intros [= -> ->]. Qed.

Lemma rbind_Ok (r : result A) (k : A -> result B) (b : B) :
  rbind r k = Ok b -> exists a, r = Ok a /\ k a = Ok b.
Proof. destruct r as [a|e]; simpl; [|discriminate]. intros H. now exists a. Qed.

End MonadFacts.

Tactic Notation "inv_bind" hyp(H) "as" ident(a) ident(s1) ident(H1) :=
  apply bind_Ok in H; destruct H as (a & s1 & H1 & H).

Tactic Notation "inv_lift" hyp(H) :=
  apply lift_Ok in H; destruct H as [H ->].

Tactic Notation "inv_rbind" hyp(H) "as" ident(a) ident(H1) :=
  apply rbind_Ok in H; destruct H as (a & H1 & H).

(** ** The store and its query cache *)

Section StoreFacts.

Lemma self_db_run (s : Database) :
  self_db s = (Ok (current_rows s), snd (self_db s)).
Proof. unfold self_db, current_rows. now destruct (db s). Qed.

(** Once used, the store is loaded; its rows and its query cache are
    those it had, or those of a store read from the file. *)
Lemma self_db_loaded (s : Database) :
  db (snd (self_db s)) = Some (current_rows s)
  /\ query_cache (snd (self_db s)) = current_cache s
  /\ current_rows (snd (self_db s)) = current_rows s
  /\ current_cache (snd (self_db s)) = current_cache s.
Proof.
  unfold self_db, current_rows, current_cache.
  destruct (db s) eqn:E; cbn; now rewrite ?E.
Qed.

Lemma db_search_run (cond : option query) (s : Database) :
  db_search cond s
  = (fst (TinyDB.search cond (current_cache s) (current_rows s)),
     set_query_cache
       (snd (TinyDB.search cond (current_cache s) (current_rows s)))
       (snd (self_db s))).
Proof.
  unfold db_search, bind. rewrite self_db_run.
  destruct (self_db_loaded s) as (_ & -> & _).
  now destruct (TinyDB.search cond (current_cache s) (current_rows s)).
Qed.

Lemma self_db_frame (s : Database) :
  file_db (snd (self_db s)) = file_db s
  /\ file_config (snd (self_db s)) = file_config s
  /\ file_code (snd (self_db s)) = file_code s
  /\ file_arg (snd (self_db s)) = file_arg s
  /\ CONFIG_IMPORT (snd (self_db s)) = CONFIG_IMPORT s
  /\ _config (snd (self_db s)) = _config s
  /\ _config_updated (snd (self_db s)) = _config_updated s
  /\ random_calls (snd (self_db s)) = random_calls s
  /\ random_ids (snd (self_db s)) = random_ids s
  /\ current_rows (snd (self_db s)) = current_rows s.
Proof.
  unfold self_db, current_rows. destruct (db s) eqn:E; cbn [snd];
    [rewrite E|]; repeat split; reflexivity.
Qed.

(** A search changes the query cache of the store, and nothing else once
    the store is loaded. *)
Lemma db_search_frame (cond : option query) (s : Database) :
  let s1 := snd (db_search cond s) in
  file_db s1 = file_db s
  /\ file_config s1 = file_config s
  /\ file_code s1 = file_code s
  /\ file_arg s1 = file_arg s
  /\ CONFIG_IMPORT s1 = CONFIG_IMPORT s
  /\ _config s1 = _config s
  /\ _config_updated s1 = _config_updated s
  /\ random_calls s1 = random_calls s
  /\ random_ids s1 = random_ids s
  /\ current_rows s1 = current_rows s
  /\ db s1 = Some (current_rows s).
Proof.
  cbv zeta. rewrite db_search_run. cbn [snd].
  destruct (self_db_frame s)
    as (H1 & H2 & H3 & H4 & H5 & H6 & H7 & H8 & H9 & H10).
  destruct (self_db_loaded s) as (Hd & _).
  unfold current_rows in *. cbn. rewrite Hd in *. auto 12.
Qed.

Lemma query_eqb_fields (p q : query) :
  TinyDB.query_eqb p q = true -> map fst p = map fst q.
Proof.
  revert q. induction p as [|a p IH]; intros [|b q] H; try discriminate H.
  - reflexivity.
  - cbn [TinyDB.query_eqb] in H. apply andb_prop in H. destruct H as [H Hq].
    apply andb_prop in H. destruct H as [Hk _].
    apply String.eqb_eq in Hk. cbn [map]. now rewrite Hk, (IH q Hq).
Qed.

Lemma with_values_nil (rows : list dict) : TinyDB.with_values rows [] = rows.
Proof. now destruct rows. Qed.

(** A search gets the rows the query matches, with the values that were
    overlaid in the documents of the query. *)
Lemma search_documents (q : query) (c : TinyDB.cache) (rows : TinyDB.store) :
  fst (TinyDB.search (Some q) c rows)
  = Ok (TinyDB.with_values (filter (TinyDB.matches q) rows) (TinyDB.held q c)).
Proof.
  unfold TinyDB.search, TinyDB.held.
  destruct (TinyDB.find q c) as [[q'|func lang0 values]|]; cbn;
    now rewrite ?with_values_nil.
Qed.

(** Only a query on [func] and [lang] can find documents that were
    overlaid: any other search gets the rows it matches. *)
Lemma held_plain (q : query) (c : TinyDB.cache) :
  map fst q <> ["func"; "lang"] -> TinyDB.held q c = [].
Proof.
  intros Hq. unfold TinyDB.held.
  destruct (TinyDB.find q c) as [[q'|func lang0 values]|] eqn:E;
    try reflexivity.
  unfold TinyDB.find in E. apply find_some in E. destruct E as [_ E].
  unfold TinyDB.holds in E. apply query_eqb_fields in E.
  now rewrite <- E in Hq.
Qed.

Lemma search_plain (q : query) (c : TinyDB.cache) (rows : TinyDB.store) :
  map fst q <> ["func"; "lang"] ->
  fst (TinyDB.search (Some q) c rows) = Ok (filter (TinyDB.matches q) rows).
Proof.
  intros Hq. now rewrite search_documents, held_plain, with_values_nil.
Qed.

Lemma find_app_none {A : Type} (p : A -> bool) (l1 l2 : list A) :
  List.find p l1 = None -> List.find p (l1 ++ l2) = List.find p l2.
Proof.
  induction l1 as [|x l1 IH]; simpl; [reflexivity|].
  destruct (p x); [discriminate | exact IH].
Qed.

Lemma find_filter_negb {A : Type} (p : A -> bool) (l : list A) :
  List.find p (filter (fun x => negb (p x)) l) = None.
Proof.
  induction l as [|x l IH]; simpl; [reflexivity|].
  destruct (p x) eqn:E; simpl; [exact IH | now rewrite E].
Qed.

(** A search leaves the values overlaid for its query as they are. *)
Lemma held_search (q : query) (c : TinyDB.cache) (rows : TinyDB.store) :
  TinyDB.held q (snd (TinyDB.search (Some q) c rows)) = TinyDB.held q c.
Proof.
  unfold TinyDB.search, TinyDB.held at 2.
  destruct (TinyDB.find q c) as [e|] eqn:E; cbn [snd].
  - unfold TinyDB.refresh, TinyDB.held, TinyDB.find in *. rewrite E.
    rewrite find_app_none by apply find_filter_negb.
    apply find_some in E. destruct E as [_ E]. cbn [List.find]. now rewrite E.
  - unfold TinyDB.put, TinyDB.held, TinyDB.find in *.
    assert (Hlast : forall l, List.find (TinyDB.holds q) l = None ->
              match List.find (TinyDB.holds q) (l ++ [TinyDB.Matched q]) with
              | Some (TinyDB.Overlaid _ _ values) => values
              | _ => []
              end = []).
    { intros l Hl. rewrite (find_app_none _ _ _ Hl). cbn [List.find].
      now destruct (TinyDB.holds q (TinyDB.Matched q)). }
    destruct (Nat.ltb TinyDB.capacity (List.length (c ++ [TinyDB.Matched q]))).
    + destruct c as [|x c']; [reflexivity|]. cbn [app tl].
      apply Hlast. cbn [List.find] in E.
      now destruct (TinyDB.holds q x).
    + now apply Hlast.
Qed.

(** So a search repeated at once gets the same documents. *)
Lemma search_again (q : query) (c : TinyDB.cache) (rows : TinyDB.store) :
  fst (TinyDB.search (Some q) (snd (TinyDB.search (Some q) c rows)) rows)
  = fst (TinyDB.search (Some q) c rows).
Proof. now rewrite !search_documents, held_search. Qed.

(** A document is a row of the store, with another [value] at most. *)
Lemma with_values_In (rows : list dict) :
  forall values doc,
    In doc (TinyDB.with_values rows values) ->
    exists row, In row rows
                /\ (doc = row \/ exists v, doc = dict_set row "value" v).
Proof.
  induction rows as [|r rows IH]; intros values doc H.
  - destruct values; contradiction.
  - destruct values as [|[v|] values]; cbn [TinyDB.with_values] in H.
    + exists doc. split; [exact H | now left].
    + destruct H as [<-|H].
      * exists r. split; [now left | right; now exists v].
      * destruct (IH _ _ H) as (row & Hr & Hd). exists row.
        split; [now right | exact Hd].
    + destruct H as [<-|H].
      * exists r. split; [now left | now left].
      * destruct (IH _ _ H) as (row & Hr & Hd). exists row.
        split; [now right | exact Hd].
Qed.

End StoreFacts.

(** ** Code emission *)

Lemma decl_paths_app (l1 l2 : list line) :
  decl_paths (l1 ++ l2) = decl_paths l1 ++ decl_paths l2.
Proof. unfold decl_paths. apply flat_map_app. Qed.

Lemma existsb_eqb_In (p : string) (l : list string) :
  existsb (String.eqb p) l = true <-> In p l.
Proof.
  rewrite existsb_exists. split.
  - intros (x & Hx & E). apply String.eqb_eq in E. now subst.
  - intros H. exists p. split; [exact H | apply String.eqb_refl].
Qed.

Lemma emitted_paths_In (paths visited_path : list string) (p : string) :
  In p (emitted_paths paths visited_path) <->
  In p paths /\ ~ In p visited_path /\ str_contains INFO p = false.
Proof.
  revert visited_path.
  induction paths as [|q rest IH]; intros vp; simpl; [tauto|].
  destruct (existsb (String.eqb q) vp) eqn:Ev; simpl.
  - apply existsb_eqb_In in Ev. rewrite IH. split.
    + intros (H1 & H2 & H3). tauto.
    + intros ([->|H1] & H2 & H3); [contradiction | tauto].
  - assert (Hq : ~ In q vp).
    { intros H. apply existsb_eqb_In in H. congruence. }
    destruct (str_contains INFO q) eqn:Ei.
    + rewrite IH. split.
      * tauto.
      * intros ([->|H1] & H2 & H3); [congruence | tauto].
    + simpl. rewrite IH. split.
      * intros [->|(H1 & H2 & H3)]; [tauto|].
        split; [tauto|]. split; [|exact H3].
        intros H. apply H2. apply in_or_app. now left.
      * intros ([->|H1] & H2 & H3); [now left|].
        destruct (string_dec q p) as [->|Hne]; [now left|].
        right. split; [exact H1|]. split; [|exact H3].
        intros H. apply in_app_or in H. destruct H as [H|[H|[]]]; tauto.
Qed.

Lemma emitted_paths_NoDup (paths visited_path : list string) :
  NoDup (emitted_paths paths visited_path).
Proof.
  revert visited_path.
  induction paths as [|q rest IH]; intros vp; simpl; [constructor|].
  destruct (existsb (String.eqb q) vp || str_contains INFO q); [apply IH|].
  constructor; [|apply IH].
  rewrite emitted_paths_In. intros (_ & H & _). apply H.
  apply in_or_app. right. now left.
Qed.

Section CodeEmission.

Variable path_to_arg : string -> string.
Variable dict_to_kv : decl -> string.
Variable py_str : value -> string.

Lemma getitem_dict_get (d : dict) (k : string) (v default : value) :
  getitem (VDict d) k = Ok v -> dict_get d k default = v.
Proof.
  unfold getitem, dict_get. destruct (assoc k d); [now intros [= ->] | discriminate].
Qed.

(** What the loop of [update_code] appends to [CONFIG_IMPORT]. *)
Lemma code_loop_lines (args : list dict) :
  forall (visited_path : list string) (visited_func : list value)
         (s s' : Database),
    code_loop py_str args visited_path visited_func s = (Ok tt, s') ->
    exists new,
      CONFIG_IMPORT s' = CONFIG_IMPORT s ++ new
      /\ decl_paths new = emitted_paths (map (code_path py_str) args) visited_path
      /\ db s' = db s /\ file_db s' = file_db s.
Proof.
  induction args as [|arg rest IH]; intros vp vf s s' H.
  - simpl in H. injection H as <-. exists []. now rewrite app_nil_r.
  - cbn [code_loop] in H.
    inv_bind H as func s1 Hf. inv_lift Hf.
    inv_bind H as u s2 Hh. unfold hash_check in Hh. inv_lift Hh.
    inv_bind H as vf' s3 Hvf.
    assert (Hhdr : exists hdr, CONFIG_IMPORT s3 = CONFIG_IMPORT s ++ hdr
                               /\ decl_paths hdr = []
                               /\ db s3 = db s /\ file_db s3 = file_db s).
    { destruct (vmem func vf).
      - injection Hvf as <- <-. exists []. now rewrite app_nil_r.
      - unfold bind, append_line, modify, ret in Hvf. simpl in Hvf.
        injection Hvf as <- <-. simpl.
        eexists [_; _]. rewrite <- app_assoc. simpl. auto. }
    destruct Hhdr as (hdr & Hc & Hd & Hdb & Hfdb).
    inv_bind H as g s4 Hg. inv_lift Hg.
    inv_bind H as a s5 Ha. inv_lift Ha.
    assert (Hp : (fmt py_str g ++ "." ++ fmt py_str a)%string = (code_path py_str) arg).
    { unfold code_path.
      now rewrite (getitem_dict_get _ _ _ VNone Hg), (getitem_dict_get _ _ _ VNone Ha). }
    rewrite Hp in H. cbn [map emitted_paths].
    destruct (existsb (String.eqb ((code_path py_str) arg)) vp || str_contains INFO ((code_path py_str) arg)).
    + apply IH in H. destruct H as (new & Hn & Hdn & Hdb' & Hfdb').
      exists (hdr ++ new). rewrite Hn, Hc, app_assoc.
      split; [reflexivity|]. rewrite decl_paths_app, Hd. simpl.
      split; [exact Hdn|]. split; congruence.
    + inv_bind H as v s6 Hv. inv_lift Hv.
      inv_bind H as v' s7 Hv'. inv_lift Hv'.
      inv_bind H as o s8 Ho. inv_lift Ho.
      inv_bind H as keys s9 Hk. inv_lift Hk.
      inv_bind H as u' s10 Hap. unfold append_line, modify in Hap.
      injection Hap as _ <-.
      apply IH in H. destruct H as (new & Hn & Hdn & Hdb' & Hfdb').
      simpl in Hn, Hdb', Hfdb'.
      exists (hdr ++ Declaration ((code_path py_str) arg) (mk_decl v' ((code_path py_str) arg) keys) :: new).
      rewrite Hn, Hc, <- !app_assoc. simpl.
      split; [reflexivity|]. rewrite decl_paths_app, Hd. simpl.
      split; [now rewrite Hdn|]. split; congruence.
Qed.

(** C7, as amended.  [update_code] appends to [CONFIG_IMPORT] exactly one
    declaration for each distinct path [group.arg] of the rows of the
    canonical language that holds no [_info]: no path is declared twice,
    and a path is declared when and only when a row has it. *)
Theorem update_code_declares_each_path_once (s s' : Database) :
  update_code path_to_arg dict_to_kv py_str s = (Ok tt, s') ->
  exists new,
    CONFIG_IMPORT s' = CONFIG_IMPORT s ++ new
    /\ file_code s' = map (render path_to_arg dict_to_kv) (CONFIG_IMPORT s')
    /\ NoDup (decl_paths new)
    /\ forall p, In p (decl_paths new) <->
                 In p (map (code_path py_str) (canonical_rows s))
                 /\ str_contains INFO p = false.
Proof.
  intros H. unfold update_code in H.
  inv_bind H as args s2 Hs.
  assert (Hc0 : CONFIG_IMPORT s2 = CONFIG_IMPORT s).
  { pose proof (db_search_frame
                  (request_to_query [("lang", VStr "zh-CN")]) s) as F.
    cbv zeta in F. rewrite Hs in F. apply F. }
  rewrite db_search_run in Hs.
  change (request_to_query [("lang", VStr "zh-CN")])
    with (Some [("lang", VStr "zh-CN")]) in Hs.
  rewrite search_plain in Hs by discriminate. injection Hs as <- _.
  inv_bind H as u s3 Hl. destruct u. apply code_loop_lines in Hl.
  destruct Hl as (new & Hn & Hdn & _ & _).
  inv_bind H as lines s4 Hg. unfold gets in Hg. injection Hg as <- <-.
  unfold modify in H. injection H as <-. simpl.
  exists new. rewrite Hn, Hc0. split; [reflexivity|]. split; [reflexivity|].
  fold (canonical_rows s) in Hdn. rewrite Hdn.
  split; [apply emitted_paths_NoDup|].
  intros p. rewrite emitted_paths_In. simpl. tauto.
Qed.

(** C6, the code at a failing input.  Over the same store of one row, the
    first run of [update_code] in a process writes the header and the
    lines of the row, the second run writes the lines of the row twice:
    [lines] is the module-level list [CONFIG_IMPORT] itself, and what a
    run appends stays in it. *)
Theorem update_code_second_run_repeats_lines :
  let s0 := Demo.start VNone [interval_row] [] in
  let s1 := snd (update_code path_to_arg dict_to_kv py_str s0) in
  let s2 := snd (update_code path_to_arg dict_to_kv py_str s1) in
  file_db s1 = file_db s0 /\ file_db s2 = file_db s0
  /\ file_code s1 = map (render path_to_arg dict_to_kv)
                        (CONFIG_IMPORT_literal ++ interval_lines)
  /\ file_code s2 = map (render path_to_arg dict_to_kv)
                        (CONFIG_IMPORT_literal ++ interval_lines
                                               ++ interval_lines)
  /\ List.length (file_code s1) = 15%nat
  /\ List.length (file_code s2) = 18%nat.
Proof. repeat split. Qed.

End CodeEmission.

(** ** What the methods leave unchanged *)

Section Stable.

Variable P : Database -> Prop.

Lemma stable_ret {A} (a : A) : stable P (ret a).
Proof. intros s H. exact H. Qed.

Lemma stable_lift {A} (r : result A) : stable P (lift r).
Proof. intros s H. exact H. Qed.

Lemma stable_gets {A} (f : Database -> A) : stable P (gets f).
Proof. intros s H. exact H. Qed.

Lemma stable_assert (b : bool) (msg : string) : stable P (assert b msg).
Proof. intros s H. exact H. Qed.

Lemma stable_hash_check (k : value) : stable P (hash_check k).
Proof. intros s H. exact H. Qed.

Lemma stable_bind {A B} (c : M A) (k : A -> M B) :
  stable P c -> (forall a, stable P (k a)) -> stable P (bind c k).
Proof.
  intros Hc Hk s H. unfold bind. specialize (Hc s H).
  destruct (c s) as [[a|e] s1]; simpl in *; [now apply Hk | exact Hc].
Qed.

Lemma stable_modify (f : Database -> Database) :
  (forall s, P s -> P (f s)) -> stable P (modify f).
Proof. intros Hf s H. now apply Hf. Qed.

End Stable.

Ltac stable_step :=
  match goal with
  | |- stable _ (bind _ _) => apply stable_bind
  | |- stable _ (ret _) => apply stable_ret
  | |- stable _ (lift _) => apply stable_lift
  | |- stable _ (gets _) => apply stable_gets
  | |- stable _ (assert _ _) => apply stable_assert
  | |- stable _ (hash_check _) => apply stable_hash_check
  | |- stable _ (if ?b then _ else _) => destruct b
  | |- stable _ (match ?x with _ => _ end) => destruct x
  | |- forall _, _ => intro
  end.

Section Frames.

Variable filepath_config : value -> string.

Variable rows : TinyDB.store.

Lemma stable_self_db : stable (store_is rows) self_db.
Proof.
  intros s [Hf Hd]. unfold self_db. rewrite Hd. simpl. now split.
Qed.

Lemma stable_db_search (cond : option query) :
  stable (store_is rows) (db_search cond).
Proof.
  unfold db_search. apply stable_bind; [apply stable_self_db|].
  intros r s H. now destruct (TinyDB.search cond (query_cache s) r).
Qed.

Lemma stable_read_config (name : value) :
  stable (store_is rows) (read_config filepath_config name).
Proof. apply stable_gets. Qed.

Lemma stable_write_config (name : value) (data : dict) :
  stable (store_is rows) (write_config filepath_config name data).
Proof. apply stable_modify. intros s H. exact H. Qed.

Lemma stable_update_config (name : value) :
  stable (store_is rows) (update_config filepath_config name).
Proof.
  unfold update_config, _check_config, random_id.
  repeat first [ apply stable_db_search | apply stable_read_config
               | apply stable_write_config | stable_step ].
  intros s H. exact H.
Qed.

Lemma stable_config (name : value) :
  stable (store_is rows) (config filepath_config name).
Proof.
  unfold config.
  repeat first [ apply stable_update_config | apply stable_read_config
               | apply stable_modify; intros ? H; exact H | stable_step ].
Qed.

Lemma stable_select_db (request : dict) :
  stable (store_is rows) (select_db request).
Proof.
  unfold select_db. repeat first [ apply stable_db_search | stable_step ].
Qed.

Lemma stable_select_config (request : dict) :
  stable (store_is rows) (select_config filepath_config request).
Proof.
  unfold select_config.
  repeat first [ apply stable_select_db | apply stable_config | stable_step ].
Qed.

Lemma stable_select_function (request : dict) :
  stable (store_is rows) (select_function filepath_config request).
Proof.
  unfold select_function, keep_documents.
  repeat first [ apply stable_select_db | apply stable_select_config
               | apply stable_modify; intros ? H; exact H | stable_step ].
Qed.

End Frames.

(** ** [upsert_db] *)

Section UpsertDb.

Variable filepath_config : value -> string.

(** C10. For a request that fills [func], [group], [arg] and [lang],
    [upsert_db] merges the whole request into every row the four tests
    match, and leaves the other rows as they are; the merged rows are
    what the store and its file hold afterwards, whether or not the view
    that follows raises.  A matched row then has every key of the
    request with the value of the request, [config] included. *)
Theorem upsert_db_merges_whole_request (request : dict) (s : Database) :
  truthy (dict_get request "func" VNone)
  && truthy (dict_get request "group" VNone)
  && truthy (dict_get request "arg" VNone)
  && truthy (dict_get request "lang" VNone) = true ->
  NoDup (map fst request) ->
  let s' := snd (upsert_db filepath_config request s) in
  let merged :=
    map (fun doc => if TinyDB.matches (query4 request) doc
                    then dict_update doc request else doc)
        (current_rows s) in
  file_db s' = merged /\ db s' = Some merged
  /\ forall doc k v,
       In doc (current_rows s) ->
       TinyDB.matches (query4 request) doc = true ->
       In (k, v) request ->
       In (dict_update doc request) merged
       /\ assoc k (dict_update doc request) = Some v.
Proof.
  intros Ht Hnd s' merged.
  assert (Hq : request_to_query request = Some (query4 request)).
  { apply andb_prop in Ht. destruct Ht as [Ht Hl].
    apply andb_prop in Ht. destruct Ht as [Ht Ha].
    apply andb_prop in Ht. destruct Ht as [Hf Hg].
    unfold request_to_query, query4. now rewrite Hf, Hg, Ha, Hl. }
  assert (Hs : store_is merged s').
  { subst s'. unfold upsert_db. rewrite Ht, Hq. unfold assert. cbn [lift].
    unfold bind at 1. cbn [lift].
    unfold bind at 1.
    assert (Hself : exists s1, self_db s = (Ok (current_rows s), s1)).
    { unfold self_db, current_rows. destruct (db s); eauto. }
    destruct Hself as (s1 & ->).
    unfold bind at 1. unfold modify at 1.
    unfold bind at 1. unfold modify at 1.
    unfold bind at 1. unfold self_db at 1. cbn [db set_db set_query_cache].
    unfold bind at 1. unfold modify at 1.
    apply stable_select_function. split; reflexivity. }
  destruct Hs as [Hf Hd]. split; [exact Hf|]. split; [exact Hd|].
  intros doc k v Hin Hm Hkv. split.
  - subst merged. apply in_map_iff. exists doc. now rewrite Hm.
  - now apply assoc_dict_update_In.
Qed.

End UpsertDb.

(** ** Dotted paths *)

Lemma split_no_dot (s : string) : no_dot s = true -> split "." s = [s].
Proof.
  induction s as [|c s IH]; simpl; [reflexivity|].
  intros H. apply andb_prop in H. destruct H as [Hc Hs].
  apply negb_true_iff in Hc. rewrite Hc, (IH Hs). reflexivity.
Qed.

Lemma split_app_dot (a b : string) :
  no_dot a = true -> split "." (a ++ String "." b) = a :: split "." b.
Proof.
  induction a as [|c a IH]; simpl; [reflexivity|].
  intros H. apply andb_prop in H. destruct H as [Hc Ha].
  apply negb_true_iff in Hc. rewrite Hc, (IH Ha). reflexivity.
Qed.

Lemma split_path3 (f g a : string) :
  no_dot f = true -> no_dot g = true -> no_dot a = true ->
  split "." (join "." [f; g; a]) = [f; g; a].
Proof.
  intros Hf Hg Ha. unfold join. simpl.
  change (f ++ "." ++ g ++ "." ++ a)%string
    with (f ++ String "." (g ++ String "." a))%string.
  rewrite (split_app_dot _ _ Hf), (split_app_dot _ _ Hg), (split_no_dot _ Ha).
  reflexivity.
Qed.

(** ** The merge *)

Section Merge.

Lemma assoc_dict_update (e d : dict) (k : string) :
  NoDup (map fst e) ->
  assoc k (dict_update d e) =
  match assoc k e with
  | Some v => Some v
  | None => assoc k d
  end.
Proof.
  intros Hnd. destruct (assoc k e) as [v|] eqn:E.
  - apply assoc_In in E. now apply assoc_dict_update_In.
  - apply assoc_None_not_In in E. now apply assoc_dict_update_other.
Qed.

Lemma merged_label_no_dot (old : dict) (k : string) :
  no_dot k = true -> merged_label old k = prior_label old k.
Proof.
  intros Hk. unfold merged_label, prior_label, deep_get.
  change ("option." ++ k)%string with ("option" ++ String "." k)%string.
  rewrite split_app_dot by reflexivity. rewrite (split_no_dot _ Hk).
  simpl. destruct (assoc "option" old) as [[]|]; reflexivity.
Qed.

Lemma option_labels_acc (old : dict) (keys : list string) :
  forall (acc : dict) (k : string),
    assoc k (fold_left (fun acc k => dict_set acc k (merged_label old k)) keys acc)
    = if in_dec string_dec k keys then Some (merged_label old k)
      else assoc k acc.
Proof.
  induction keys as [|k0 keys IH]; intros acc k; simpl; [reflexivity|].
  rewrite IH.
  destruct (in_dec string_dec k keys) as [Hin|Hni].
  - destruct (string_dec k0 k); reflexivity.
  - destruct (string_dec k0 k) as [->|Hne].
    + apply assoc_dict_set_same.
    + now apply assoc_dict_set_other.
Qed.

Lemma option_labels_assoc (old : dict) (keys : list string) (k : string) :
  assoc k (option_labels old keys)
  = if in_dec string_dec k keys then Some (merged_label old k) else None.
Proof. unfold option_labels. apply option_labels_acc. Qed.

(** The rows [_data_merge] builds, for a draft with [str] names whose
    option set is a mapping, empty or not. *)
Lemma data_merge_result (old args : dict) (f g a : string) (o : dict) :
  NoDup (map fst args) ->
  dict_get args "func" (VStr "") = VStr f ->
  dict_get args "group" (VStr "") = VStr g ->
  dict_get args "arg" (VStr "") = VStr a ->
  dict_get args "option" (VDict []) = VDict o ->
  let data0 :=
    dict_update [("func", VStr ""); ("group", VStr ""); ("arg", VStr "");
                 ("lang", VStr ""); ("name", VStr ""); ("help", VStr "");
                 ("type", VStr "input"); ("value", VStr "");
                 ("option", VDict [])] args in
  let data1 := dict_set (dict_set data0 "name" (sticky old f g a "name"))
                        "help" (sticky old f g a "help") in
  let data2 := match o with
               | [] => data1
               | _ => dict_set data1 "option"
                               (VDict (option_labels old (map fst o)))
               end in
  _data_merge old args =
  Ok (if (a =? INFO)%string
      then dict_update data2 [("type", VStr ""); ("value", VStr "");
                              ("option", VDict [])]
      else data2).
Proof.
  intros Hnd Hf Hg Ha Ho data0 data1 data2.
  unfold _data_merge. fold data0.
  assert (Hget : forall k dflt, In k ["func"; "group"; "arg"; "option"] ->
            assoc k [("func", VStr ""); ("group", VStr ""); ("arg", VStr "");
                     ("lang", VStr ""); ("name", VStr ""); ("help", VStr "");
                     ("type", VStr "input"); ("value", VStr "");
                     ("option", VDict [])] = Some dflt ->
            assoc k data0 = Some (dict_get args k dflt)).
  { intros k dflt _ Hd. subst data0. rewrite (assoc_dict_update _ _ _ Hnd).
    unfold dict_get. destruct (assoc k args); [reflexivity | exact Hd]. }
  assert (H0f : assoc "func" data0 = Some (VStr f))
    by (rewrite (Hget "func" (VStr "")), Hf; simpl; auto).
  assert (H0g : assoc "group" data0 = Some (VStr g))
    by (rewrite (Hget "group" (VStr "")), Hg; simpl; auto).
  assert (H0a : assoc "arg" data0 = Some (VStr a))
    by (rewrite (Hget "arg" (VStr "")), Ha; simpl; auto 6).
  assert (H0o : assoc "option" data0 = Some (VDict o))
    by (rewrite (Hget "option" (VDict [])), Ho; simpl; auto 6).
  assert (Hpath : data_to_path data0 = Ok (join "." [f; g; a])).
  { unfold data_to_path, dict_get. simpl. now rewrite H0f, H0g, H0a. }
  rewrite Hpath. cbn [rbind fold_left].
  fold (sticky old f g a "name"). fold (sticky old f g a "help"). fold data1.
  assert (H1o : getitem (VDict data1) "option" = Ok (VDict o)).
  { unfold getitem. subst data1.
    rewrite !assoc_dict_set_other by discriminate. now rewrite H0o. }
  assert (H1a : assoc "arg" data1 = Some (VStr a)).
  { subst data1. now rewrite !assoc_dict_set_other by discriminate. }
  rewrite H1o. cbn [rbind].
  assert (H2a : getitem (VDict data2) "arg" = Ok (VStr a)).
  { unfold getitem. subst data2. destruct o.
    - now rewrite H1a.
    - rewrite assoc_dict_set_other by discriminate. now rewrite H1a. }
  destruct o as [|kv o'].
  - cbn [truthy rbind]. subst data2. cbn iota in H2a. rewrite H2a.
    cbn [rbind py_eqb]. now destruct (a =? INFO)%string.
  - cbn [truthy iter rbind]. fold data2. rewrite H2a.
    cbn [rbind py_eqb]. now destruct (a =? INFO)%string.
Qed.

(** C2, as amended.  The merged row takes [name] and [help] from the
    prior row where the prior row has a non-empty one, and the
    placeholders [func.group.arg.name] and [func.group.arg.help]
    otherwise.  When the draft declares a non-empty option set and is not
    an [_info] row, the merged option set has exactly the keys of the
    draft, each labelled with what [deep_get] finds in the prior row along
    [option.<key>], the key itself when it finds nothing; for an option
    key that holds no dot that is the label the prior row has for the
    key. *)
Theorem data_merge_keeps_human_content
  (old args : dict) (f g a : string) (o : dict) :
  NoDup (map fst args) ->
  dict_get args "func" (VStr "") = VStr f ->
  dict_get args "group" (VStr "") = VStr g ->
  dict_get args "arg" (VStr "") = VStr a ->
  dict_get args "option" (VDict []) = VDict o ->
  exists data,
    _data_merge old args = Ok data
    /\ assoc "name" data = Some (sticky old f g a "name")
    /\ assoc "help" data = Some (sticky old f g a "help")
    /\ (o <> [] -> a <> INFO ->
        exists labels,
          assoc "option" data = Some (VDict labels)
          /\ (forall k, In k (map fst o) -> no_dot k = true ->
                        assoc k labels = Some (prior_label old k))
          /\ (forall k, In k (map fst o) ->
                        assoc k labels = Some (merged_label old k))
          /\ (forall k, ~ In k (map fst o) -> assoc k labels = None)).
Proof.
  intros Hnd Hf Hg Ha Ho.
  rewrite (data_merge_result old args f g a o Hnd Hf Hg Ha Ho).
  eexists. split; [reflexivity|].
  set (data0 := dict_update _ args).
  set (data1 := dict_set (dict_set data0 "name" _) "help" _).
  set (data2 := match o with [] => data1 | _ => _ end).
  assert (H1n : assoc "name" data1 = Some (sticky old f g a "name")).
  { subst data1. rewrite assoc_dict_set_other by discriminate.
    apply assoc_dict_set_same. }
  assert (H1h : assoc "help" data1 = Some (sticky old f g a "help")).
  { subst data1. apply assoc_dict_set_same. }
  assert (H2 : forall k, k <> "option" -> assoc k data2 = assoc k data1).
  { intros k Hk. subst data2. destruct o; [reflexivity|].
    apply assoc_dict_set_other. congruence. }
  assert (Hfin : forall k, k = "name" \/ k = "help" ->
            assoc k (if (a =? INFO)%string
                     then dict_update data2 [("type", VStr ""); ("value", VStr "");
                                             ("option", VDict [])]
                     else data2) = assoc k data1).
  { intros k Hk. destruct (a =? INFO)%string.
    - rewrite assoc_dict_update_other.
      + apply H2. destruct Hk; subst; discriminate.
      + simpl. intros [H|[H|[H|[]]]]; destruct Hk; subst; discriminate.
    - apply H2. destruct Hk; subst; discriminate. }
  split; [rewrite Hfin; auto|]. split; [rewrite Hfin; auto|].
  intros Hne Hinfo.
  apply String.eqb_neq in Hinfo. rewrite Hinfo.
  exists (option_labels old (map fst o)). split.
  - subst data2. destruct o; [contradiction|]. apply assoc_dict_set_same.
  - split.
    + intros k Hin Hk. rewrite option_labels_assoc.
      destruct (in_dec string_dec k (map fst o)); [|contradiction].
      now rewrite merged_label_no_dot.
    + split.
      * intros k Hin. rewrite option_labels_assoc.
        destruct (in_dec string_dec k (map fst o)); [reflexivity | contradiction].
      * intros k Hni. rewrite option_labels_assoc.
        destruct (in_dec string_dec k (map fst o));
          [contradiction | reflexivity].
Qed.

End Merge.

(** ** Paths into nested mappings *)

Section DeepFacts.

Lemma split_nonempty (sep : ascii) (s : string) : split sep s <> [].
Proof.
  destruct s as [|c s]; simpl; [discriminate|].
  destruct (Ascii.eqb c sep); [discriminate|].
  destruct (split sep s); discriminate.
Qed.

Lemma deep_set_keys_dict (d : value) (k : string) (ks : list string) (v : value) :
  exists m, deep_set_keys d (k :: ks) v = VDict m.
Proof. simpl. eauto. Qed.

(** [deep_set] on a mapping is [deep_set_keys] on the keys of the path. *)
Lemma deep_set_spec (d : dict) (keys : string) (v : value) :
  VDict (deep_set d keys v) = deep_set_keys (VDict d) (split "." keys) v.
Proof.
  unfold deep_set. pose proof (split_nonempty "." keys) as Hne.
  destruct (split "." keys) as [|k ks]; [contradiction|].
  destruct (deep_set_keys_dict (VDict d) k ks v) as (m & ->). reflexivity.
Qed.

(** Reading the path that was just written gives the value written. *)
Lemma deep_get_set_same (ks : list string) :
  forall (d v default : value),
    deep_get_keys (deep_set_keys d ks v) ks default = v.
Proof.
  induction ks as [|k ks IH]; intros d v default; simpl; [reflexivity|].
  rewrite assoc_dict_set_same. apply IH.
Qed.

(** Writing a path leaves every other path of the same length as it was. *)
Lemma deep_get_set_other (ks : list string) :
  forall (ks' : list string) (d v default : value),
    List.length ks = List.length ks' -> ks <> ks' ->
    deep_get_keys (deep_set_keys d ks v) ks' default
    = deep_get_keys d ks' default.
Proof.
  induction ks as [|k ks IH]; intros [|k' ks'] d v default Hlen Hne;
    try discriminate; [contradiction|].
  simpl in Hlen. injection Hlen as Hlen. simpl.
  destruct (string_dec k k') as [<-|Hk].
  - rewrite assoc_dict_set_same.
    assert (Hks : ks <> ks') by congruence.
    rewrite (IH ks' _ v default Hlen Hks).
    unfold dict_get. destruct d; simpl;
      try (destruct ks' as [|k2 ks2]; [destruct ks; [contradiction | discriminate] | reflexivity]).
    destruct (assoc k d) eqn:E; [reflexivity|].
    destruct ks' as [|k2 ks2]; [destruct ks; [contradiction | discriminate] | reflexivity].
  - rewrite assoc_dict_set_other by exact Hk.
    destruct d; reflexivity.
Qed.

Lemma apply_writes_frame (ws : list (list string * value)) :
  forall (d : value) (ks : list string) (default : value),
    (forall w, In w ws -> List.length (fst w) = List.length ks) ->
    ~ In ks (map fst ws) ->
    deep_get_keys (apply_writes d ws) ks default = deep_get_keys d ks default.
Proof.
  induction ws as [|[ks0 v0] ws IH]; intros d ks default Hlen Hni; simpl;
    [reflexivity|].
  rewrite IH.
  - apply deep_get_set_other.
    + apply (Hlen (ks0, v0)). now left.
    + intros ->. apply Hni. now left.
  - intros w Hw. apply Hlen. now right.
  - intros H. apply Hni. now right.
Qed.

Lemma apply_writes_get (ws : list (list string * value)) :
  forall (d : value) (ks : list string) (v default : value),
    (forall w, In w ws -> List.length (fst w) = List.length ks) ->
    NoDup (map fst ws) ->
    In (ks, v) ws ->
    deep_get_keys (apply_writes d ws) ks default = v.
Proof.
  induction ws as [|[ks0 v0] ws IH]; intros d ks v default Hlen Hnd Hin;
    [contradiction|].
  simpl in Hnd. inversion Hnd as [|? ? Hni Hnd']; subst.
  destruct Hin as [Hin|Hin].
  - injection Hin as -> ->. simpl.
    rewrite apply_writes_frame.
    + apply deep_get_set_same.
    + intros w Hw. apply Hlen. now right.
    + exact Hni.
  - simpl. apply IH; auto. intros w Hw. apply Hlen. now right.
Qed.

Lemma apply_writes_app (ws1 ws2 : list (list string * value)) (d : value) :
  apply_writes d (ws1 ++ ws2) = apply_writes (apply_writes d ws1) ws2.
Proof. unfold apply_writes. apply fold_left_app. Qed.

End DeepFacts.

(** ** Instance projection *)

Section Projection.

Variable filepath_config : value -> string.

Lemma projectable_path (row : dict) :
  projectable row = true -> is_info row = false ->
  exists v,
    typed_default row = Ok v
    /\ data_to_path row = Ok (join "." (row_keys row))
    /\ split "." (join "." (row_keys row)) = row_keys row
    /\ List.length (row_keys row) = 3%nat.
Proof.
  unfold projectable. intros H Hi.
  destruct (assoc "group" row) as [g|] eqn:Eg; [|discriminate].
  destruct (assoc "arg" row) as [a|] eqn:Ea; [|discriminate].
  rewrite Hi in H. cbn [orb] in H.
  destruct (dict_get row "func" (VStr "")) as [| | | |f| |] eqn:Ef; try discriminate.
  destruct g as [| | | |g| |]; try discriminate.
  destruct a as [| | | |a| |]; try discriminate.
  destruct (typed_default row) as [v|]; [|discriminate].
  apply andb_prop in H. destruct H as [H Hda].
  apply andb_prop in H. destruct H as [Hdf Hdg].
  assert (Hk : row_keys row = [f; g; a]).
  { unfold row_keys, dict_get in *. simpl. rewrite Eg, Ea.
    destruct (assoc "func" row); now rewrite Ef. }
  exists v. split; [reflexivity|]. rewrite Hk. split.
  - unfold data_to_path, dict_get in *. simpl. rewrite Eg, Ea.
    now rewrite Ef.
  - split; [now apply split_path3 | reflexivity].
Qed.

Lemma project_row_spec (new row : dict) :
  projectable row = true ->
  exists new',
    project_row [] new row = Ok new'
    /\ VDict new' = apply_writes (VDict new) (row_writes [row]).
Proof.
  intros H. unfold project_row, row_writes. cbn [flat_map].
  destruct (is_info row) eqn:Hi.
  - exists new. split; [|reflexivity].
    unfold projectable in H. unfold is_info, dict_get in Hi.
    destruct (assoc "group" row) as [g|] eqn:Eg; [|discriminate].
    destruct (assoc "arg" row) as [a|] eqn:Ea; [|discriminate].
    unfold getitem. rewrite Eg. cbn [rbind].
    destruct (py_eqb g (VStr INFO)); [reflexivity|].
    rewrite Ea. cbn [rbind]. cbn [orb] in Hi. now rewrite Hi.
  - destruct (projectable_path row H Hi) as (v & Hv & Hp & Hs & _).
    unfold is_info, dict_get in Hi. unfold projectable in H.
    destruct (assoc "group" row) as [g|] eqn:Eg; [|discriminate].
    destruct (assoc "arg" row) as [a|] eqn:Ea; [|discriminate].
    apply orb_false_elim in Hi. destruct Hi as [Hig Hia].
    unfold getitem at 1. rewrite Eg. cbn [rbind]. rewrite Hig.
    unfold getitem at 1. rewrite Ea. cbn [rbind]. rewrite Hia.
    rewrite Hp. cbn [rbind]. rewrite Hv.
    unfold typed_default in Hv.
    destruct (getitem (VDict row) "value") as [d|] eqn:Ed; [|discriminate].
    cbn [rbind] in *.
    assert (Hd : deep_get (VDict []) (join "." (row_keys row)) d = d).
    { unfold deep_get. pose proof (split_nonempty "." (join "." (row_keys row))).
      destruct (split "." (join "." (row_keys row))); [contradiction | reflexivity]. }
    rewrite Hd, Hv. cbn [rbind].
    eexists. split; [reflexivity|].
    rewrite app_nil_r. unfold apply_writes. cbn [fold_left fst snd].
    now rewrite deep_set_spec, Hs.
Qed.

Lemma row_writes_cons (row : dict) (rows : list dict) :
  row_writes (row :: rows) = row_writes [row] ++ row_writes rows.
Proof. unfold row_writes. simpl. now rewrite app_nil_r. Qed.

Lemma project_rows_spec (rows : list dict) :
  forall new,
    forallb projectable rows = true ->
    exists new',
      project_rows [] new rows = Ok new'
      /\ VDict new' = apply_writes (VDict new) (row_writes rows).
Proof.
  induction rows as [|row rows IH]; intros new H.
  - exists new. split; reflexivity.
  - simpl in H. apply andb_prop in H. destruct H as [Hr Hrs].
    destruct (project_row_spec new row Hr) as (new1 & H1 & E1).
    destruct (IH new1 Hrs) as (new2 & H2 & E2).
    exists new2. cbn [project_rows]. rewrite H1. cbn [rbind].
    split; [exact H2|].
    now rewrite row_writes_cons, apply_writes_app, <- E1.
Qed.

Lemma row_writes_fst (rows : list dict) :
  forallb projectable rows = true ->
  map fst (row_writes rows)
  = map row_keys (filter (fun r => negb (is_info r)) rows).
Proof.
  induction rows as [|row rows IH]; intros H; [reflexivity|].
  simpl in H. apply andb_prop in H. destruct H as [Hr Hrs].
  rewrite row_writes_cons, map_app, (IH Hrs). simpl.
  unfold row_writes. cbn [flat_map].
  destruct (is_info row) eqn:Hi; [reflexivity|].
  destruct (projectable_path row Hr Hi) as (v & -> & _). reflexivity.
Qed.

Lemma row_writes_In (rows : list dict) (row : dict) (v : value) :
  In row rows -> is_info row = false -> typed_default row = Ok v ->
  In (row_keys row, v) (row_writes rows).
Proof.
  intros Hin Hi Hv. unfold row_writes. apply in_flat_map.
  exists row. split; [exact Hin|]. rewrite Hi, Hv. now left.
Qed.

Lemma row_writes_length (rows : list dict) :
  forallb projectable rows = true ->
  forall w, In w (row_writes rows) -> List.length (fst w) = 3%nat.
Proof.
  intros H w Hw. unfold row_writes in Hw. apply in_flat_map in Hw.
  destruct Hw as (row & Hin & Hw).
  rewrite forallb_forall in H. specialize (H row Hin).
  destruct (is_info row) eqn:Hi; [contradiction|].
  destruct (projectable_path row H Hi) as (v & Hv & _ & _ & Hl).
  rewrite Hv in Hw. destruct Hw as [<-|[]]. exact Hl.
Qed.

(** A value that is not a [str] is typed as itself: it is in the option
    set, or the option set sends back the default, which it is. *)
Lemma typed_default_not_str (row : dict) (default v : value) :
  assoc "value" row = Some default ->
  (forall t, default <> VStr t) ->
  typed_default row = Ok v -> v = default.
Proof.
  intros Hd Hns. unfold typed_default, getitem, parse_value. rewrite Hd.
  cbn [rbind]. unfold getitem.
  destruct (assoc "option" row) as [o|]; [|discriminate]. cbn [rbind].
  destruct (if truthy o then _ else _) as [[|]|]; cbn [rbind];
    try discriminate.
  - rewrite Hd. now intros [= ->].
  - destruct default; try (now intros [= ->]).
    now contradiction (Hns s).
Qed.

Lemma check_config_frame (data : dict) (is_template : bool) (s : Database)
  (ks : list string) (default : value) :
  List.length ks = 3%nat -> ks <> stats_keys ->
  exists data' s',
    _check_config data is_template s = (Ok data', s')
    /\ file_config s' = file_config s
    /\ deep_get_keys (VDict data') ks default
       = deep_get_keys (VDict data) ks default.
Proof.
  intros Hl Hne. unfold _check_config.
  assert (Hset : forall v,
    deep_get_keys (VDict (deep_set data "Alas.DropRecord.AzurStatsID" v)) ks default
    = deep_get_keys (VDict data) ks default).
  { intros v. rewrite deep_set_spec.
    change (split "." "Alas.DropRecord.AzurStatsID") with stats_keys.
    apply deep_get_set_other; [now rewrite Hl | congruence]. }
  destruct is_template.
  - eexists _, s. split; [reflexivity|]. split; [reflexivity | apply Hset].
  - unfold bind, random_id, ret. eexists _, _. split; [reflexivity|].
    split; [reflexivity|]. unfold deep_default.
    destruct (deep_has_keys _ _); [reflexivity | apply Hset].
Qed.

(** C5, as amended.  Over a store whose rows of the default language can
    be projected and have pairwise distinct paths, projecting a
    configuration whose instance file is empty or missing gives, at the
    path of every row that is not an [_info] row (the path of the
    statistics identifier apart), the default of the row typed by
    [parse_value] against the option set of the row: the default itself
    whenever it is not a [str]. *)
Theorem update_config_fills_typed_defaults (name : value) (s : Database) :
  fst (read_config filepath_config name s) = Ok [] ->
  forallb projectable (canonical_rows s) = true ->
  NoDup (map row_keys (filter (fun r => negb (is_info r)) (canonical_rows s))) ->
  exists new s',
    update_config filepath_config name s = (Ok new, s')
    /\ assoc (filepath_config name) (file_config s') = Some new
    /\ forall row default,
         In row (canonical_rows s) -> is_info row = false ->
         row_keys row <> stats_keys ->
         assoc "value" row = Some default ->
         exists path,
           data_to_path row = Ok path
           /\ parse_value default (VDict row)
              = Ok (deep_get (VDict new) path VNone)
           /\ ((forall t, default <> VStr t) ->
               deep_get (VDict new) path VNone = default).
Proof.
  intros Hold Hok Hnd.
  unfold update_config.
  unfold bind at 1. unfold read_config, gets in *. cbn [fst] in Hold.
  injection Hold as Hold. rewrite Hold.
  unfold bind at 1.
  rewrite db_search_run, search_plain by discriminate.
  set (s1 := set_query_cache _ (snd (self_db s))).
  fold (canonical_rows s).
  destruct (project_rows_spec (canonical_rows s) [] Hok) as (new0 & Hp & Hw).
  unfold bind at 1. rewrite Hp. cbn [lift].
  unfold bind at 1.
  destruct (_check_config new0 (py_eqb name (VStr "template")) s1)
    as [[new|e] s2] eqn:Hc.
  2:{ destruct (check_config_frame new0 (py_eqb name (VStr "template")) s1
                                   ["a"; "b"; "c"] VNone eq_refl)
        as (d' & s' & Hc' & _); [discriminate | congruence]. }
  unfold bind at 1. unfold write_config, modify, ret.
  exists new. eexists. split; [reflexivity|]. split.
  - simpl. now rewrite String.eqb_refl.
  - intros row default Hin Hi Hstats Hd.
    rewrite forallb_forall in Hok.
    destruct (projectable_path row (Hok row Hin) Hi) as (v & Hv & Hpath & Hs & Hl).
    exists (join "." (row_keys row)). split; [exact Hpath|].
    assert (Hget : deep_get (VDict new) (join "." (row_keys row)) VNone = v).
    { unfold deep_get. rewrite Hs.
      destruct (check_config_frame new0 (py_eqb name (VStr "template")) s1
                                   (row_keys row) VNone Hl Hstats)
        as (d' & s' & Hc' & _ & Hframe).
      rewrite Hc in Hc'. injection Hc' as <- <-.
      rewrite Hframe, Hw.
      apply apply_writes_get.
      - intros w Hw'. rewrite Hl. apply row_writes_length with (canonical_rows s); auto.
        now apply forallb_forall.
      - rewrite row_writes_fst; [exact Hnd | now apply forallb_forall].
      - now apply row_writes_In. }
    rewrite Hget. split.
    + unfold typed_default, getitem in Hv. rewrite Hd in Hv. exact Hv.
    + intros Hns. now apply (typed_default_not_str row default v).
Qed.

End Projection.

(** ** The schema view and the instance configurations *)

Section Views.

Variable filepath_config : value -> string.

Lemma assert_Ok (b : bool) (msg : string) (s s' : Database) (u : unit) :
  assert b msg s = (Ok u, s') -> b = true /\ s' = s.
Proof.
  unfold assert, lift. destruct b; [|discriminate]. now intros [= _ ->].
Qed.

(** [self.db] gives the current rows and changes nothing but the cache. *)
Lemma self_db_spec (s : Database) :
  exists s1,
    self_db s = (Ok (current_rows s), s1)
    /\ current_rows s1 = current_rows s
    /\ db s1 = Some (current_rows s)
    /\ _config s1 = _config s
    /\ _config_updated s1 = _config_updated s
    /\ file_config s1 = file_config s.
Proof.
  unfold self_db, current_rows. destruct (db s) eqn:E.
  - exists s. rewrite E. auto 10.
  - eexists. split; [reflexivity|]. simpl. auto 10.
Qed.

(** The tree [select_db] returns is the documents of the search,
    nested. *)
Lemma select_db_Ok (request view : dict) (s s' : Database) :
  select_db request s = (Ok view, s') ->
  exists cond rows,
    fst (TinyDB.search (request_to_query request) (current_cache s)
                       (current_rows s)) = Ok rows
    /\ cond = request_to_query request
    /\ nest_rows [] rows = Ok view
    /\ current_rows s' = current_rows s
    /\ db s' = Some (current_rows s)
    /\ _config s' = _config s
    /\ _config_updated s' = _config_updated s
    /\ file_config s' = file_config s
    /\ current_cache s'
       = snd (TinyDB.search (request_to_query request) (current_cache s)
                            (current_rows s)).
Proof.
  intros H. unfold select_db in H.
  inv_bind H as u s1 Ha. apply assert_Ok in Ha. destruct Ha as [_ ->].
  inv_bind H as rows s3 Hq. inv_lift H.
  pose proof (db_search_frame (request_to_query request) s) as F.
  cbv zeta in F. rewrite Hq in F. cbn [snd] in F.
  destruct F as (F1 & F2 & F3 & F4 & F5 & F6 & F7 & F8 & F9 & F10 & F11).
  rewrite db_search_run in Hq. injection Hq as Hq Hs3.
  exists (request_to_query request), rows.
  repeat (split; [first [assumption | reflexivity]|]).
  unfold current_cache. rewrite F11. now rewrite <- Hs3.
Qed.

Lemma last_cons_default {A : Type} (l : list A) (x d d' : A) :
  last (x :: l) d = last (x :: l) d'.
Proof.
  revert x. induction l as [|y l IH]; intros x; [reflexivity|].
  change (last (y :: l) d = last (y :: l) d'). apply IH.
Qed.

(** Nesting rows that share one path leaves the last of them there. *)
Lemma nest_rows_same_path (path : string) (rows : list dict) :
  forall (acc view : dict) (default : value),
    (forall r, In r rows -> data_to_path r = Ok path) ->
    nest_rows acc rows = Ok view ->
    match rows with
    | [] => view = acc
    | r :: _ => deep_get (VDict view) path default = VDict (last rows r)
    end.
Proof.
  induction rows as [|r rows IH]; intros acc view default Hp H.
  - simpl in H. now injection H as <-.
  - cbn [nest_rows] in H. rewrite (Hp r) in H by now left. cbn [rbind] in H.
    assert (Hp' : forall r', In r' rows -> data_to_path r' = Ok path)
      by (intros r' Hr'; apply Hp; now right).
    specialize (IH _ _ default Hp' H).
    destruct rows as [|r' rows'].
    + subst view. unfold deep_get. rewrite deep_set_spec.
      apply deep_get_set_same.
    + rewrite IH. f_equal.
      change (last (r :: r' :: rows') r) with (last (r' :: rows') r).
      apply last_cons_default.
Qed.

Lemma join_values_Ok (l : list value) (parts : list string) :
  join_values l = Ok parts -> l = map VStr parts.
Proof.
  revert parts. induction l as [|v l IH]; intros parts H.
  - simpl in H. now injection H as <-.
  - destruct v; try discriminate H. cbn [join_values] in H.
    destruct (join_values l) as [r|]; [|discriminate].
    cbn [rbind] in H. injection H as <-. simpl. now rewrite (IH r).
Qed.

Lemma truthy_dict_get (d : dict) (k : string) (default : value) :
  truthy (dict_get d k VNone) = true ->
  dict_get d k default = dict_get d k VNone.
Proof.
  unfold dict_get. destruct (assoc k d); [reflexivity | discriminate].
Qed.

(** A row that the four tests of a request match has the path of the
    request. *)
Lemma matches_query4_path (request row : dict) (path : string) :
  truthy (dict_get request "func" VNone)
  && truthy (dict_get request "group" VNone)
  && truthy (dict_get request "arg" VNone)
  && truthy (dict_get request "lang" VNone) = true ->
  data_to_path request = Ok path ->
  TinyDB.matches (query4 request) row = true ->
  data_to_path row = Ok path.
Proof.
  intros Ht Hp Hm.
  apply andb_prop in Ht. destruct Ht as [Ht _].
  apply andb_prop in Ht. destruct Ht as [Ht Ha].
  apply andb_prop in Ht. destruct Ht as [Hf Hg].
  unfold data_to_path in *. cbn [map] in *.
  rewrite (truthy_dict_get _ _ _ Hf), (truthy_dict_get _ _ _ Hg),
    (truthy_dict_get _ _ _ Ha) in Hp.
  inv_rbind Hp as parts Hj. injection Hp as <-.
  apply join_values_Ok in Hj.
  destruct parts as [|f [|g [|a [|? ?]]]]; try discriminate Hj.
  injection Hj as Ef Eg Ea.
  unfold TinyDB.matches, query4 in Hm. cbn [forallb] in Hm.
  rewrite Ef, Eg, Ea in Hm. unfold TinyDB.test in Hm. cbn [fst snd] in Hm.
  apply andb_prop in Hm. destruct Hm as [Hmf Hm].
  apply andb_prop in Hm. destruct Hm as [Hmg Hm].
  apply andb_prop in Hm. destruct Hm as [Hma _].
  unfold dict_get.
  destruct (assoc "func" row) as [x|]; [|discriminate].
  apply py_eqb_str_r in Hmf. subst x.
  destruct (assoc "group" row) as [x|]; [|discriminate].
  apply py_eqb_str_r in Hmg. subst x.
  destruct (assoc "arg" row) as [x|]; [|discriminate].
  apply py_eqb_str_r in Hma. subst x.
  reflexivity.
Qed.

Lemma vassoc_vset_same {A : Type} (d : list (value * A)) (k : value) (v : A) :
  hashable k = true -> vassoc k (vset d k v) = Some v.
Proof.
  intros Hk. induction d as [|[k' v'] d IH]; simpl.
  - now rewrite py_eqb_refl.
  - destruct (py_eqb k' k) eqn:E; simpl; now rewrite E.
Qed.

(** A configuration that is in the cache is returned from it. *)
Lemma config_cached (k : value) (data : dict) (s : Database) :
  hashable k = true -> vassoc k (_config s) = Some data ->
  config filepath_config k s = (Ok data, s).
Proof.
  intros Hk Hc. unfold config, bind, hash_check, lift, gets.
  now rewrite Hk, Hc.
Qed.

Lemma config_Ok_hashable (k : value) (data : dict) (s s' : Database) :
  config filepath_config k s = (Ok data, s') -> hashable k = true.
Proof.
  unfold config, bind at 1, hash_check, lift.
  destruct (hashable k); [reflexivity | discriminate].
Qed.

Lemma stable_cached_config (k : value) (data : dict) :
  hashable k = true ->
  stable (cached k data) (config filepath_config k).
Proof.
  intros Hk s H. now rewrite (config_cached k data s Hk H).
Qed.

Lemma stable_cached_select_db (k : value) (data : dict) (request : dict) :
  stable (cached k data) (select_db request).
Proof.
  unfold select_db. repeat stable_step.
  intros s H. unfold cached.
  pose proof (db_search_frame (request_to_query request) s) as F.
  cbv zeta in F. destruct F as (_ & _ & _ & _ & _ & -> & _). exact H.
Qed.

Lemma stable_cached_select_function (k : value) (data : dict) (request : dict) :
  hashable k = true -> dict_get request "config" VNone = k ->
  stable (cached k data) (select_function filepath_config request).
Proof.
  intros Hk Hr. unfold select_function, keep_documents. rewrite Hr.
  repeat first [ apply stable_cached_select_db
               | apply stable_modify; intros ? H; exact H | stable_step ].
  unfold select_config. cbn [dict_get assoc String.eqb Ascii.eqb Bool.eqb].
  repeat first [ apply stable_cached_select_db
               | apply stable_cached_config; exact Hk | stable_step ].
Qed.

(** C9, as amended.  When [upsert_config] returns, the request has a
    schema row, the last of the rows its four tests match; the value
    written at the path of the request, in the cached configuration and
    in its file, is the raw value typed against that row, and the default
    of the row when typing gives [None].  So an empty raw value stores the
    default of the row, and [None] is stored only when the default of the
    row is [None] itself. *)
Theorem upsert_config_stores_typed_or_default
  (request response : dict) (s s' : Database) :
  upsert_config filepath_config request s = (Ok response, s') ->
  exists (path : string) (row data : dict) (typed stored : value),
    data_to_path request = Ok path
    /\ In row (current_rows s)
    /\ TinyDB.matches (query4 request) row = true
    /\ parse_value (dict_get request "value" VNone) (VDict row) = Ok typed
    /\ assoc (filepath_config (dict_get request "config" VNone))
             (file_config s') = Some data
    /\ vassoc (dict_get request "config" VNone) (_config s') = Some data
    /\ deep_get (VDict data) path VNone = stored
    /\ (typed <> VNone -> stored = typed)
    /\ (typed = VNone -> assoc "value" row = Some stored)
    /\ (dict_get request "value" VNone = VStr "" ->
        assoc "value" row = Some stored)
    /\ (stored = VNone -> assoc "value" row = Some VNone).
Proof.
  intros H. unfold upsert_config in H.
  set (value0 := dict_get request "value" VNone) in *.
  set (config0 := dict_get request "config" VNone) in *.
  inv_bind H as u1 s1 Ha1. apply assert_Ok in Ha1. destruct Ha1 as [Ht ->].
  inv_bind H as u2 s2 Ha2. apply assert_Ok in Ha2. destruct Ha2 as [Hv ->].
  inv_bind H as u3 s3 Ha3. apply assert_Ok in Ha3. destruct Ha3 as [Hc ->].
  inv_bind H as path s4 Hp. inv_lift Hp.
  inv_bind H as view s5 Hview.
  apply select_db_Ok in Hview.
  destruct Hview
    as (cond & rows & Hsearch & _ & Hnest & Hcur & Hdb & Hcfg & Hcu & Hfc & _).
  assert (Hq : request_to_query request = Some (query4 request)).
  { pose proof Ht as Ht'.
    apply andb_prop in Ht'. destruct Ht' as [Ht' Hl].
    apply andb_prop in Ht'. destruct Ht' as [Ht' Ha].
    apply andb_prop in Ht'. destruct Ht' as [Hf Hg].
    unfold request_to_query, query4. now rewrite Hf, Hg, Ha, Hl. }
  rewrite Hq, search_plain in Hsearch by discriminate.
  injection Hsearch as <-.
  set (rows := filter (TinyDB.matches (query4 request)) (current_rows s)) in *.
  assert (Hrows : forall r, In r rows -> data_to_path r = Ok path).
  { intros r Hr. subst rows. apply filter_In in Hr. destruct Hr as [_ Hm].
    now apply (matches_query4_path request). }
  pose proof (nest_rows_same_path path rows [] view VNone Hrows Hnest) as Hlast.
  inv_bind H as typed s6 Hty. inv_lift Hty.
  destruct rows as [|r0 rows'] eqn:Erows.
  { subst view. exfalso. revert Hty. unfold deep_get.
    pose proof (split_nonempty "." path).
    destruct (split "." path); [contradiction | discriminate]. }
  rewrite Hlast in *.
  set (row := last (r0 :: rows') r0) in *.
  assert (Hrow : In row (r0 :: rows')).
  { subst row. destruct (@exists_last _ (r0 :: rows')) as (l' & x & E);
      [discriminate|].
    rewrite E. rewrite last_last. apply in_or_app. right. now left. }
  rewrite <- Erows in Hrow. subst rows. apply filter_In in Hrow.
  destruct Hrow as [Hin Hm].
  inv_bind H as stored s7 Hst. inv_lift Hst.
  inv_bind H as data s8 Hcf1.
  pose proof (config_Ok_hashable _ _ _ _ Hcf1) as Hhash.
  inv_bind H as u4 s9 Hmod. unfold modify in Hmod. injection Hmod as _ <-.
  inv_bind H as resp s10 Hsf.
  set (data' := deep_set data path stored) in *.
  assert (Hcached : cached config0 data' s10).
  { pose proof (stable_cached_select_function config0 data'
                  [("func", dict_get request "func" VNone);
                   ("lang", dict_get request "lang" VNone);
                   ("config", config0)] Hhash eq_refl) as Hst'.
    specialize (Hst' (set__config (vset (_config s8) config0 data') s8)).
    rewrite Hsf in Hst'. apply Hst'.
    unfold cached. simpl. now apply vassoc_vset_same. }
  inv_bind H as data2 s11 Hcf2.
  rewrite (config_cached config0 data' s10 Hhash Hcached) in Hcf2.
  injection Hcf2 as <- <-.
  inv_bind H as u5 s12 Hw. unfold write_config, modify in Hw.
  injection Hw as _ <-. unfold ret in H. injection H as _ <-.
  exists path, row, data', typed, stored.
  split; [exact Hp|]. split; [exact Hin|]. split; [exact Hm|].
  split; [exact Hty|].
  split; [simpl; now rewrite String.eqb_refl|].
  split; [exact Hcached|].
  split; [subst data'; unfold deep_get; rewrite deep_set_spec;
          apply deep_get_set_same|].
  assert (Hval : forall x, getitem (VDict row) "value" = Ok x ->
                           assoc "value" row = Some x).
  { intros x. unfold getitem.
    destruct (assoc "value" row); [now intros [= ->] | discriminate]. }
  split; [intros Hne; destruct typed; try (now injection Hst as <-); contradiction|].
  split; [intros ->; now apply Hval|].
  split.
  - intros Hraw. rewrite Hraw in Hty. unfold parse_value in Hty.
    inv_rbind Hty as o Ho. inv_rbind Hty as rejected Hrej.
    destruct rejected.
    + destruct typed; try (injection Hst as <-); now apply Hval.
    + cbn in Hty. injection Hty as <-. now apply Hval.
  - intros ->. destruct typed; try discriminate Hst. now apply Hval.
Qed.

End Views.

(** ** The overlay of [select_function] *)

Section Overlay.

Variable filepath_config : value -> string.

Lemma items_step_raised (body : string * value -> dict -> dict * option exn)
  (l : dict) (acc : dict) (e : exn) :
  fold_left (items_step body) l (acc, Some e) = (acc, Some e).
Proof. induction l as [|x l IH]; simpl; [reflexivity | exact IH]. Qed.

Lemma split_path4 (f g a : string) :
  no_dot f = true -> no_dot g = true -> no_dot a = true ->
  split "." (f ++ "." ++ g ++ "." ++ a ++ ".value") = [f; g; a; "value"].
Proof.
  intros Hf Hg Ha.
  change (f ++ "." ++ g ++ "." ++ a ++ ".value")%string
    with (f ++ String "." (g ++ String "." (a ++ String "." "value")))%string.
  now rewrite (split_app_dot _ _ Hf), (split_app_dot _ _ Hg),
    (split_app_dot _ _ Ha).
Qed.

Lemma overlay_args_spec (f g : string) (m : dict) :
  no_dot f = true -> no_dot g = true ->
  forallb (fun kv => no_dot (fst kv)) m = true ->
  forall acc,
  exists acc',
    fold_left (items_step (overlay_arg f g)) m (acc, None) = (acc', None)
    /\ VDict acc' = apply_writes (VDict acc) (arg_writes f g m).
Proof.
  intros Hf Hg. induction m as [|[a v] m IH]; intros Hm acc.
  - exists acc. split; reflexivity.
  - cbn [forallb fst] in Hm. apply andb_prop in Hm. destruct Hm as [Ha Hm].
    cbn [fold_left]. unfold items_step at 2. cbn [fst snd overlay_arg].
    assert (Hstep : exists acc1,
              match v with
              | VNone => (acc, @None exn)
              | _ => (deep_set acc (f ++ "." ++ g ++ "." ++ a ++ ".value") v,
                      None)
              end = (acc1, None)
              /\ VDict acc1 = apply_writes (VDict acc) (arg_writes f g [(a, v)])).
    { unfold arg_writes. cbn [flat_map fst snd].
      destruct v; try (eexists; split; [reflexivity|]; rewrite app_nil_r;
        unfold apply_writes; cbn [fold_left fst snd];
        now rewrite deep_set_spec, split_path4).
      exists acc. split; reflexivity. }
    destruct Hstep as (acc1 & -> & E1).
    destruct (IH Hm acc1) as (acc' & H' & E').
    exists acc'. split; [exact H'|].
    replace (arg_writes f g ((a, v) :: m))
      with (arg_writes f g [(a, v)] ++ arg_writes f g m)
      by (unfold arg_writes; cbn [flat_map]; now rewrite app_nil_r).
    now rewrite apply_writes_app, <- E1.
Qed.

Lemma overlay_groups_spec (f : string) (sub : dict) :
  no_dot f = true -> dotfree sub = true ->
  forall acc result,
    fold_left (items_step (overlay_group f)) sub (acc, None) = (result, None) ->
    VDict result = apply_writes (VDict acc) (overlay_writes f sub).
Proof.
  intros Hf. induction sub as [|[g gd] sub IH]; intros Hd acc result H.
  - simpl in H. now injection H as <-.
  - cbn [dotfree forallb fst snd] in Hd. apply andb_prop in Hd.
    destruct Hd as [Hd Hsub]. apply andb_prop in Hd. destruct Hd as [Hg Hm].
    cbn [fold_left] in H. unfold items_step at 2 in H.
    cbn [fst snd overlay_group] in H. unfold fold_items in H.
    destruct gd; cbn [items] in H;
      try (rewrite items_step_raised in H; discriminate H).
    destruct (overlay_args_spec f g d Hf Hg Hm acc) as (acc1 & E & E1).
    rewrite E in H.
    change (overlay_writes f ((g, VDict d) :: sub))
      with (arg_writes f g d ++ overlay_writes f sub).
    rewrite apply_writes_app, <- E1. now apply IH.
Qed.

Lemma overlay_spec (f : string) (sub : value) (database result : dict) :
  no_dot f = true ->
  overlay [(f, sub)] database = (result, None) ->
  exists m,
    sub = VDict m
    /\ (dotfree m = true ->
        VDict result = apply_writes (VDict database) (overlay_writes f m)).
Proof.
  intros Hf H. unfold overlay, fold_items in H.
  cbn [items fold_left] in H. unfold items_step in H.
  cbn [fst snd overlay_func] in H.
  unfold fold_items in H. destruct sub; try discriminate H.
  exists d. split; [reflexivity|]. intros Hd.
  cbn [items] in H. now apply (overlay_groups_spec f d).
Qed.


(** Once [config] has returned a configuration, the cache holds it. *)
Lemma config_Ok_cached (k : value) (data : dict) (s s' : Database) :
  config filepath_config k s = (Ok data, s') -> cached k data s'.
Proof.
  intros H. pose proof (config_Ok_hashable _ _ _ _ _ H) as Hk.
  unfold config in H.
  inv_bind H as u s1 Hh. unfold hash_check in Hh. inv_lift Hh.
  inv_bind H as cache s2 Hg. unfold gets in Hg. injection Hg as <- <-.
  destruct (vassoc k (_config s)) as [d|] eqn:E.
  - unfold ret in H. injection H as <- <-. exact E.
  - inv_bind H as updated s3 Hu. unfold gets in Hu. injection Hu as <- <-.
    destruct (vmem k (_config_updated s)).
    + inv_bind H as d s4 Hr. inv_bind H as u' s5 Hm.
      unfold modify in Hm. injection Hm as _ <-.
      unfold ret in H. injection H as <- <-.
      unfold cached. simpl. now apply vassoc_vset_same.
    + inv_bind H as d s4 Hr. inv_bind H as u' s5 Hm.
      unfold modify in Hm. injection Hm as _ <-.
      inv_bind H as u2 s6 Hm2. unfold modify in Hm2. injection Hm2 as _ <-.
      unfold ret in H. injection H as <- <-.
      unfold cached. simpl. now apply vassoc_vset_same.
Qed.

(** The rows of one function nest under the name of the function. *)
Lemma nest_rows_one_key (f : string) (rows : list dict) :
  no_dot f = true ->
  (forall r, In r rows -> assoc "func" r = Some (VStr f)) ->
  forall acc view,
    (acc = [] \/ exists v, acc = [(f, v)]) ->
    nest_rows acc rows = Ok view ->
    view = [] \/ exists v, view = [(f, v)].
Proof.
  intros Hf. induction rows as [|r rows IH]; intros Hr acc view Hacc H.
  - simpl in H. now injection H as <-.
  - cbn [nest_rows] in H. inv_rbind H as path Hp.
    apply IH in H; [exact H | intros r' Hr'; apply Hr; now right |].
    right.
    unfold data_to_path in Hp. inv_rbind Hp as parts Hj.
    injection Hp as <-. apply join_values_Ok in Hj. cbn [map] in Hj.
    unfold dict_get in Hj at 1. rewrite (Hr r) in Hj by now left.
    destruct parts as [|f' [|g [|a [|? ?]]]]; try discriminate Hj.
    injection Hj as <- _ _.
    assert (Hs : deep_set acc (join "." [f; g; a]) (VDict r)
                 = dict_set acc f (deep_set_keys (dict_get acc f VNone)
                                     (split "." (g ++ String "." a)) (VDict r))).
    { assert (E : VDict (deep_set acc (join "." [f; g; a]) (VDict r))
                  = VDict (dict_set acc f (deep_set_keys (dict_get acc f VNone)
                                     (split "." (g ++ String "." a)) (VDict r)))).
      { rewrite deep_set_spec. unfold join. cbn [String.concat].
        change (f ++ "." ++ g ++ "." ++ a)%string
          with (f ++ String "." (g ++ String "." a))%string.
        now rewrite (split_app_dot _ _ Hf). }
      now injection E. }
    rewrite Hs. destruct Hacc as [->|(v & ->)]; simpl.
    + eauto.
    + rewrite String.eqb_refl. eauto.
Qed.

(** The steps of a call of [select_function] that returns. *)
Lemma select_function_Ok (request result : dict) (s s' : Database)
  (f : string) :
  select_function filepath_config request s = (Ok result, s') ->
  dict_get request "func" VNone = VStr f -> no_dot f = true ->
  let lang0 := dict_get request "lang" VNone in
  let config0 := dict_get request "config" VNone in
  let request3 := [("func", VStr f); ("lang", lang0); ("config", config0)] in
  exists (view inst : dict) (s4 t5 s5 : Database),
    select_db request3 s = (Ok view, s4)
    /\ request_to_query request3 = Some [("func", VStr f); ("lang", lang0)]
    /\ nest_rows [] (documents_of request3 s) = Ok view
    /\ select_db request3 s4 = (Ok view, t5)
    /\ config filepath_config config0 t5 = (Ok inst, s5)
    /\ overlay [(f, dict_get inst f VNone)] view = (result, None)
    /\ s' = set_query_cache
              (TinyDB.change (VStr f) lang0 (documents_after result)
                             (current_rows s5) (current_cache s5)) s5.
Proof.
  intros H Hfunc Hf lang0 config0 request3.
  unfold select_function in H. rewrite Hfunc in H.
  fold lang0 config0 request3 in H.
  inv_bind H as u1 s1 Ha1. apply assert_Ok in Ha1. destruct Ha1 as [Hft ->].
  inv_bind H as u2 s2 Ha2. apply assert_Ok in Ha2. destruct Ha2 as [Hl ->].
  inv_bind H as u3 s3 Ha3. apply assert_Ok in Ha3. destruct Ha3 as [Hc ->].
  assert (Hq : request_to_query request3
               = Some [("func", VStr f); ("lang", lang0)]).
  { unfold request_to_query, request3.
    cbn [dict_get assoc String.eqb Ascii.eqb Bool.eqb].
    now rewrite Hft, Hl. }
  inv_bind H as view s4 Hview.
  pose proof Hview as Hview0.
  apply select_db_Ok in Hview.
  destruct Hview
    as (cond & rows & Hsearch & _ & Hnest & Hcur & Hdb & _ & _ & _ & Hcache).
  inv_bind H as tree s5 Hsc.
  inv_bind H as u4 s6 Hkeep. unfold keep_documents, modify in Hkeep.
  injection Hkeep as _ <-.
  assert (Hov : overlay tree view = (result, None)
                /\ s' = set_query_cache
                          (TinyDB.change (VStr f) lang0
                             (documents_after result)
                             (current_rows s5) (current_cache s5)) s5).
  { destruct (overlay tree view) as [database [e|]]; cbn [fst snd] in H.
    - discriminate H.
    - unfold ret in H. injection H as <- <-. split; reflexivity. }
  clear H. destruct Hov as [H Hs'].
  unfold select_config in Hsc.
  change (dict_get request3 "func" VNone) with (VStr f) in Hsc.
  change (dict_get request3 "group" VNone) with VNone in Hsc.
  change (dict_get request3 "arg" VNone) with VNone in Hsc.
  change (dict_get request3 "config" VNone) with config0 in Hsc.
  inv_bind Hsc as v1 t1 Hb1. apply assert_Ok in Hb1. destruct Hb1 as [_ ->].
  inv_bind Hsc as v2 t2 Hb2. apply assert_Ok in Hb2. destruct Hb2 as [_ ->].
  cbn [truthy] in Hsc.
  inv_bind Hsc as v3 t3 Hb3. unfold ret in Hb3. injection Hb3 as _ <-.
  inv_bind Hsc as v4 t4 Hb4. unfold ret in Hb4. injection Hb4 as _ <-.
  inv_bind Hsc as response t5 Hresp.
  pose proof Hresp as Hresp0.
  apply select_db_Ok in Hresp.
  destruct Hresp as (cond' & rows' & Hsearch' & _ & Hnest' & _).
  rewrite Hq in Hsearch.
  rewrite Hcur, Hcache, Hq, search_again in Hsearch'.
  assert (Erows : Ok rows' = Ok rows)
    by (rewrite <- Hsearch', <- Hsearch; reflexivity).
  injection Erows as ->.
  rewrite Hnest in Hnest'. injection Hnest' as <-.
  inv_bind Hsc as parts t6 Hparts. inv_lift Hparts.
  cbn [filter] in Hparts. rewrite Hft in Hparts.
  cbn [filter truthy join_values rbind] in Hparts. injection Hparts as <-.
  inv_bind Hsc as inst t7 Hcfg.
  unfold ret in Hsc. injection Hsc as <- <-.
  (* the documents all belong to the function *)
  rewrite search_documents in Hsearch. injection Hsearch as <-.
  assert (Hdocs : documents_of request3 s
                  = TinyDB.with_values
                      (filter (TinyDB.matches [("func", VStr f); ("lang", lang0)])
                              (current_rows s))
                      (TinyDB.held [("func", VStr f); ("lang", lang0)]
                                   (current_cache s))).
  { unfold documents_of. now rewrite Hq. }
  assert (Hkey : view = [] \/ exists v, view = [(f, v)]).
  { apply (nest_rows_one_key f _ Hf) with (acc := []) (3 := Hnest).
    - intros d Hd. apply with_values_In in Hd.
      destruct Hd as (r & Hr & Hd).
      assert (Hrf : assoc "func" r = Some (VStr f)).
      { apply filter_In in Hr. destruct Hr as [_ Hm].
        unfold TinyDB.matches in Hm. cbn [forallb] in Hm.
        apply andb_prop in Hm. destruct Hm as [Hm _].
        unfold TinyDB.test in Hm. cbn [fst snd] in Hm.
        destruct (assoc "func" r) as [x|]; [|discriminate].
        apply py_eqb_str_r in Hm. now subst. }
      destruct Hd as [->|(v & ->)]; [exact Hrf|].
      now rewrite assoc_dict_set_other by discriminate.
    - now left. }
  assert (Htree : deep_set view (join "." [f]) (deep_get (VDict inst) (join "." [f]) VNone)
                  = [(f, dict_get inst f VNone)]).
  { unfold join. cbn [String.concat]. unfold deep_set, deep_get.
    rewrite (split_no_dot _ Hf). cbn [deep_set_keys deep_get_keys].
    unfold dict_get.
    destruct Hkey as [->|(v & ->)]; simpl.
    - destruct (assoc f inst); reflexivity.
    - rewrite String.eqb_refl. destruct (assoc f inst); reflexivity. }
  change (join "." [f]) with f in Htree.
  rewrite Htree in H. clear Htree.
  exists view, inst, s4, t5, t7.
  split; [exact Hview0|]. split; [exact Hq|].
  split; [now rewrite Hdocs|]. split; [exact Hresp0|].
  split; [exact Hcfg|]. split; [exact H | exact Hs'].
Qed.


End Overlay.

(** ** The rows of a migration *)

Section Keys.

Lemma row_key_Ok (r : dict) (k : key4) : row_key r = Ok k -> k = key_of r.
Proof.
  unfold row_key, key_of, getitem, dict_get.
  destruct (assoc "func" r); [|discriminate].
  destruct (assoc "group" r); [|discriminate].
  destruct (assoc "arg" r); [|discriminate].
  destruct (assoc "lang" r); [|discriminate].
  now intros [= <-].
Qed.

Lemma has4_assoc (r : dict) :
  has4 r <->
  exists f g a l,
    assoc "func" r = Some f /\ assoc "group" r = Some g
    /\ assoc "arg" r = Some a /\ assoc "lang" r = Some l.
Proof.
  unfold has4, row_key, key_of, getitem, dict_get. split.
  - destruct (assoc "func" r) as [f|]; [|discriminate].
    destruct (assoc "group" r) as [g|]; [|discriminate].
    destruct (assoc "arg" r) as [a|]; [|discriminate].
    destruct (assoc "lang" r) as [l|]; [|discriminate].
    intros _. now exists f, g, a, l.
  - intros (f & g & a & l & -> & -> & -> & ->). reflexivity.
Qed.

Lemma key4_eqb_refl (k : key4) : key4_hashable k = true -> key4_eqb k k = true.
Proof.
  destruct k as [[[f g] a] l]. unfold key4_hashable, key4_eqb. intros H.
  apply andb_prop in H. destruct H as [H Hl].
  apply andb_prop in H. destruct H as [H Ha].
  apply andb_prop in H. destruct H as [Hf Hg].
  now rewrite !py_eqb_refl.
Qed.

Lemma key4_eqb_sym (j k : key4) :
  key4_hashable j = true -> key4_hashable k = true ->
  key4_eqb j k = key4_eqb k j.
Proof.
  destruct j as [[[f g] a] l], k as [[[f' g'] a'] l'].
  unfold key4_hashable, key4_eqb. intros H H'.
  apply andb_prop in H. destruct H as [H Hl].
  apply andb_prop in H. destruct H as [H Ha].
  apply andb_prop in H. destruct H as [Hf Hg].
  apply andb_prop in H'. destruct H' as [H' Hl'].
  apply andb_prop in H'. destruct H' as [H' Ha'].
  apply andb_prop in H'. destruct H' as [Hf' Hg'].
  now rewrite (py_eqb_sym f f'), (py_eqb_sym g g'), (py_eqb_sym a a'),
    (py_eqb_sym l l').
Qed.

Lemma key4_eqb_trans (i j k : key4) :
  key4_hashable i = true -> key4_hashable j = true -> key4_hashable k = true ->
  key4_eqb i j = true -> key4_eqb j k = true -> key4_eqb i k = true.
Proof.
  destruct i as [[[f0 g0] a0] l0], j as [[[f g] a] l], k as [[[f' g'] a'] l'].
  unfold key4_hashable, key4_eqb. intros H0 H H' E0 E.
  repeat match goal with
         | X : _ && _ = true |- _ => apply andb_prop in X; destruct X
         end.
  rewrite (py_eqb_trans f0 f f'), (py_eqb_trans g0 g g'),
    (py_eqb_trans a0 a a'), (py_eqb_trans l0 l l'); auto.
Qed.

Lemma count_key_app (k : key4) (l1 l2 : list key4) :
  count_key k (l1 ++ l2) = (count_key k l1 + count_key k l2)%nat.
Proof. unfold count_key. now rewrite filter_app, length_app. Qed.

Lemma count_key_perm (k : key4) (l1 l2 : list key4) :
  Permutation l1 l2 -> count_key k l1 = count_key k l2.
Proof.
  intros H. unfold count_key. apply Permutation_length.
  induction H; simpl.
  - constructor.
  - destruct (key4_eqb x k); [now constructor | exact IHPermutation].
  - destruct (key4_eqb x k), (key4_eqb y k); try reflexivity. constructor.
  - now transitivity (filter (fun k' => key4_eqb k' k) l').
Qed.

Lemma count_key_zero (k : key4) (ks : list key4) :
  (forall k', In k' ks -> key4_eqb k' k = false) -> count_key k ks = 0%nat.
Proof.
  unfold count_key. induction ks as [|k0 ks IH]; intros H; [reflexivity|].
  simpl. rewrite (H k0) by now left. apply IH. intros k' Hk'. apply H. now right.
Qed.

(** Equal keys are counted alike. *)
Lemma count_key_eqb (j k : key4) (ks : list key4) :
  Forall (fun k' => key4_hashable k' = true) ks ->
  key4_hashable j = true -> key4_hashable k = true ->
  key4_eqb j k = true -> count_key j ks = count_key k ks.
Proof.
  intros Hh Hj Hk E. unfold count_key. f_equal.
  apply filter_ext_in. intros k' Hin.
  rewrite Forall_forall in Hh. specialize (Hh k' Hin).
  destruct (key4_eqb k' j) eqn:E1.
  - symmetry. now apply (key4_eqb_trans k' j k).
  - destruct (key4_eqb k' k) eqn:E2; [|reflexivity].
    rewrite <- E1. apply (key4_eqb_trans k' k j); auto.
    now rewrite key4_eqb_sym.
Qed.

Lemma mem_key_count (k : key4) (ks : list key4) :
  Forall (fun k' => key4_hashable k' = true) ks ->
  key4_hashable k = true -> uniq ks ->
  mem_key k ks = true -> count_key k ks = 1%nat.
Proof.
  intros Hh Hk Hu Hm. unfold mem_key in Hm. apply existsb_exists in Hm.
  destruct Hm as (k' & Hin & E).
  rewrite Forall_forall in Hh. pose proof (Hh k' Hin) as Hk'.
  rewrite (count_key_eqb k k' ks); auto. now apply Forall_forall.
Qed.

Lemma mem_key_app (k : key4) (l1 l2 : list key4) :
  mem_key k l1 = true -> mem_key k (l1 ++ l2) = true.
Proof. unfold mem_key. rewrite existsb_app. now intros ->. Qed.

(** A key that equals none of the list can be added to it. *)
Lemma uniq_snoc (k : key4) (ks : list key4) :
  Forall (fun k' => key4_hashable k' = true) ks ->
  key4_hashable k = true -> uniq ks ->
  mem_key k ks = false -> uniq (ks ++ [k]).
Proof.
  intros Hh Hk Hu Hm k0 Hin. rewrite count_key_app.
  assert (Hnone : forall k', In k' ks -> key4_eqb k k' = false).
  { intros k' Hk'. unfold mem_key in Hm.
    destruct (key4_eqb k k') eqn:E; [|reflexivity].
    rewrite <- Hm. symmetry. apply existsb_exists. now exists k'. }
  apply in_app_or in Hin. destruct Hin as [Hin|[<-|[]]].
  - rewrite (Hu k0 Hin). unfold count_key. simpl.
    now rewrite (Hnone k0 Hin).
  - rewrite count_key_zero.
    + unfold count_key. simpl. now rewrite key4_eqb_refl.
    + intros k' Hk'. rewrite Forall_forall in Hh.
      rewrite key4_eqb_sym; auto.
Qed.

End Keys.

Section DataIter.

Lemma dict_set_NoDup (d : dict) (k : string) (v : value) :
  NoDup (map fst d) -> NoDup (map fst (dict_set d k v)).
Proof.
  intros H. destruct (in_dec string_dec k (map fst d)) as [Hin|Hni].
  - now rewrite dict_set_keys_present.
  - rewrite dict_set_keys_absent by exact Hni. rewrite map_app. simpl.
    apply NoDup_app; [exact H | repeat constructor; auto |].
    intros x Hx [<-|[]]. contradiction.
Qed.

Lemma dict_update_NoDup (e d : dict) :
  NoDup (map fst d) -> NoDup (map fst (dict_update d e)).
Proof.
  unfold dict_update. revert d.
  induction e as [|[k v] e IH]; intros d H; simpl; [exact H|].
  apply IH. now apply dict_set_NoDup.
Qed.

Lemma has4_dict_set (r : dict) (k : string) (v : value) :
  has4 r -> has4 (dict_set r k v).
Proof.
  rewrite !has4_assoc. intros (f & g & a & l & Hf & Hg & Ha & Hl).
  assert (H : forall k0 x, assoc k0 r = Some x ->
                           exists y, assoc k0 (dict_set r k v) = Some y).
  { intros k0 x Hx. destruct (string_dec k k0) as [->|Hne].
    - rewrite assoc_dict_set_same. eauto.
    - rewrite assoc_dict_set_other by exact Hne. eauto. }
  destruct (H _ _ Hf) as (f' & Hf'), (H _ _ Hg) as (g' & Hg'),
    (H _ _ Ha) as (a' & Ha'), (H _ _ Hl) as (l' & Hl').
  now exists f', g', a', l'.
Qed.

Lemma has4_dict_update (e r : dict) : has4 r -> has4 (dict_update r e).
Proof.
  unfold dict_update. revert r.
  induction e as [|[k v] e IH]; intros r H; simpl; [exact H|].
  apply IH. now apply has4_dict_set.
Qed.

Lemma key_of_set_arg (r : dict) :
  key_of (dict_set r "arg" (VStr INFO)) = group_key (key_of r).
Proof.
  unfold key_of, group_key, dict_get.
  rewrite assoc_dict_set_same.
  now rewrite !assoc_dict_set_other by discriminate.
Qed.

Lemma key_of_set_group (r : dict) :
  key_of (dict_set (dict_set r "arg" (VStr INFO)) "group" (VStr INFO))
  = func_key (key_of r).
Proof.
  unfold key_of, func_key, dict_get.
  rewrite assoc_dict_set_same.
  rewrite !(assoc_dict_set_other _ "group") by discriminate.
  rewrite assoc_dict_set_same.
  now rewrite !assoc_dict_set_other by discriminate.
Qed.

Lemma key4_hashable_info (k : key4) :
  key4_hashable k = true ->
  key4_hashable (group_key k) = true /\ key4_hashable (func_key k) = true.
Proof.
  destruct k as [[[f g] a] l]. unfold key4_hashable, group_key, func_key.
  intros H. repeat match goal with
                   | X : _ && _ = true |- _ => apply andb_prop in X; destruct X
                   end.
  split; repeat (apply andb_true_intro; split); auto.
Qed.

(** One round of [info]: the key of the row is now in [visited], and the
    row was yielded if it was not there before. *)
Lemma info_step_spec (raw : dict) (visited visited' : list key4)
  (out out' : list dict) :
  has4 raw ->
  info_step raw (visited, out) = Ok (visited', out') ->
  key4_hashable (key_of raw) = true
  /\ ((visited' = visited /\ out' = out
       /\ mem_key (key_of raw) visited = true)
      \/ (visited' = visited ++ [key_of raw] /\ out' = out ++ [raw]
          /\ mem_key (key_of raw) visited = false)).
Proof.
  intros H4 H. unfold info_step in H. rewrite H4 in H. cbn [rbind] in H.
  destruct (key4_hashable (key_of raw)); [|discriminate].
  split; [reflexivity|]. fold (mem_key (key_of raw) visited) in H.
  destruct (mem_key (key_of raw) visited); injection H as <- <-; auto.
Qed.

Lemma info_step_base (raw : dict) (visited visited' : list key4)
  (rows0 out out' : list dict) :
  has4 raw -> NoDup (map fst raw) ->
  info_step raw (visited, out) = Ok (visited', out') ->
  base_inv visited (rows0 ++ out) ->
  base_inv visited' (rows0 ++ out')
  /\ key4_hashable (key_of raw) = true
  /\ mem_key (key_of raw) visited' = true
  /\ (forall k, mem_key k visited = true -> mem_key k visited' = true)
  /\ (forall k, In k visited' -> In k visited \/ k = key_of raw).
Proof.
  intros H4 Hnd H (Hp & Hh & Hr & Hn & Hu).
  destruct (info_step_spec raw visited visited' out out' H4 H)
    as (Hk & [(-> & -> & Hm)|(-> & -> & Hm)]).
  - repeat split; auto.
  - split; [|split; [exact Hk|split; [|split]]].
    + repeat split.
      * rewrite app_assoc, map_app. simpl. now apply Permutation_app.
      * apply Forall_app. split; [exact Hh | now repeat constructor].
      * rewrite app_assoc. apply Forall_app. split; [exact Hr | now repeat constructor].
      * rewrite app_assoc. apply Forall_app. split; [exact Hn | now repeat constructor].
      * now apply uniq_snoc.
    + unfold mem_key. rewrite existsb_app. cbn [existsb].
      rewrite key4_eqb_refl by exact Hk. now rewrite orb_true_r.
    + intros k. apply mem_key_app.
    + intros k Hin. apply in_app_or in Hin. destruct Hin as [Hin|[<-|[]]]; auto.
Qed.

Lemma iter_inv_info (raw : dict) (visited visited' : list key4)
  (rows0 rows : list dict) :
  has4 raw -> NoDup (map fst raw) ->
  info raw visited = Ok (visited', rows) ->
  iter_inv visited rows0 -> iter_inv visited' (rows0 ++ rows).
Proof.
  intros H4 Hnd H [Hp Hh Hr Hn Hu Hc]. unfold info in H.
  inv_rbind H as st1 H1. destruct st1 as [v1 o1].
  inv_rbind H as st2 H2. destruct st2 as [v2 o2].
  inv_rbind H as st3 H3. destruct st3 as [v3 o3].
  cbn [fst snd] in H. injection H as <- <-.
  set (raw2 := dict_set raw "arg" (VStr INFO)) in *.
  set (raw3 := dict_set raw2 "group" (VStr INFO)) in *.
  assert (B0 : base_inv visited (rows0 ++ [])).
  { rewrite app_nil_r. repeat split; assumption. }
  destruct (info_step_base raw visited v1 rows0 [] o1 H4 Hnd H1 B0)
    as (B1 & Hk1 & Hm1 & Hmono1 & Hfrom1).
  assert (H42 : has4 raw2) by now apply has4_dict_set.
  assert (Hnd2 : NoDup (map fst raw2)) by now apply dict_set_NoDup.
  destruct (info_step_base raw2 v1 v2 rows0 o1 o2 H42 Hnd2 H2 B1)
    as (B2 & Hk2 & Hm2 & Hmono2 & Hfrom2).
  assert (H43 : has4 raw3) by now apply has4_dict_set.
  assert (Hnd3 : NoDup (map fst raw3)) by now apply dict_set_NoDup.
  destruct (info_step_base raw3 v2 v3 rows0 o2 o3 H43 Hnd3 H3 B2)
    as (B3 & Hk3 & Hm3 & Hmono3 & Hfrom3).
  destruct B3 as (Hp3 & Hh3 & Hr3 & Hn3 & Hu3).
  assert (E2 : key_of raw2 = group_key (key_of raw)) by apply key_of_set_arg.
  assert (E3 : key_of raw3 = func_key (key_of raw)) by apply key_of_set_group.
  rewrite E2 in *. rewrite E3 in *.
  constructor.
  - rewrite map_app, map_rev, <- Permutation_rev, <- map_app. exact Hp3.
  - exact Hh3.
  - apply Forall_app in Hr3. destruct Hr3.
    apply Forall_app. split; [assumption | now apply Forall_rev].
  - apply Forall_app in Hn3. destruct Hn3.
    apply Forall_app. split; [assumption | now apply Forall_rev].
  - exact Hu3.
  - intros k Hin.
    assert (Hg : mem_key (group_key (key_of raw)) v3 = true) by auto.
    assert (Hf : mem_key (func_key (key_of raw)) v3 = true) by auto.
    destruct (Hfrom3 k Hin) as [Hin2| ->].
    2:{ destruct (key_of raw) as [[[f g] a] l]. simpl. auto. }
    destruct (Hfrom2 k Hin2) as [Hin1| ->].
    2:{ destruct (key_of raw) as [[[f g] a] l]. simpl. auto. }
    destruct (Hfrom1 k Hin1) as [Hin0| ->]; [|auto].
    destruct (Hc k Hin0). auto.
Qed.

Lemma draft_wf (func group arg lang0 : string) (value0 : value) :
  has4 (draft func group arg lang0 value0)
  /\ NoDup (map fst (draft func group arg lang0 value0)).
Proof.
  set (base := [("func", VStr func); ("group", VStr group); ("arg", VStr arg);
                ("lang", VStr lang0); ("value", value0)]).
  assert (Hb : has4 base /\ NoDup (map fst base)).
  { split.
    - apply has4_assoc. now exists (VStr func), (VStr group), (VStr arg), (VStr lang0).
    - simpl. repeat constructor; simpl; intuition discriminate. }
  destruct Hb as [H4 Hnd]. unfold draft. fold base.
  destruct value0; auto.
  split; [now apply has4_dict_update | now apply dict_update_NoDup].
Qed.

(** A loop of the generator keeps what its body keeps. *)
Lemma gen_for_inv {A : Type} (P : list key4 -> list dict -> Prop)
  (body : A -> list key4 -> list key4 * generated) (l : list A) :
  (forall x visited rows0 visited' rows e,
      P visited rows0 -> body x visited = (visited', (rows, e)) ->
      P visited' (rows0 ++ rows)) ->
  forall visited rows0 visited' rows e,
    P visited rows0 -> gen_for body l visited = (visited', (rows, e)) ->
    P visited' (rows0 ++ rows).
Proof.
  intros Hbody. induction l as [|x l IH]; intros visited rows0 visited' rows e HP H.
  - simpl in H. injection H as <- <- <-. now rewrite app_nil_r.
  - cbn [gen_for] in H.
    destruct (body x visited) as [v1 [rows1 [e1|]]] eqn:Eb.
    + injection H as <- <- <-. now apply (Hbody x visited rows0 v1 rows1 (Some e1)).
    + destruct (gen_for body l v1) as [v2 [rows2 e2]] eqn:El.
      injection H as <- <- <-. rewrite app_assoc.
      apply (IH v1 (rows0 ++ rows1) v2 rows2 e2); [|exact El].
      now apply (Hbody x visited rows0 v1 rows1 None).
Qed.

Lemma gen_items_inv (P : list key4 -> list dict -> Prop)
  (body : string * value -> list key4 -> list key4 * generated) (v : value) :
  (forall x visited rows0 visited' rows e,
      P visited rows0 -> body x visited = (visited', (rows, e)) ->
      P visited' (rows0 ++ rows)) ->
  forall visited rows0 visited' rows e,
    P visited rows0 -> gen_items body v visited = (visited', (rows, e)) ->
    P visited' (rows0 ++ rows).
Proof.
  intros Hbody visited rows0 visited' rows e HP H. unfold gen_items in H.
  destruct (items v) as [d|e'].
  - now apply (gen_for_inv P body d Hbody visited rows0 visited' rows e).
  - injection H as <- <- <-. now rewrite app_nil_r.
Qed.

(** The rows [_data_iter] yields, whether or not an exception ends it. *)
Lemma data_iter_inv (args : value) :
  exists visited, iter_inv visited (fst (_data_iter args)).
Proof.
  unfold _data_iter.
  match goal with
  | |- context [snd (gen_items ?b args [])] =>
      destruct (gen_items b args []) as [visited [rows e]] eqn:E
  end.
  exists visited. cbn [fst snd].
  change rows with ([] ++ rows).
  revert E. apply gen_items_inv.
  2:{ constructor;
      [apply perm_nil | constructor | constructor | constructor
       | intros k [] | intros k []]. }
  intros [func func_data].
  apply gen_items_inv. intros [group group_data].
  apply gen_items_inv. intros [arg value0].
  apply gen_for_inv. intros lang0 visited0 rows0 visited' rows' e' HP H.
  destruct (draft_wf func group arg lang0 value0) as [H4 Hnd].
  destruct (info (draft func group arg lang0 value0) visited0)
    as [[v r]|ex] eqn:Ei.
  - injection H as <- <- <-.
    now apply (iter_inv_info (draft func group arg lang0 value0) visited0).
  - injection H as <- <- <-. now rewrite app_nil_r.
Qed.

End DataIter.

(** ** Migration *)

Section Migration.

Variable filepath_config : value -> string.

Lemma kept_truthy (old : dict) (key attr : string) :
  truthy (kept old key attr) = true.
Proof.
  unfold kept. destruct (truthy (dict_get old attr (VStr ""))) eqn:E;
    [exact E|].
  cbn [truthy]. destruct key; reflexivity.
Qed.

(** The steps of [_data_merge], read off a run that returned. *)
Lemma data_merge_Ok (old args data : dict) :
  _data_merge old args = Ok data ->
  let data0 := dict_update merge_defaults args in
  exists key option arg,
    data_to_path data0 = Ok key
    /\ assoc "option" data0 = Some option
    /\ assoc "arg" data0 = Some arg
    /\ let data1 := dict_set (dict_set data0 "name" (kept old key "name"))
                             "help" (kept old key "help") in
       exists data2,
         (if truthy option
          then exists keys, iter option = Ok keys
                 /\ data2 = dict_set data1 "option"
                                     (VDict (option_labels old keys))
          else data2 = data1)
         /\ data = if py_eqb arg (VStr INFO)
                   then dict_update data2 info_reset else data2.
Proof.
  intros H data0. unfold _data_merge in H. fold merge_defaults in H.
  fold data0 in H.
  inv_rbind H as key Hkey. cbn [fold_left] in H.
  fold (kept old key "name") in H. fold (kept old key "help") in H.
  set (data1 := dict_set (dict_set data0 "name" _) "help" _) in *.
  inv_rbind H as option Hopt. inv_rbind H as data2 Hd2.
  inv_rbind H as arg Harg.
  assert (Ho : assoc "option" data0 = Some option).
  { unfold getitem in Hopt. subst data1.
    rewrite !assoc_dict_set_other in Hopt by discriminate.
    destruct (assoc "option" data0); [now injection Hopt as -> | discriminate]. }
  assert (Hd2' : if truthy option
                 then exists keys, iter option = Ok keys
                        /\ data2 = dict_set data1 "option"
                                            (VDict (option_labels old keys))
                 else data2 = data1).
  { destruct (truthy option).
    - inv_rbind Hd2 as keys Hk. injection Hd2 as <-. eauto.
    - now injection Hd2 as <-. }
  assert (Ha : assoc "arg" data0 = Some arg).
  { unfold getitem in Harg.
    assert (E : assoc "arg" data2 = assoc "arg" data0).
    { destruct (truthy option).
      - destruct Hd2' as (keys & _ & ->). subst data1.
        now rewrite !assoc_dict_set_other by discriminate.
      - subst data2 data1. now rewrite !assoc_dict_set_other by discriminate. }
    rewrite E in Harg.
    destruct (assoc "arg" data0); [now injection Harg as -> | discriminate]. }
  exists key, option, arg. split; [exact Hkey|]. split; [exact Ho|].
  split; [exact Ha|]. exists data2. split; [exact Hd2'|].
  fold info_reset in H. destruct (py_eqb arg (VStr INFO)); now injection H as <-.
Qed.

(** The merge leaves alone every field but the five it sets. *)
Lemma data_merge_other_fields (old args data : dict) (k : string) :
  _data_merge old args = Ok data ->
  ~ In k ["name"; "help"; "option"; "type"; "value"] ->
  assoc k data = assoc k (dict_update merge_defaults args).
Proof.
  intros H Hk. apply data_merge_Ok in H. cbv zeta in H.
  destruct H as (key & option & arg & _ & _ & _ & data2 & Hd2 & ->).
  assert (E2 : assoc k data2 = assoc k (dict_update merge_defaults args)).
  { assert (E1 : forall x,
              assoc k (dict_set (dict_set (dict_update merge_defaults args)
                                          "name" (kept old key "name"))
                                "help" x)
              = assoc k (dict_update merge_defaults args)).
    { intros x. rewrite !assoc_dict_set_other; [reflexivity | |];
        intros <-; apply Hk; simpl; tauto. }
    destruct (truthy option).
    - destruct Hd2 as (keys & _ & ->).
      rewrite assoc_dict_set_other; [apply E1|].
      intros <-. apply Hk. simpl. tauto.
    - subst data2. apply E1. }
  destruct (py_eqb arg (VStr INFO)); [|exact E2].
  rewrite assoc_dict_update_other; [exact E2|].
  simpl. intros [<-|[<-|[<-|[]]]]; apply Hk; simpl; tauto.
Qed.

(** The merged row has the 4-tuple of the draft. *)
Lemma data_merge_key (old args data : dict) :
  NoDup (map fst args) -> has4 args ->
  _data_merge old args = Ok data ->
  key_of data = key_of args /\ has4 data.
Proof.
  intros Hnd H4 H.
  assert (E : forall k, In k ["func"; "group"; "arg"; "lang"] ->
                        assoc k data = assoc k args /\ assoc k args <> None).
  { intros k Hk.
    rewrite (data_merge_other_fields old args data k H).
    - rewrite assoc_dict_update by exact Hnd.
      apply has4_assoc in H4. destruct H4 as (f & g & a & l & Hf & Hg & Ha & Hl).
      simpl in Hk. destruct Hk as [<-|[<-|[<-|[<-|[]]]]].
      + rewrite Hf. split; [reflexivity | discriminate].
      + rewrite Hg. split; [reflexivity | discriminate].
      + rewrite Ha. split; [reflexivity | discriminate].
      + rewrite Hl. split; [reflexivity | discriminate].
    - simpl in *. intuition (subst; discriminate). }
  destruct (E "func") as [Ef Nf]; [simpl; tauto|].
  destruct (E "group") as [Eg Ng]; [simpl; tauto|].
  destruct (E "arg") as [Ea Na]; [simpl; tauto|].
  destruct (E "lang") as [El Nl]; [simpl; tauto|].
  split.
  - unfold key_of, dict_get. now rewrite Ef, Eg, Ea, El.
  - apply has4_assoc. rewrite Ef, Eg, Ea, El.
    destruct (assoc "func" args) as [f|]; [|contradiction].
    destruct (assoc "group" args) as [g|]; [|contradiction].
    destruct (assoc "arg" args) as [a|]; [|contradiction].
    destruct (assoc "lang" args) as [l|]; [|contradiction].
    now exists f, g, a, l.
Qed.

Lemma migrate_row_spec (old new : TinyDB.store) (data : dict) :
  has4 data ->
  migrate_row old new data
  = do res <- _data_merge (prior_row old data) data; Ok (new ++ [res]).
Proof.
  intros H4. unfold migrate_row, prior_row. rewrite H4. cbn [rbind].
  destruct (key_of data) as [[[f g] a] l]. reflexivity.
Qed.

(** The rows a migration stores: one merged row for each draft, in the
    order of the drafts. *)
Lemma migrate_rows_spec (old : TinyDB.store) (rows : list dict) :
  Forall has4 rows ->
  forall acc new,
    migrate_rows old acc rows = Ok new ->
    exists merged,
      new = acc ++ merged
      /\ Forall2 (fun data r => _data_merge (prior_row old data) data = Ok r)
                 rows merged.
Proof.
  induction rows as [|data rows IH]; intros H4 acc new H.
  - simpl in H. injection H as <-. exists []. rewrite app_nil_r.
    split; [reflexivity | constructor].
  - inversion H4 as [|? ? Hd Hr]; subst.
    cbn [migrate_rows] in H. rewrite (migrate_row_spec old acc data Hd) in H.
    inv_rbind H as new1 H1. inv_rbind H1 as res Hm. injection H1 as <-.
    destruct (IH Hr _ _ H) as (merged & -> & HF).
    exists (res :: merged). rewrite <- app_assoc. split; [reflexivity|].
    now constructor.
Qed.

Lemma migrate_rows_complete (old : TinyDB.store) (rows merged : list dict) :
  Forall has4 rows ->
  Forall2 (fun data r => _data_merge (prior_row old data) data = Ok r)
          rows merged ->
  forall acc, migrate_rows old acc rows = Ok (acc ++ merged).
Proof.
  intros H4 HF. induction HF as [|data r rows merged Hm HF IH]; intros acc.
  - simpl. now rewrite app_nil_r.
  - inversion H4 as [|? ? Hd Hr]; subst.
    cbn [migrate_rows]. rewrite (migrate_row_spec old acc data Hd), Hm.
    cbn [rbind]. rewrite (IH Hr). now rewrite <- app_assoc.
Qed.

Lemma merged_keys (old : TinyDB.store) (rows merged : list dict) :
  Forall has4 rows -> Forall (fun r => NoDup (map fst r)) rows ->
  Forall2 (fun data r => _data_merge (prior_row old data) data = Ok r)
          rows merged ->
  map key_of merged = map key_of rows /\ Forall has4 merged.
Proof.
  intros H4 Hnd HF. induction HF as [|data r rows merged Hm HF IH].
  - split; [reflexivity | constructor].
  - inversion H4 as [|? ? Hd Hr]; subst.
    inversion Hnd as [|? ? Hn Hns]; subst.
    destruct (IH Hr Hns) as [E F].
    destruct (data_merge_key _ _ _ Hn Hd Hm) as [Ek H4r].
    split; [simpl; now rewrite Ek, E | now constructor].
Qed.

(** The store a migration builds has its rows pairwise distinct by their
    4-tuple, and with every row the [_info] rows of its group and of its
    function, each once. *)
Lemma migrate_invariants (old new : TinyDB.store) (args : value) :
  migrate old args = Ok new ->
  forall r, In r new ->
    has4 r
    /\ count_rows (key_of r) new = 1%nat
    /\ count_rows (group_key (key_of r)) new = 1%nat
    /\ count_rows (func_key (key_of r)) new = 1%nat.
Proof.
  intros H r Hin. unfold migrate in H.
  destruct (data_iter_inv args) as (visited & [Hp Hh H4 Hnd Hu Hc]).
  destruct (_data_iter args) as [rows e]. cbn [fst] in *.
  inv_rbind H as new0 Hm. destruct e; [discriminate|]. injection H as <-.
  destruct (migrate_rows_spec old rows H4 [] new0 Hm) as (merged & -> & HF).
  cbn [app] in *.
  destruct (merged_keys old rows merged H4 Hnd HF) as [Ek H4m].
  assert (Hkin : In (key_of r) visited).
  { apply (Permutation_in _ Hp). rewrite <- Ek. now apply in_map. }
  assert (Hcount : forall k, count_rows k merged = count_key k visited).
  { intros k. unfold count_rows. rewrite Ek. now apply count_key_perm. }
  rewrite !Hcount.
  rewrite Forall_forall in Hh. pose proof (Hh _ Hkin) as Hk.
  destruct (key4_hashable_info _ Hk) as [Hkg Hkf].
  destruct (Hc _ Hkin) as [Hmg Hmf].
  split; [rewrite Forall_forall in H4m; now apply H4m|].
  split; [now apply Hu|].
  split; apply mem_key_count; auto; now apply Forall_forall.
Qed.

(** *** Running the merge again *)

Lemma deep_get_keys_not_dict (v : value) (k : string) (ks : list string)
  (default : value) :
  is_dict v = false -> deep_get_keys v (k :: ks) default = default.
Proof. destruct v; simpl; intros H; [reflexivity.. | discriminate]. Qed.

Lemma split_cons (s : string) : exists k ks, split "." s = k :: ks.
Proof.
  pose proof (split_nonempty "." s). destruct (split "." s) as [|k ks];
    [contradiction | eauto].
Qed.

Lemma split_single (s x : string) : split "." s = [x] -> x = s.
Proof.
  revert x. induction s as [|c s IH]; intros x; simpl.
  - now intros [= <-].
  - destruct (Ascii.eqb c ".").
    + intros H. injection H as _ Hs. now apply split_nonempty in Hs.
    + destruct (split "." s) as [|h t] eqn:E; [now apply split_nonempty in E|].
      intros [= <- ->]. now rewrite (IH h).
Qed.

Lemma merged_label_split (old : dict) (k : string) :
  merged_label old k
  = match assoc "option" old with
    | Some v => deep_get_keys v (split "." k) (VStr k)
    | None => VStr k
    end.
Proof.
  unfold merged_label, deep_get.
  change ("option." ++ k)%string with ("option" ++ String "." k)%string.
  rewrite split_app_dot by reflexivity. reflexivity.
Qed.

Lemma assoc_flat (labels : dict) (k : string) (l : value) :
  forallb (fun kv => negb (is_dict (snd kv))) labels = true ->
  assoc k labels = Some l -> is_dict l = false.
Proof.
  intros Hf Ha. apply assoc_In in Ha. rewrite forallb_forall in Hf.
  specialize (Hf _ Ha). now apply negb_true_iff in Hf.
Qed.

(** Over flat labels, the label the merge gives is not a mapping, and the
    label of a key that holds a dot is the key. *)
Lemma merged_label_flat (old : dict) (k : string) :
  labels_flat old = true ->
  is_dict (merged_label old k) = false
  /\ (forall k1 k2 ks, split "." k = k1 :: k2 :: ks ->
                       merged_label old k = VStr k).
Proof.
  intros Hf. rewrite merged_label_split. unfold labels_flat in Hf.
  destruct (split_cons k) as (k1 & ks & Es). rewrite Es.
  destruct (assoc "option" old) as [v|]; [|split; reflexivity].
  destruct v; try (split; reflexivity).
  cbn [deep_get_keys].
  destruct (assoc k1 d) as [l|] eqn:El; [|split; reflexivity].
  pose proof (assoc_flat d k1 l Hf El) as Hl.
  destruct ks as [|k2 ks'].
  - split; [exact Hl | discriminate].
  - rewrite deep_get_keys_not_dict by exact Hl. split; reflexivity.
Qed.

Lemma In_dict_set (d : dict) (k k0 : string) (l v : value) :
  In (k, l) (dict_set d k0 v) -> In (k, l) d \/ (k = k0 /\ l = v).
Proof.
  induction d as [|[ka va] d IH]; simpl.
  - intros [[= <- <-]|[]]. now right.
  - destruct (ka =? k0)%string.
    + intros [[= <- <-]|H]; [now right | left; now right].
    + intros [H|H]; [left; now left|].
      destruct (IH H) as [H'|H']; [left; now right | now right].
Qed.

Lemma In_fold_dict_set (F : string -> value) (keys : list string) :
  forall (acc : dict) (k : string) (l : value),
    In (k, l) (fold_left (fun acc k => dict_set acc k (F k)) keys acc) ->
    In (k, l) acc \/ exists k', l = F k'.
Proof.
  induction keys as [|k0 keys IH]; intros acc k l H; [now left|].
  simpl in H. apply IH in H. destruct H as [H|H]; [|now right].
  apply In_dict_set in H. destruct H as [H|[_ ->]]; [now left | right; eauto].
Qed.

Lemma option_labels_flat (old : dict) (keys : list string) :
  labels_flat old = true ->
  forallb (fun kv => negb (is_dict (snd kv))) (option_labels old keys) = true.
Proof.
  intros Hf. apply forallb_forall. intros [k l] Hin. cbn [snd].
  apply (In_fold_dict_set (merged_label old)) in Hin.
  destruct Hin as [[]|(k' & ->)]. apply negb_true_iff.
  now apply merged_label_flat.
Qed.

(** Against the row it has built, the merge finds the labels it gave. *)
Lemma merged_label_again (old r : dict) (keys : list string) (k : string) :
  labels_flat old = true ->
  assoc "option" r = Some (VDict (option_labels old keys)) ->
  In k keys ->
  merged_label r k = merged_label old k.
Proof.
  intros Hf Hr Hin. rewrite (merged_label_split r), Hr.
  destruct (split_cons k) as (k1 & ks & Es). rewrite Es.
  cbn [deep_get_keys]. destruct ks as [|k2 ks'].
  - apply split_single in Es. subst k1.
    rewrite option_labels_assoc.
    destruct (in_dec string_dec k keys); [reflexivity | contradiction].
  - destruct (merged_label_flat old k Hf) as [_ Hdot].
    rewrite (Hdot _ _ _ Es).
    destruct (assoc k1 (option_labels old keys)) as [l|] eqn:El; [|reflexivity].
    apply deep_get_keys_not_dict.
    apply (assoc_flat _ _ _ (option_labels_flat old keys Hf) El).
Qed.

Lemma option_labels_ext (o1 o2 : dict) (keys : list string) :
  (forall k, In k keys -> merged_label o1 k = merged_label o2 k) ->
  option_labels o1 keys = option_labels o2 keys.
Proof.
  intros H.
  change (fold_left (fun acc k => dict_set acc k (merged_label o1 k)) keys []
          = fold_left (fun acc k => dict_set acc k (merged_label o2 k)) keys []).
  revert H. generalize (@nil (string * value)).
  induction keys as [|k keys IH]; intros acc H; [reflexivity|].
  simpl. rewrite (H k) by now left. apply IH. intros k' Hk'. apply H. now right.
Qed.

(** For an [_info] row the option set does not matter: it is reset. *)
Lemma info_reset_option (d : dict) (x y : value) :
  In "type" (map fst d) -> In "value" (map fst d) -> In "option" (map fst d) ->
  dict_update (dict_set d "option" x) info_reset
  = dict_update (dict_set d "option" y) info_reset.
Proof.
  intros Ht Hv Ho. unfold dict_update, info_reset. cbn [fold_left fst snd].
  assert (G : forall z,
    dict_set (dict_set (dict_set (dict_set d "option" z) "type" (VStr ""))
                       "value" (VStr "")) "option" (VDict [])
    = dict_set (dict_set (dict_set d "type" (VStr "")) "value" (VStr ""))
               "option" (VDict [])).
  { intros z.
    rewrite (dict_set_comm d "option" "type") by (auto; discriminate).
    rewrite (dict_set_comm (dict_set d "type" (VStr "")) "option" "value")
      by (auto using dict_set_In_keys; discriminate).
    apply dict_set_twice. }
  now rewrite !G.
Qed.

(** Merging a draft against the row merged from it gives that row again,
    when the labels of the prior row are flat. *)
Lemma data_merge_again (old args r : dict) :
  labels_flat old = true ->
  _data_merge old args = Ok r ->
  _data_merge r args = Ok r.
Proof.
  intros Hf H. pose proof H as H0.
  apply data_merge_Ok in H. cbv zeta in H.
  set (data0 := dict_update merge_defaults args) in *.
  destruct H as (key & option & arg & Hkey & Ho & Ha & data2 & Hd2 & Hr).
  set (data1 := dict_set (dict_set data0 "name" (kept old key "name"))
                         "help" (kept old key "help")) in *.
  (* the fields of the row that was built *)
  assert (K0 : forall k, In k (map fst merge_defaults) -> In k (map fst data0)).
  { intros k Hk. subst data0. now apply dict_update_In_keys. }
  assert (K1 : forall k, In k (map fst merge_defaults) -> In k (map fst data1)).
  { intros k Hk. subst data1. auto using dict_set_In_keys. }
  assert (Hn2 : assoc "name" data2 = Some (kept old key "name")
                /\ assoc "help" data2 = Some (kept old key "help")).
  { assert (Hn1 : assoc "name" data1 = Some (kept old key "name")
                  /\ assoc "help" data1 = Some (kept old key "help")).
    { subst data1. split.
      - rewrite assoc_dict_set_other by discriminate. apply assoc_dict_set_same.
      - apply assoc_dict_set_same. }
    destruct (truthy option).
    - destruct Hd2 as (keys & _ & ->).
      now rewrite !assoc_dict_set_other by discriminate.
    - now subst data2. }
  assert (Hnr : assoc "name" r = Some (kept old key "name")
                /\ assoc "help" r = Some (kept old key "help")).
  { subst r. destruct (py_eqb arg (VStr INFO)); [|exact Hn2].
    rewrite !assoc_dict_update_other; [exact Hn2 | |];
      simpl; intuition discriminate. }
  destruct Hnr as [Hrn Hrh].
  assert (Hkept : forall attr, attr = "name" \/ attr = "help" ->
                               kept r key attr = kept old key attr).
  { intros attr Hattr. unfold kept at 1. unfold dict_get.
    destruct Hattr as [-> | ->]; [rewrite Hrn | rewrite Hrh];
      now rewrite kept_truthy. }
  (* the second run *)
  unfold _data_merge. fold merge_defaults. fold data0. rewrite Hkey.
  cbn [rbind fold_left].
  fold (kept r key "name"). fold (kept r key "help").
  rewrite !Hkept by auto. fold data1.
  assert (Ho1 : getitem (VDict data1) "option" = Ok option).
  { unfold getitem. subst data1.
    rewrite !assoc_dict_set_other by discriminate. now rewrite Ho. }
  assert (Ha1 : assoc "arg" data1 = Some arg).
  { subst data1. now rewrite !assoc_dict_set_other by discriminate. }
  rewrite Ho1. cbn [rbind]. fold info_reset.
  destruct (truthy option) eqn:Et.
  - destruct Hd2 as (keys & Hiter & Hd2). rewrite Hiter. cbn [rbind].
    unfold getitem. rewrite assoc_dict_set_other by discriminate.
    rewrite Ha1. cbn [rbind].
    destruct (py_eqb arg (VStr INFO)) eqn:Ei.
    + rewrite Hr, Hd2. f_equal.
      apply info_reset_option; apply K1; simpl; tauto.
    + f_equal. rewrite Hr, Hd2. f_equal. f_equal.
      apply option_labels_ext. intros k Hk.
      apply (merged_label_again old _ keys k Hf); [|exact Hk].
      rewrite <- Hd2, <- Hr at 1. rewrite Hr, Hd2.
      apply assoc_dict_set_same.
  - cbn [rbind]. unfold getitem. rewrite Ha1. cbn [rbind].
    subst data2. rewrite Hr. now destruct (py_eqb arg (VStr INFO)).
Qed.

(** *** Running the migration again *)

Lemma matches_key4 (r : dict) (f g a l : value) :
  has4 r ->
  TinyDB.matches [("func", f); ("group", g); ("arg", a); ("lang", l)] r
  = key4_eqb (key_of r) (f, g, a, l).
Proof.
  intros H. apply has4_assoc in H.
  destruct H as (f' & g' & a' & l' & Hf & Hg & Ha & Hl).
  unfold TinyDB.matches, TinyDB.test, key_of, key4_eqb, dict_get.
  cbn [forallb fst snd]. rewrite Hf, Hg, Ha, Hl.
  now rewrite andb_true_r, !andb_assoc.
Qed.

Lemma filter_singleton {A : Type} (p : A -> bool) (l : list A) (x : A) :
  List.length (filter p l) = 1%nat -> In x l -> p x = true ->
  filter p l = [x].
Proof.
  intros Hlen Hin Hp.
  assert (Hx : In x (filter p l)) by (apply filter_In; auto).
  destruct (filter p l) as [|y [|z t]]; try discriminate.
  destruct Hx as [->|[]]. reflexivity.
Qed.

Lemma filter_map_length {A B : Type} (f : A -> B) (p : B -> bool) (l : list A) :
  List.length (filter p (map f l))
  = List.length (filter (fun x => p (f x)) l).
Proof.
  induction l as [|x l IH]; simpl; [reflexivity|].
  destruct (p (f x)); simpl; now rewrite IH.
Qed.

(** In a store with pairwise distinct 4-tuples, the prior row of a draft
    is the one row with the 4-tuple of the draft. *)
Lemma prior_row_unique (store : TinyDB.store) (data r : dict) :
  Forall has4 store -> In r store ->
  key_of r = key_of data -> key4_hashable (key_of data) = true ->
  count_rows (key_of data) store = 1%nat ->
  prior_row store data = r.
Proof.
  intros H4 Hin Ek Hh Hc. unfold prior_row.
  destruct (key_of data) as [[[f g] a] l] eqn:Ed.
  assert (E : filter (TinyDB.matches [("func", f); ("group", g); ("arg", a);
                                      ("lang", l)]) store
              = filter (fun r' => key4_eqb (key_of r') (f, g, a, l)) store).
  { apply filter_ext_in. intros r' Hr'. apply matches_key4.
    rewrite Forall_forall in H4. now apply H4. }
  rewrite E.
  rewrite (filter_singleton _ store r); [reflexivity | | exact Hin |].
  - unfold count_rows, count_key in Hc. now rewrite filter_map_length in Hc.
  - rewrite Ek. now apply key4_eqb_refl.
Qed.

Lemma Forall2_impl_In {A B : Type} (P Q : A -> B -> Prop) (l1 : list A)
  (l2 : list B) :
  Forall2 P l1 l2 ->
  (forall x y, In x l1 -> In y l2 -> P x y -> Q x y) ->
  Forall2 Q l1 l2.
Proof.
  intros H. induction H as [|x y l1 l2 Hxy H IH]; intros HPQ; constructor.
  - apply HPQ; simpl; auto.
  - apply IH. intros x' y' Hx Hy. apply HPQ; simpl; auto.
Qed.

Lemma prior_row_flat (old : TinyDB.store) (data : dict) :
  Forall (fun o => labels_flat o = true) old ->
  labels_flat (prior_row old data) = true.
Proof.
  intros H. unfold prior_row. destruct (key_of data) as [[[f g] a] l].
  destruct (filter _ old) as [|r t] eqn:E; [reflexivity|].
  assert (Hin : In r old).
  { assert (Hr : In r (r :: t)) by now left.
    rewrite <- E in Hr. now apply filter_In in Hr. }
  rewrite Forall_forall in H. now apply H.
Qed.

(** Migrating again, from the store a migration has built, builds the
    same store, when the option labels of the first store are flat. *)
Lemma migrate_again (old new : TinyDB.store) (args : value) :
  Forall (fun o => labels_flat o = true) old ->
  migrate old args = Ok new ->
  migrate new args = Ok new.
Proof.
  intros Hflat H. unfold migrate in *.
  destruct (data_iter_inv args) as (visited & [Hp Hh H4 Hnd Hu Hc]).
  destruct (_data_iter args) as [rows e]. cbn [fst] in *.
  inv_rbind H as new0 Hm. destruct e; [discriminate|]. injection H as <-.
  destruct (migrate_rows_spec old rows H4 [] new0 Hm) as (merged & -> & HF).
  cbn [app] in *.
  destruct (merged_keys old rows merged H4 Hnd HF) as [Ek H4m].
  assert (HF' : Forall2 (fun data r =>
                  _data_merge (prior_row merged data) data = Ok r) rows merged).
  { apply (Forall2_impl_In _ _ _ _ HF). intros data r Hd Hr Hmerge.
    rewrite Forall_forall in H4, Hnd, Hh.
    destruct (data_merge_key _ _ _ (Hnd _ Hd) (H4 _ Hd) Hmerge) as [Ekey _].
    assert (Hkin : In (key_of data) visited).
    { apply (Permutation_in _ Hp). now apply in_map. }
    rewrite (prior_row_unique merged data r H4m Hr Ekey (Hh _ Hkin)).
    - apply (data_merge_again (prior_row old data)); [|exact Hmerge].
      now apply prior_row_flat.
    - unfold count_rows. rewrite Ek, (count_key_perm _ _ _ Hp). now apply Hu. }
  now rewrite (migrate_rows_complete merged rows merged H4 HF' []).
Qed.

(** *** [update_db] *)

Lemma migrating_frame (s : Database) :
  db (migrating s) = Some (current_rows s)
  /\ file_db (migrating s) = file_db s
  /\ file_arg (migrating s) = file_arg s
  /\ file_config (migrating s) = file_config s
  /\ file_code (migrating s) = file_code s
  /\ _config (migrating s) = _config s
  /\ _config_updated (migrating s) = _config_updated s.
Proof.
  destruct (self_db_frame s)
    as (H1 & H2 & H3 & H4 & H5 & H6 & H7 & H8 & H9 & H10).
  destruct (self_db_loaded s) as (Hd & _).
  unfold migrating. cbn. auto 10.
Qed.

(** What a run of [update_db] does. *)
Lemma update_db_run (s : Database) :
  update_db filepath_config s
  = match migrate (current_rows s) (file_arg s) with
    | Raise e => (Raise e, migrating s)
    | Ok new =>
        match update_config filepath_config (VStr "template")
                            (set_file_db new (migrating s)) with
        | (Ok _, s3) => (Ok tt, set_query_cache [] (set_db None s3))
        | (Raise e, s3) => (Raise e, s3)
        end
    end.
Proof.
  destruct (self_db_frame s) as (_ & _ & _ & Ha & _).
  destruct (self_db_loaded s) as (_ & Hc & _).
  unfold update_db, bind. rewrite self_db_run.
  unfold gets, modify at 1, lift. rewrite Ha, Hc. fold (migrating s).
  destruct (migrate (current_rows s) (file_arg s)); [|reflexivity].
  unfold modify at 1.
  destruct (update_config filepath_config (VStr "template")
                          (set_file_db a (migrating s)))
    as [[d|e] s3]; reflexivity.
Qed.

(** What [update_db] leaves in the file of the store: the store the
    migration builds, if it builds one.  The rows the next call will read
    are then those, or still the rows of this call if the projection of
    the template raised. *)
Lemma update_db_spec (s : Database) :
  let s1 := snd (update_db filepath_config s) in
  file_arg s1 = file_arg s
  /\ match migrate (current_rows s) (file_arg s) with
     | Ok new =>
         file_db s1 = new
         /\ (current_rows s1 = new \/ current_rows s1 = current_rows s)
     | Raise _ =>
         file_db s1 = file_db s /\ current_rows s1 = current_rows s
         /\ (forall u, fst (update_db filepath_config s) <> Ok u)
     end.
Proof.
  set (s0 := migrating s).
  destruct (migrating_frame s) as (Hdb0 & Hf0 & Ha0 & _).
  fold s0 in Hdb0, Hf0, Ha0.
  cbv zeta. rewrite update_db_run. fold s0.
  destruct (migrate (current_rows s) (file_arg s)) as [new|e].
  2:{ cbn [fst snd]. unfold current_rows at 1. rewrite Hdb0.
      repeat split; auto. discriminate. }
  set (s2 := set_file_db new s0).
  set (P := fun st => file_arg st = file_arg s /\ file_db st = new
                      /\ db st = Some (current_rows s)).
  assert (HP : P (snd (update_config filepath_config (VStr "template") s2))).
  { assert (Hst : stable P (update_config filepath_config (VStr "template"))).
    { unfold update_config, _check_config, random_id, write_config, read_config.
      repeat first [ stable_step
                   | apply stable_modify; intros st Hs; exact Hs ];
        try (intros st Hs; exact Hs).
      intros st (H1 & H2 & H3).
      pose proof (db_search_frame (Some [("lang", VStr "zh-CN")]) st) as F.
      cbv zeta in F.
      destruct F as (F1 & _ & _ & F4 & _ & _ & _ & _ & _ & F10 & F11).
      unfold P. rewrite F1, F4, F11. unfold current_rows. rewrite H3. auto. }
    apply Hst. subst P s2. simpl. auto. }
  destruct (update_config filepath_config (VStr "template") s2) as [[d|e] s3];
    cbn [fst snd] in *; destruct HP as (H1 & H2 & H3).
  - unfold current_rows. simpl. auto.
  - unfold current_rows. rewrite H3. auto.
Qed.

(** C4, as amended.  The store [update_db] produces has at most one row
    for each 4-tuple [(func, group, arg, lang)]; and for every row of it
    there is exactly one row with [arg = _info] for the [(func, group,
    lang)] of the row, and exactly one row with [group = _info] and
    [arg = _info] for its [(func, lang)]. *)
Theorem update_db_store_invariants (s s' : Database) (r : dict) :
  update_db filepath_config s = (Ok tt, s') ->
  In r (file_db s') ->
  has4 r
  /\ count_rows (key_of r) (file_db s') = 1%nat
  /\ count_rows (group_key (key_of r)) (file_db s') = 1%nat
  /\ count_rows (func_key (key_of r)) (file_db s') = 1%nat.
Proof.
  intros H Hin. pose proof (update_db_spec s) as Hs. cbv zeta in Hs.
  rewrite H in Hs. cbn [fst snd] in Hs. destruct Hs as [_ Hs].
  destruct (migrate (current_rows s) (file_arg s)) as [new|e] eqn:Em.
  - destruct Hs as (Hf & _). rewrite <- Hf in Em.
    now apply (migrate_invariants (current_rows s) (file_db s') (file_arg s)).
  - destruct Hs as (_ & _ & Hs). now contradiction (Hs tt).
Qed.

(** C1, as amended.  Running [update_db] a second time right after a
    first run, over the same schema definition, leaves in the file of the
    store exactly the store the first run left, when the option labels
    of the rows the first run read are not themselves mappings. *)
Theorem update_db_twice_same_store (s : Database) :
  Forall (fun o => labels_flat o = true) (current_rows s) ->
  let s1 := snd (update_db filepath_config s) in
  let s2 := snd (update_db filepath_config s1) in
  file_arg s1 = file_arg s /\ file_db s2 = file_db s1.
Proof.
  intros Hflat s1 s2.
  pose proof (update_db_spec s) as H1. cbv zeta in H1. fold s1 in H1.
  pose proof (update_db_spec s1) as H2. cbv zeta in H2. fold s2 in H2.
  destruct H1 as [Ha1 H1]. destruct H2 as [_ H2]. split; [exact Ha1|].
  rewrite Ha1 in H2.
  destruct (migrate (current_rows s) (file_arg s)) as [new|e] eqn:Em.
  - destruct H1 as (Hf1 & [Hc|Hc]); rewrite Hc in H2.
    + rewrite (migrate_again _ _ _ Hflat Em) in H2.
      destruct H2 as (-> & _). now symmetry.
    + rewrite Em in H2. destruct H2 as (-> & _). now symmetry.
  - destruct H1 as (Hf1 & Hc & _). rewrite Hc, Em in H2.
    now destruct H2 as (-> & _).
Qed.

End Migration.

(** ** Queries, paths and values *)

Section PureFunctions.

(** X1. [request_to_query] is [None] exactly when the request fills none
    of [func], [group], [arg] and [lang]; otherwise a row satisfies the
    query exactly when it has, for every field the request fills, that
    field equal to the value of the request. *)
Theorem request_to_query_tests_filled_fields (request row : dict) :
  match request_to_query request with
  | Some q =>
      existsb (filled request) request_fields = true
      /\ TinyDB.matches q row
         = forallb (fun k => field_test request k row) request_fields
  | None => existsb (filled request) request_fields = false
  end.
Proof.
  unfold request_to_query, field_test, filled, request_fields.
  cbn [existsb forallb].
  destruct (truthy (dict_get request "func" VNone));
    destruct (truthy (dict_get request "group" VNone));
    destruct (truthy (dict_get request "arg" VNone));
    destruct (truthy (dict_get request "lang" VNone));
    cbn [app orb]; try reflexivity;
    (split; [reflexivity|]); unfold TinyDB.matches; cbn [forallb];
    rewrite ?andb_true_r; reflexivity.
Qed.

(** X2. For a row whose [func], [group] and [arg] are [str] without a
    dot, [data_to_path] returns a path that splits on the dot into those
    three names again. *)
Theorem data_to_path_splits_back (data : dict) (f g a : string) :
  dict_get data "func" (VStr "") = VStr f ->
  dict_get data "group" (VStr "") = VStr g ->
  dict_get data "arg" (VStr "") = VStr a ->
  no_dot f = true -> no_dot g = true -> no_dot a = true ->
  exists path,
    data_to_path data = Ok path /\ split "." path = [f; g; a].
Proof.
  intros Hf Hg Ha Df Dg Da. unfold data_to_path. cbn [map].
  rewrite Hf, Hg, Ha. cbn [join_values rbind].
  eexists. split; [reflexivity|]. now apply split_path3.
Qed.

(** X3. [data_to_path] takes an absent field as the empty text; it raises
    exactly when one of the three fields is there and is not a [str], and
    what it raises then is [TypeError]. *)
Theorem data_to_path_raises_on_non_str (data : dict) :
  (forall e, data_to_path data = Raise e -> e = TypeError)
  /\ (data_to_path data = Raise TypeError
      <-> exists attr v,
            In attr ["func"; "group"; "arg"]
            /\ assoc attr data = Some v /\ is_str v = false).
Proof.
  unfold data_to_path, dict_get. cbn [map].
  destruct (assoc "func" data) as [[| | | |f| |]|] eqn:Ef;
    try (split; [now intros e [= <-] |];
         split; [intros _; eexists "func", _; simpl; eauto | reflexivity]);
  destruct (assoc "group" data) as [[| | | |g| |]|] eqn:Eg;
    try (split; [now intros e [= <-] |];
         split; [intros _; eexists "group", _; simpl; eauto 6 | reflexivity]);
  destruct (assoc "arg" data) as [[| | | |a| |]|] eqn:Ea;
    try (split; [now intros e [= <-] |];
         split; [intros _; eexists "arg", _; simpl; eauto 6 | reflexivity]);
  (split; [discriminate|]);
  (split; [discriminate|]);
  intros (attr & v & Hin & Hv & Hs);
  destruct Hin as [<-|[<-|[<-|[]]]]; rewrite ?Ef, ?Eg, ?Ea in Hv;
  try discriminate Hv; injection Hv as <-; discriminate Hs.
Qed.

(** X4. On a row whose option set is empty (or any other false value),
    [parse_value] raises for no raw value, types a value it has typed
    as itself, and returns a raw value that is not a [str] as it is. *)
Theorem parse_value_settles_without_options (raw data o : value) :
  getitem data "option" = Ok o -> truthy o = false ->
  exists v,
    parse_value raw data = Ok v
    /\ parse_value v data = Ok v
    /\ (is_str raw = false -> v = raw).
Proof.
  intros Hopt Ht. unfold parse_value. rewrite Hopt. cbn [rbind].
  rewrite Ht. cbn [rbind].
  destruct raw; try (eexists; split; [reflexivity | split; reflexivity]).
  destruct (s =? "") eqn:E.
  - exists VNone. split; [reflexivity|]. split; [reflexivity | discriminate].
  - destruct (if str_contains "." s then option_map VFloat (py_float s)
              else option_map VInt (py_int s)) as [v|] eqn:Et.
    + exists v. split; [reflexivity|]. split; [|discriminate].
      destruct (str_contains "." s);
        [destruct (py_float s) | destruct (py_int s)];
        try discriminate; injection Et as <-; reflexivity.
    + destruct (fromisoformat s) as [d|] eqn:Ed.
      * exists (VDate d). split; [reflexivity|]. split; [reflexivity | discriminate].
      * exists (VStr s). split; [reflexivity|]. rewrite E, Et, Ed.
        split; [reflexivity | discriminate].
Qed.

End PureFunctions.

(** ** The schema view *)

Section SchemaView.

Lemma well_named_path (row : dict) :
  well_named row = true ->
  data_to_path row = Ok (join "." (row_keys row))
  /\ split "." (join "." (row_keys row)) = row_keys row
  /\ List.length (row_keys row) = 3%nat.
Proof.
  unfold well_named, data_to_path, row_keys. cbn [map].
  destruct (dict_get row "func" (VStr "")) as [| | | |f| |]; try discriminate.
  destruct (dict_get row "group" (VStr "")) as [| | | |g| |]; try discriminate.
  destruct (dict_get row "arg" (VStr "")) as [| | | |a| |]; try discriminate.
  intros H. apply andb_prop in H. destruct H as [H Da].
  apply andb_prop in H. destruct H as [Df Dg].
  cbn [join_values rbind str_of].
  split; [reflexivity|]. split; [now apply split_path3 | reflexivity].
Qed.

Lemma nest_rows_writes (rows : list dict) :
  forall acc,
    forallb well_named rows = true ->
    exists view,
      nest_rows acc rows = Ok view
      /\ VDict view = apply_writes (VDict acc) (view_writes rows).
Proof.
  induction rows as [|r rows IH]; intros acc H.
  - exists acc. split; reflexivity.
  - simpl in H. apply andb_prop in H. destruct H as [Hr Hrs].
    destruct (well_named_path r Hr) as (Hp & Hs & _).
    cbn [nest_rows]. rewrite Hp. cbn [rbind].
    destruct (IH (deep_set acc (join "." (row_keys r)) (VDict r)) Hrs)
      as (view & Hv & E).
    exists view. split; [exact Hv|].
    rewrite E. unfold view_writes, apply_writes. cbn [map fold_left fst snd].
    now rewrite deep_set_spec, Hs.
Qed.

Lemma view_writes_fst (rows : list dict) :
  map fst (view_writes rows) = map row_keys rows.
Proof. unfold view_writes. rewrite map_map. reflexivity. Qed.

Lemma view_writes_length (rows : list dict) :
  forallb well_named rows = true ->
  forall w, In w (view_writes rows) -> List.length (fst w) = 3%nat.
Proof.
  intros H w Hw. unfold view_writes in Hw. apply in_map_iff in Hw.
  destruct Hw as (r & <- & Hin). rewrite forallb_forall in H.
  now destruct (well_named_path r (H r Hin)) as (_ & _ & Hl).
Qed.

Lemma filled_query (request : dict) :
  filled request "func" || filled request "group" || filled request "arg"
  = true ->
  exists q, request_to_query request = Some q.
Proof.
  unfold request_to_query, filled.
  destruct (truthy (dict_get request "func" VNone));
    destruct (truthy (dict_get request "group" VNone));
    destruct (truthy (dict_get request "arg" VNone));
    destruct (truthy (dict_get request "lang" VNone));
    try discriminate; intros _; cbn [app]; eauto.
Qed.

(** What a run of [select_db] that passes the assertion does. *)
Lemma select_db_run (request : dict) (s : Database) :
  filled request "func" || filled request "group" || filled request "arg"
  = true ->
  select_db request s
  = (nest_rows [] (documents_of request s), searched request s).
Proof.
  intros H. destruct (filled_query request H) as (q & Hq).
  unfold filled in H. unfold select_db, searched, documents_of.
  rewrite H, Hq.
  unfold bind at 1. unfold assert, lift at 1.
  unfold bind. rewrite db_search_run, search_documents. reflexivity.
Qed.

(** A document has the names of its row. *)
Lemma dict_set_value_names (row : dict) (v : value) :
  row_keys (dict_set row "value" v) = row_keys row
  /\ well_named (dict_set row "value" v) = well_named row.
Proof.
  unfold row_keys, well_named, dict_get. cbn [map].
  now rewrite !assoc_dict_set_other by discriminate.
Qed.

Lemma with_values_names (rows : list dict) :
  forall values,
    map row_keys (TinyDB.with_values rows values) = map row_keys rows
    /\ forallb well_named (TinyDB.with_values rows values)
       = forallb well_named rows.
Proof.
  induction rows as [|r rows IH]; intros values.
  - now destruct values.
  - destruct values as [|[v|] values]; cbn [TinyDB.with_values map forallb];
      [now split | |]; destruct (IH values) as [-> ->];
      [now destruct (dict_set_value_names r v) as [-> ->] | now split].
Qed.

Lemma documents_of_names (request : dict) (s : Database) :
  map row_keys (documents_of request s)
  = map row_keys (selected request (current_rows s))
  /\ forallb well_named (documents_of request s)
     = forallb well_named (selected request (current_rows s)).
Proof.
  unfold documents_of, selected.
  destruct (request_to_query request) as [q|]; [|now split].
  apply with_values_names.
Qed.

(** It is its row, with another [value] at most. *)
Lemma with_values_rows (rows : list dict) :
  forall values,
    Forall2 (fun row doc => doc = row
                            \/ exists v, doc = dict_set row "value" v)
            rows (TinyDB.with_values rows values).
Proof.
  induction rows as [|r rows IH]; intros values.
  - destruct values; constructor.
  - destruct values as [|[v|] values]; cbn [TinyDB.with_values].
    + constructor; [now left|]. specialize (IH []).
      now rewrite with_values_nil in IH.
    + constructor; [right; now exists v | apply IH].
    + constructor; [now left | apply IH].
Qed.

(** Only a request that fills [func] and [lang] and nothing else can get
    documents that were overlaid. *)
Lemma documents_of_plain (request : dict) (s : Database) :
  filled request "group" || filled request "arg"
  || negb (filled request "func") || negb (filled request "lang") = true ->
  documents_of request s = selected request (current_rows s).
Proof.
  unfold documents_of, selected, request_to_query, filled. intros H.
  destruct (truthy (dict_get request "func" VNone));
    destruct (truthy (dict_get request "group" VNone));
    destruct (truthy (dict_get request "arg" VNone));
    destruct (truthy (dict_get request "lang" VNone));
    try discriminate H; cbn [app]; try reflexivity;
    now rewrite held_plain, with_values_nil by discriminate.
Qed.

(** The view of a request whose documents are well named and have
    pairwise distinct paths. *)
Lemma select_db_view (request : dict) (s : Database) :
  filled request "func" || filled request "group" || filled request "arg"
  = true ->
  forallb well_named (selected request (current_rows s)) = true ->
  NoDup (map row_keys (selected request (current_rows s))) ->
  exists view,
    fst (select_db request s) = Ok view
    /\ (forall r default,
          In r (documents_of request s) ->
          deep_get_keys (VDict view) (row_keys r) default = VDict r)
    /\ (forall ks default,
          List.length ks = 3%nat ->
          ~ In ks (map row_keys (selected request (current_rows s))) ->
          deep_get_keys (VDict view) ks default = default).
Proof.
  intros Hf Hw Hnd. rewrite (select_db_run request s Hf). cbn [fst].
  destruct (documents_of_names request s) as [En Ew].
  rewrite <- Ew in Hw. rewrite <- En in *.
  destruct (nest_rows_writes _ [] Hw) as (view & Hv & E).
  exists view. split; [exact Hv|]. rewrite E. split.
  - intros r default Hin. apply apply_writes_get.
    + intros w Hw'. rewrite (view_writes_length _ Hw w Hw').
      rewrite forallb_forall in Hw.
      now destruct (well_named_path r (Hw r Hin)) as (_ & _ & ->).
    + now rewrite view_writes_fst.
    + unfold view_writes. apply in_map_iff. now exists r.
  - intros ks default Hl Hni. rewrite apply_writes_frame.
    + destruct ks as [|k ks]; [discriminate | reflexivity].
    + intros w Hw'. now rewrite (view_writes_length _ Hw w Hw').
    + now rewrite view_writes_fst.
Qed.


(** X6. When the rows a request selects have [str] names without dots and
    pairwise distinct paths, [select_db] returns a tree that holds, at
    the path [func.group.arg] of every selected row, the document the
    search of the store gets for the row, and nothing at any other path
    of three names.  The document is the row itself, or the row with the
    [value] an overlay of [select_function] has set in it: the row
    itself in a store that was not searched yet, and for every request
    that is not one on [func] and [lang] alone. *)
Theorem select_db_holds_each_selected_row (request : dict) (s : Database) :
  filled request "func" || filled request "group" || filled request "arg"
  = true ->
  forallb well_named (selected request (current_rows s)) = true ->
  NoDup (map row_keys (selected request (current_rows s))) ->
  exists view,
    fst (select_db request s) = Ok view
    /\ Forall2 (fun row doc =>
                  (doc = row \/ exists v, doc = dict_set row "value" v)
                  /\ forall path, data_to_path row = Ok path ->
                                  deep_get (VDict view) path VNone = VDict doc)
               (selected request (current_rows s)) (documents_of request s)
    /\ (forall ks,
          List.length ks = 3%nat ->
          ~ In ks (map row_keys (selected request (current_rows s))) ->
          deep_get_keys (VDict view) ks VNone = VNone)
    /\ (current_cache s = [] ->
        documents_of request s = selected request (current_rows s))
    /\ (filled request "group" || filled request "arg"
        || negb (filled request "lang") = true ->
        documents_of request s = selected request (current_rows s)).
Proof.
  intros Hf Hw Hnd.
  destruct (select_db_view request s Hf Hw Hnd) as (view & Hv & Hin & Hout).
  exists view. split; [exact Hv|]. split; [|split; [|split]].
  - assert (HF : Forall2 (fun row doc =>
                    doc = row \/ exists v, doc = dict_set row "value" v)
                   (selected request (current_rows s))
                   (documents_of request s)).
    { unfold documents_of, selected.
      destruct (request_to_query request); [apply with_values_rows|].
      constructor. }
    rewrite forallb_forall in Hw.
    apply (Forall2_impl_In _ _ _ _ HF). intros row doc Hrow Hdoc Hd.
    split; [exact Hd|]. intros path Hp.
    destruct (well_named_path row (Hw row Hrow)) as (Hp' & Hs & _).
    assert (E : path = join "." (row_keys row)) by congruence. subst path.
    unfold deep_get. rewrite Hs.
    replace (row_keys row) with (row_keys doc)
      by (destruct Hd as [->|(v & ->)];
          [reflexivity | apply dict_set_value_names]).
    now apply Hin.
  - intros ks Hl Hni. now apply Hout.
  - intros Hc. unfold documents_of, selected.
    destruct (request_to_query request); [|reflexivity].
    rewrite Hc. apply with_values_nil.
  - intros Hp. apply documents_of_plain.
    destruct (filled request "group"), (filled request "arg"),
      (filled request "lang"), (filled request "func");
      try reflexivity; discriminate.
Qed.

(** X7. For a request that fills [lang], when the [_info] rows of the
    language have [str] names without dots and pairwise distinct paths,
    [select_menu] returns a tree that holds each of those rows at its
    path, every one of them under the group [_info]. *)
Theorem select_menu_holds_info_rows (request : dict) (s : Database) :
  filled request "lang" = true ->
  forallb well_named (selected (menu_request request) (current_rows s))
  = true ->
  NoDup (map row_keys (selected (menu_request request) (current_rows s))) ->
  exists view,
    fst (select_menu request s) = Ok view
    /\ forall r,
         In r (selected (menu_request request) (current_rows s)) ->
         exists f a,
           row_keys r = [f; INFO; a]
           /\ deep_get_keys (VDict view) [f; INFO; a] VNone = VDict r.
Proof.
  intros Hl Hw Hnd. unfold filled in Hl.
  assert (Hf : filled (menu_request request) "func"
               || filled (menu_request request) "group"
               || filled (menu_request request) "arg" = true) by reflexivity.
  destruct (select_db_view (menu_request request) s Hf Hw Hnd)
    as (view & Hv & Hin & _).
  rewrite documents_of_plain in Hin by reflexivity.
  exists view. split.
  - unfold select_menu. rewrite Hl. unfold bind at 1. exact Hv.
  - intros r Hr. specialize (Hin r VNone Hr).
    rewrite forallb_forall in Hw.
    destruct (well_named_path r (Hw r Hr)) as (_ & _ & Hlen).
    assert (Hg : dict_get r "group" (VStr "") = VStr INFO).
    { unfold selected, menu_request, request_to_query in Hr.
      cbn [dict_get assoc String.eqb Ascii.eqb Bool.eqb truthy INFO negb app]
        in Hr.
      rewrite Hl in Hr. cbn [app] in Hr.
      apply filter_In in Hr. destruct Hr as [_ Hm].
      unfold TinyDB.matches in Hm. cbn [forallb] in Hm.
      apply andb_prop in Hm. destruct Hm as [Hm _].
      unfold TinyDB.test in Hm. cbn [fst snd] in Hm.
      unfold dict_get. destruct (assoc "group" r) as [x|]; [|discriminate].
      now apply py_eqb_str_r in Hm. }
    unfold row_keys in *. cbn [map] in *. rewrite Hg in *.
    cbn [str_of] in *. eauto.
Qed.

End SchemaView.

(** ** The configurations of the process and their files *)

Section ConfigCache.

Variable filepath_config : value -> string.

Lemma vassoc_absent {A : Type} (k : value) (d : list (value * A)) :
  List.length (filter (fun kv => py_eqb (fst kv) k) d) = 0%nat ->
  vassoc k d = None.
Proof.
  induction d as [|[k' v'] d IH]; [reflexivity|]. cbn [filter fst vassoc].
  destruct (py_eqb k' k); [discriminate | exact IH].
Qed.

Lemma vassoc_vpop {A : Type} (k : value) (d : list (value * A)) :
  (List.length (filter (fun kv => py_eqb (fst kv) k) d) <= 1)%nat ->
  vassoc k (vpop d k) = None.
Proof.
  induction d as [|[k' v'] d IH]; [reflexivity|]. cbn [filter fst vpop].
  destruct (py_eqb k' k) eqn:E.
  - cbn [List.length]. intros H. apply vassoc_absent. lia.
  - intros H. cbn [vassoc]. rewrite E. now apply IH.
Qed.

(** X8. Once [config] has returned the data of a name, calling it again
    for that name returns the same data and changes nothing: the data
    comes from the cache. *)
Theorem config_again_returns_cached (name : value) (data : dict)
  (s s' : Database) :
  config filepath_config name s = (Ok data, s') ->
  config filepath_config name s' = (Ok data, s').
Proof.
  intros H. apply config_cached.
  - exact (config_Ok_hashable _ _ _ _ _ H).
  - exact (config_Ok_cached _ _ _ _ _ H).
Qed.

(** X9. After [config_clear] of a name the process has projected before,
    [config] reads the file of the name again and projects nothing: it
    returns what the file holds, caches it, and writes no file. *)
Theorem config_after_clear_rereads_file (name : value) (s : Database) :
  truthy name = true -> hashable name = true ->
  vmem name (_config_updated s) = true ->
  (cached_times name s <= 1)%nat ->
  let s1 := snd (config_clear name s) in
  fst (config filepath_config name s1) = Ok (config_file filepath_config name s)
  /\ cached name (config_file filepath_config name s)
            (snd (config filepath_config name s1))
  /\ file_config (snd (config filepath_config name s1)) = file_config s
  /\ random_calls (snd (config filepath_config name s1)) = random_calls s.
Proof.
  intros Ht Hh Hu Hc s1.
  assert (E1 : s1 = set__config (vpop (_config s) name) s).
  { subst s1. unfold config_clear.
    assert (En : match name with
                 | VDict d => dict_get d "config" VNone
                 | _ => name
                 end = name) by (destruct name; try reflexivity; discriminate).
    rewrite En, Ht. unfold bind, hash_check, lift, modify. now rewrite Hh. }
  assert (E2 : config filepath_config name s1
               = (Ok (config_file filepath_config name s),
                  set__config (vset (vpop (_config s) name) name
                                    (config_file filepath_config name s)) s)).
  { rewrite E1. unfold config. unfold bind at 1. unfold hash_check, lift.
    rewrite Hh. unfold bind at 1. unfold gets at 1.
    cbn [_config set__config].
    rewrite (vassoc_vpop name (_config s) Hc).
    unfold bind at 1. unfold gets at 1. cbn [_config_updated set__config].
    rewrite Hu.
    unfold bind, read_config, gets, modify, ret, config_file. reflexivity. }
  rewrite E2. cbn [fst snd].
  split; [reflexivity|]. split; [|split; reflexivity].
  unfold cached. cbn [_config set__config]. now apply vassoc_vset_same.
Qed.

(** X10. When [config_save] returns, the file of the name holds the data
    the cache has for the name. *)
Theorem config_save_writes_cached_data (name : value) (s s' : Database) :
  config_save filepath_config name s = (Ok tt, s') ->
  exists data,
    cached name data s'
    /\ read_config filepath_config name s' = (Ok data, s').
Proof.
  intros H. unfold config_save in H. inv_bind H as data s1 Hc.
  pose proof (config_Ok_cached _ _ _ _ _ Hc) as Hcached.
  unfold write_config, modify in H. injection H as <-.
  exists data. split; [exact Hcached|].
  unfold read_config, gets. cbn [file_config set_file_config assoc].
  now rewrite String.eqb_refl.
Qed.

End ConfigCache.

Section ProjectionOverFile.

Variable filepath_config : value -> string.

Lemma projectable_from_path (old row : dict) :
  projectable_from old row = true -> is_info row = false ->
  exists g a v,
    assoc "group" row = Some g /\ assoc "arg" row = Some a
    /\ py_eqb g (VStr INFO) = false /\ py_eqb a (VStr INFO) = false
    /\ projected old row = Ok v
    /\ data_to_path row = Ok (join "." (row_keys row))
    /\ split "." (join "." (row_keys row)) = row_keys row
    /\ List.length (row_keys row) = 3%nat.
Proof.
  unfold projectable_from. intros H Hi.
  destruct (assoc "group" row) as [g|] eqn:Eg; [|discriminate].
  destruct (assoc "arg" row) as [a|] eqn:Ea; [|discriminate].
  rewrite Hi in H. cbn [orb] in H. apply andb_prop in H.
  destruct H as [Hw Hp].
  destruct (projected old row) as [v|]; [|discriminate].
  destruct (well_named_path row Hw) as (H1 & H2 & H3).
  unfold is_info, dict_get in Hi. rewrite Eg, Ea in Hi.
  apply orb_false_elim in Hi. destruct Hi as [Hig Hia].
  exists g, a, v. auto 10.
Qed.

Lemma project_row_over (old new row : dict) :
  projectable_from old row = true ->
  exists new',
    project_row old new row = Ok new'
    /\ VDict new' = apply_writes (VDict new) (projected_writes old [row]).
Proof.
  intros H. unfold project_row, projected_writes. cbn [flat_map].
  destruct (is_info row) eqn:Hi.
  - exists new. split; [|reflexivity].
    unfold projectable_from in H. unfold is_info, dict_get in Hi.
    destruct (assoc "group" row) as [g|] eqn:Eg; [|discriminate].
    destruct (assoc "arg" row) as [a|] eqn:Ea; [|discriminate].
    unfold getitem. rewrite Eg. cbn [rbind].
    destruct (py_eqb g (VStr INFO)); [reflexivity|].
    rewrite Ea. cbn [rbind]. cbn [orb] in Hi. now rewrite Hi.
  - destruct (projectable_from_path old row H Hi)
      as (g & a & v & Eg & Ea & Hig & Hia & Hv & Hp & Hs & _).
    unfold getitem at 1. rewrite Eg. cbn [rbind]. rewrite Hig.
    unfold getitem at 1. rewrite Ea. cbn [rbind]. rewrite Hia.
    rewrite Hp. cbn [rbind]. rewrite Hv.
    unfold projected in Hv.
    destruct (getitem (VDict row) "value") as [d|] eqn:Ed; [|discriminate].
    cbn [rbind] in *. unfold deep_get. rewrite Hs, Hv. cbn [rbind].
    eexists. split; [reflexivity|].
    rewrite app_nil_r. unfold apply_writes. cbn [fold_left fst snd].
    now rewrite deep_set_spec, Hs.
Qed.

Lemma projected_writes_cons (old row : dict) (rows : list dict) :
  projected_writes old (row :: rows)
  = projected_writes old [row] ++ projected_writes old rows.
Proof. unfold projected_writes. simpl. now rewrite app_nil_r. Qed.

Lemma project_rows_over (old : dict) (rows : list dict) :
  forall new,
    forallb (projectable_from old) rows = true ->
    exists new',
      project_rows old new rows = Ok new'
      /\ VDict new' = apply_writes (VDict new) (projected_writes old rows).
Proof.
  induction rows as [|row rows IH]; intros new H.
  - exists new. split; reflexivity.
  - simpl in H. apply andb_prop in H. destruct H as [Hr Hrs].
    destruct (project_row_over old new row Hr) as (new1 & H1 & E1).
    destruct (IH new1 Hrs) as (new2 & H2 & E2).
    exists new2. cbn [project_rows]. rewrite H1. cbn [rbind].
    split; [exact H2|].
    now rewrite projected_writes_cons, apply_writes_app, <- E1.
Qed.

Lemma projected_writes_fst (old : dict) (rows : list dict) :
  forallb (projectable_from old) rows = true ->
  map fst (projected_writes old rows) = map row_keys (plain_rows rows).
Proof.
  induction rows as [|row rows IH]; intros H; [reflexivity|].
  simpl in H. apply andb_prop in H. destruct H as [Hr Hrs].
  rewrite projected_writes_cons, map_app, (IH Hrs). unfold plain_rows.
  cbn [filter]. unfold projected_writes. cbn [flat_map].
  destruct (is_info row) eqn:Hi; [reflexivity|].
  destruct (projectable_from_path old row Hr Hi)
    as (g & a & v & _ & _ & _ & _ & -> & _). reflexivity.
Qed.

Lemma projected_writes_length (old : dict) (rows : list dict) :
  forallb (projectable_from old) rows = true ->
  forall w, In w (projected_writes old rows) -> List.length (fst w) = 3%nat.
Proof.
  intros H w Hw. unfold projected_writes in Hw. apply in_flat_map in Hw.
  destruct Hw as (row & Hin & Hw).
  rewrite forallb_forall in H. specialize (H row Hin).
  destruct (is_info row) eqn:Hi; [contradiction|].
  destruct (projectable_from_path old row H Hi)
    as (g & a & v & _ & _ & _ & _ & Hv & _ & _ & Hl).
  rewrite Hv in Hw. destruct Hw as [<-|[]]. exact Hl.
Qed.

Lemma deep_has_set (ks : list string) :
  forall d v, deep_has_keys (deep_set_keys d ks v) ks = true.
Proof.
  induction ks as [|k ks IH]; intros d v; [reflexivity|]. simpl.
  rewrite assoc_dict_set_same. apply IH.
Qed.

Lemma assoc_filter_other {A : Type} (p q : string) (l : list (string * A)) :
  p <> q ->
  assoc p (filter (fun kv => negb (fst kv =? q)) l) = assoc p l.
Proof.
  intros Hp. induction l as [|[k v] l IH]; [reflexivity|].
  cbn [filter fst assoc]. destruct (k =? q) eqn:E; cbn [negb].
  - apply String.eqb_eq in E. subst k. rewrite IH.
    destruct (q =? p) eqn:E'; [|reflexivity].
    apply String.eqb_eq in E'. now subst.
  - cbn [assoc]. now rewrite IH.
Qed.


(** The data [_check_config] returns for [data] in the state [s]. *)
Lemma check_config_run (data : dict) (is_template : bool) (s : Database) :
  _check_config data is_template s
  = (Ok (if is_template then deep_set data stats_path VNone
         else deep_default data stats_path
                (VStr (random_ids s (random_calls s)))),
     if is_template then s else set_random_calls (S (random_calls s)) s).
Proof. destruct is_template; reflexivity. Qed.

(** What a run of [update_config] does. *)
Lemma update_config_run (name : value) (s : Database) :
  update_config filepath_config name s
  = match project_rows (config_file filepath_config name s) []
                       (canonical_rows s) with
    | Ok new0 =>
        let is_template := py_eqb name (VStr "template") in
        let s1 := searched [("lang", VStr "zh-CN")] s in
        let new := if is_template then deep_set new0 stats_path VNone
                   else deep_default new0 stats_path
                          (VStr (random_ids s1 (random_calls s1))) in
        (Ok new,
         snd (write_config filepath_config name new
                (if is_template then s1
                 else set_random_calls (S (random_calls s1)) s1)))
    | Raise e => (Raise e, searched [("lang", VStr "zh-CN")] s)
    end.
Proof.
  unfold update_config, config_file, canonical_rows, searched.
  change (request_to_query [("lang", VStr "zh-CN")])
    with (Some [("lang", VStr "zh-CN")]).
  unfold bind at 1. unfold read_config, gets.
  unfold bind at 1.
  pose proof (db_search_run (Some [("lang", VStr "zh-CN")]) s) as E.
  rewrite search_plain in E by discriminate.
  destruct (db_search (Some [("lang", VStr "zh-CN")]) s) as [r s1].
  injection E as -> _. cbn [snd].
  unfold bind at 1. unfold lift at 1.
  destruct (project_rows _ [] _) as [new0|e]; [|reflexivity].
  unfold lift. unfold bind at 1. rewrite check_config_run.
  unfold bind, write_config, modify, ret. reflexivity.
Qed.

(** X11. When [update_config] returns, the file of the name holds what it
    returns.  For the template the statistics identifier is [None] there
    and no random identifier is drawn; for any other name the path of the
    statistics identifier is filled, and one random identifier is drawn
    whether it is used or not. *)
Theorem update_config_statistics_identifier (name : value) (new : dict)
  (s s' : Database) :
  update_config filepath_config name s = (Ok new, s') ->
  config_file filepath_config name s' = new
  /\ if py_eqb name (VStr "template")
     then deep_get (VDict new) stats_path (VStr "absent") = VNone
          /\ random_calls s' = random_calls s
     else deep_has_keys (VDict new) stats_keys = true
          /\ random_calls s' = S (random_calls s).
Proof.
  rewrite update_config_run.
  destruct (project_rows _ [] _) as [new0|e]; [|discriminate].
  cbv zeta. intros H. injection H as <- <-.
  pose proof (db_search_frame (Some [("lang", VStr "zh-CN")]) s) as F.
  cbv zeta in F. destruct F as (_ & _ & _ & _ & _ & _ & _ & Hrc & _).
  change (random_calls (searched [("lang", VStr "zh-CN")] s)
          = random_calls s) in Hrc.
  split.
  - unfold config_file, write_config, modify. cbn [snd file_config set_file_config assoc].
    now rewrite String.eqb_refl.
  - destruct (py_eqb name (VStr "template")).
    + split; [|exact Hrc].
      unfold deep_get. rewrite deep_set_spec. apply deep_get_set_same.
    + split; [|cbn; now rewrite Hrc].
      unfold deep_default.
      change (split "." stats_path) with stats_keys.
      destruct (deep_has_keys (VDict new0) stats_keys) eqn:E; [exact E|].
      rewrite deep_set_spec. apply deep_has_set.
Qed.

(** X12. Over rows of the default language that can be projected over
    the prior file and have pairwise distinct paths, [update_config]
    returns a configuration that has, at the path of every row that is
    not an [_info] row, the value of the prior file there (the default of
    the row where the file has none) typed against the row, and nothing
    at any other path of three names; the path of the statistics
    identifier apart. *)
Theorem update_config_keeps_file_values (name : value) (s : Database) :
  let old := config_file filepath_config name s in
  forallb (projectable_from old) (canonical_rows s) = true ->
  NoDup (map row_keys (plain_rows (canonical_rows s))) ->
  exists new s',
    update_config filepath_config name s = (Ok new, s')
    /\ (forall row,
          In row (plain_rows (canonical_rows s)) ->
          row_keys row <> stats_keys ->
          projected old row
          = Ok (deep_get_keys (VDict new) (row_keys row) VNone))
    /\ (forall ks,
          List.length ks = 3%nat -> ks <> stats_keys ->
          ~ In ks (map row_keys (plain_rows (canonical_rows s))) ->
          deep_get_keys (VDict new) ks VNone = VNone).
Proof.
  intros old Hok Hnd. rewrite update_config_run. fold old.
  destruct (project_rows_over old (canonical_rows s) [] Hok) as (new0 & -> & Hw).
  cbv zeta. eexists _, _. split; [reflexivity|].
  set (s1 := searched [("lang", VStr "zh-CN")] s).
  assert (Hframe : forall ks default,
             List.length ks = 3%nat -> ks <> stats_keys ->
             deep_get_keys
               (VDict (if py_eqb name (VStr "template")
                       then deep_set new0 stats_path VNone
                       else deep_default new0 stats_path
                              (VStr (random_ids s1 (random_calls s1)))))
               ks default
             = deep_get_keys (VDict new0) ks default).
  { intros ks default Hl Hne.
    assert (Hset : forall v,
               deep_get_keys (VDict (deep_set new0 stats_path v)) ks default
               = deep_get_keys (VDict new0) ks default).
    { intros v. rewrite deep_set_spec.
      change (split "." stats_path) with stats_keys.
      apply deep_get_set_other; [now rewrite Hl | congruence]. }
    destruct (py_eqb name (VStr "template")); [apply Hset|].
    unfold deep_default.
    destruct (deep_has_keys _ _); [reflexivity | apply Hset]. }
  split.
  - intros row Hin Hne. unfold plain_rows in Hin.
    apply filter_In in Hin. destruct Hin as [Hin Hi].
    apply negb_true_iff in Hi.
    pose proof Hok as Hok'. rewrite forallb_forall in Hok'.
    destruct (projectable_from_path old row (Hok' row Hin) Hi)
      as (g & a & v & _ & _ & _ & _ & Hv & _ & _ & Hl).
    rewrite (Hframe _ _ Hl Hne), Hw, Hv. f_equal. symmetry.
    apply apply_writes_get.
    + intros w Hw'. rewrite Hl. now apply projected_writes_length with old (canonical_rows s).
    + now rewrite projected_writes_fst.
    + unfold projected_writes. apply in_flat_map. exists row.
      split; [exact Hin|]. rewrite Hi, Hv. now left.
  - intros ks Hl Hne Hni. rewrite (Hframe _ _ Hl Hne), Hw.
    rewrite apply_writes_frame.
    + destruct ks; [discriminate | reflexivity].
    + intros w Hw'. rewrite Hl. now apply projected_writes_length with old (canonical_rows s).
    + now rewrite projected_writes_fst.
Qed.

End ProjectionOverFile.

(** ** The rows the generator yields *)

Section Generator.

Lemma gen_for_grows {A : Type}
  (body : A -> list key4 -> list key4 * generated) (l : list A) :
  grows body -> forall visited, exists more,
    fst (gen_for body l visited) = visited ++ more.
Proof.
  intros Hb. induction l as [|x l IH]; intros visited.
  - exists []. simpl. now rewrite app_nil_r.
  - cbn [gen_for]. destruct (Hb x visited) as (m1 & E1).
    destruct (body x visited) as [v1 [rows1 [e1|]]]; cbn [fst] in E1.
    + now exists m1.
    + destruct (IH v1) as (m2 & E2).
      destruct (gen_for body l v1) as [v2 [rows2 e2]]. cbn [fst] in *.
      exists (m1 ++ m2). now rewrite E2, E1, app_assoc.
Qed.

Lemma gen_items_grows
  (body : string * value -> list key4 -> list key4 * generated) :
  grows body -> grows (fun v => gen_items body v).
Proof.
  intros Hb v visited. unfold gen_items. destruct (items v) as [d|e].
  - now apply gen_for_grows.
  - exists []. simpl. now rewrite app_nil_r.
Qed.

(** A loop that ends without an exception has run the body of each of its
    items; what that body puts in [visited] is still there at the end. *)
Lemma gen_for_reaches {A : Type} (k : key4)
  (body : A -> list key4 -> list key4 * generated) (l : list A) (x : A) :
  grows body -> In x l ->
  (forall v0 v1 rows1, body x v0 = (v1, (rows1, None)) ->
                       mem_key k v1 = true) ->
  forall visited visited' rows,
    gen_for body l visited = (visited', (rows, None)) ->
    mem_key k visited' = true.
Proof.
  intros Hb Hin Hx. induction l as [|y l IH]; [contradiction|].
  intros visited visited' rows H. cbn [gen_for] in H.
  destruct (body y visited) as [v1 [rows1 [e1|]]] eqn:Ey; [discriminate|].
  destruct (gen_for_grows body l Hb v1) as (m2 & E2).
  destruct (gen_for body l v1) as [v2 [rows2 e2]] eqn:El.
  injection H as <- <- ->. cbn [fst] in E2.
  destruct Hin as [->|Hin].
  - rewrite E2. apply mem_key_app. exact (Hx _ _ _ Ey).
  - now apply (IH Hin v1 v2 rows2).
Qed.

Lemma gen_items_reaches (k : key4)
  (body : string * value -> list key4 -> list key4 * generated)
  (d : dict) (x : string * value) :
  grows body -> In x d ->
  (forall v0 v1 rows1, body x v0 = (v1, (rows1, None)) ->
                       mem_key k v1 = true) ->
  forall visited visited' rows,
    gen_items body (VDict d) visited = (visited', (rows, None)) ->
    mem_key k visited' = true.
Proof.
  intros Hb Hin Hx visited visited' rows H. unfold gen_items in H.
  cbn [items] in H. now apply (gen_for_reaches k body d x Hb Hin Hx _ _ _ H).
Qed.

Lemma info_step_grows (raw : dict) (visited visited' : list key4)
  (out out' : list dict) :
  info_step raw (visited, out) = Ok (visited', out') ->
  exists key,
    row_key raw = Ok key
    /\ (visited' = visited \/ visited' = visited ++ [key])
    /\ mem_key key visited' = true.
Proof.
  unfold info_step. intros H. inv_rbind H as key Hk.
  destruct (key4_hashable key) eqn:Hh; [|discriminate].
  fold (mem_key key visited) in H.
  destruct (mem_key key visited) eqn:Hm; injection H as <- <-.
  - exists key. auto.
  - exists key. split; [exact Hk|]. split; [now right|].
    unfold mem_key. rewrite existsb_app. cbn [existsb].
    rewrite (key4_eqb_refl key Hh). now rewrite orb_true_r.
Qed.

Lemma info_grows (raw : dict) (visited visited' : list key4)
  (rows : list dict) :
  info raw visited = Ok (visited', rows) ->
  (exists more, visited' = visited ++ more)
  /\ exists key, row_key raw = Ok key /\ mem_key key visited' = true.
Proof.
  unfold info. intros H.
  inv_rbind H as st1 H1. destruct st1 as [v1 o1].
  inv_rbind H as st2 H2. destruct st2 as [v2 o2].
  inv_rbind H as st3 H3. destruct st3 as [v3 o3].
  injection H as <- <-. cbn [fst].
  destruct (info_step_grows _ _ _ _ _ H1) as (k1 & Hk1 & G1 & M1).
  destruct (info_step_grows _ _ _ _ _ H2) as (k2 & _ & G2 & _).
  destruct (info_step_grows _ _ _ _ _ H3) as (k3 & _ & G3 & _).
  assert (E2 : exists m, v2 = v1 ++ m).
  { destruct G2 as [->| ->]; [exists []; now rewrite app_nil_r | eauto]. }
  assert (E3 : exists m, v3 = v2 ++ m).
  { destruct G3 as [->| ->]; [exists []; now rewrite app_nil_r | eauto]. }
  destruct E2 as (m2 & ->). destruct E3 as (m3 & ->). split.
  - destruct G1 as [->| ->].
    + exists (m2 ++ m3). now rewrite app_assoc.
    + exists ([k1] ++ m2 ++ m3). now rewrite !app_assoc.
  - exists k1. split; [exact Hk1|]. now apply mem_key_app, mem_key_app.
Qed.

Lemma leaf_body_grows (func group arg : string) (value0 : value) :
  grows (fun (lang0 : string) (visited : list key4) =>
           match info (draft func group arg lang0 value0) visited with
           | Ok (visited', rows) => (visited', (rows, @None exn))
           | Raise e => (visited, ([], Some e))
           end).
Proof.
  intros lang0 visited.
  destruct (info (draft func group arg lang0 value0) visited)
    as [[v rows]|e] eqn:E; cbn [fst].
  - now destruct (info_grows _ _ _ _ E) as [Hm _].
  - exists []. now rewrite app_nil_r.
Qed.

(** The set [visited] the generator ends with, and the rows it yielded. *)
Lemma data_iter_run_inv (args : value) :
  iter_inv (fst (data_iter_run args)) (fst (_data_iter args)).
Proof.
  change (_data_iter args) with (snd (data_iter_run args)).
  unfold data_iter_run.
  match goal with
  | |- context [gen_items ?b args []] =>
      destruct (gen_items b args []) as [visited [rows e]] eqn:E
  end.
  cbn [fst snd]. change rows with ([] ++ rows).
  revert E. apply gen_items_inv.
  2:{ constructor;
      [apply perm_nil | constructor | constructor | constructor
       | intros k [] | intros k []]. }
  intros [func func_data].
  apply gen_items_inv. intros [group group_data].
  apply gen_items_inv. intros [arg value0].
  apply gen_for_inv. intros lang0 visited0 rows0 visited' rows' e' HP H.
  destruct (draft_wf func group arg lang0 value0) as [H4 Hnd].
  destruct (info (draft func group arg lang0 value0) visited0)
    as [[v r]|ex] eqn:Ei.
  - injection H as <- <- <-.
    now apply (iter_inv_info (draft func group arg lang0 value0) visited0).
  - injection H as <- <- <-. now rewrite app_nil_r.
Qed.

Lemma draft_key (func group arg lang0 : string) (value0 : value) :
  keeps_names value0 = true ->
  row_key (draft func group arg lang0 value0)
  = Ok (VStr func, VStr group, VStr arg, VStr lang0).
Proof.
  intros Hk. unfold draft, row_key, getitem.
  destruct value0 as [| | | | | |detail]; try reflexivity.
  cbn [keeps_names] in Hk. rewrite forallb_forall in Hk.
  assert (Hni : forall k, In k request_fields -> ~ In k (map fst detail)).
  { intros k Hin Hd. specialize (Hk k Hd). apply negb_true_iff in Hk.
    assert (Hex : existsb (String.eqb k) request_fields = true).
    { apply existsb_exists. exists k. split; [exact Hin | apply String.eqb_refl]. }
    congruence. }
  rewrite !assoc_dict_update_other by (apply Hni; simpl; tauto).
  reflexivity.
Qed.

Lemma mem_key_In (k : key4) (ks : list key4) :
  mem_key k ks = true -> exists k', In k' ks /\ key4_eqb k k' = true.
Proof.
  unfold mem_key. intros H. apply existsb_exists in H.
  destruct H as (k' & Hin & E). eauto.
Qed.

Lemma py_eqb_str_l (t : string) (x : value) :
  py_eqb (VStr t) x = true -> x = VStr t.
Proof.
  destruct x; cbn [py_eqb]; try discriminate.
  intros H. apply String.eqb_eq in H. now subst.
Qed.

Lemma key4_eqb_str (f g a l : string) (k : key4) :
  key4_eqb (VStr f, VStr g, VStr a, VStr l) k = true ->
  k = (VStr f, VStr g, VStr a, VStr l).
Proof.
  destruct k as [[[x1 x2] x3] x4]. unfold key4_eqb. intros H.
  apply andb_prop in H. destruct H as [H H4].
  apply andb_prop in H. destruct H as [H H3].
  apply andb_prop in H. destruct H as [H1 H2].
  apply py_eqb_str_l in H1, H2, H3, H4. now subst.
Qed.

Lemma visited_row (args : value) (f g a l : string) :
  mem_key (VStr f, VStr g, VStr a, VStr l) (fst (data_iter_run args)) = true ->
  exists row,
    In row (fst (_data_iter args))
    /\ key_of row = (VStr f, VStr g, VStr a, VStr l).
Proof.
  intros H. destruct (mem_key_In _ _ H) as (k' & Hin & E).
  apply key4_eqb_str in E. subst k'.
  destruct (data_iter_run_inv args) as [Hp _ _ _ _ _].
  apply Permutation_sym in Hp.
  apply (Permutation_in _ Hp) in Hin. apply in_map_iff in Hin.
  destruct Hin as (row & Hk & Hr). eauto.
Qed.

(** X13. When [_data_iter] walks a schema definition to its end, it has
    yielded, for every leaf [func.group.arg] whose details do not redefine
    the identifying fields, a row with that 4-tuple in the language
    zh-CN, the [_info] row of its group and the [_info] row of its
    function. *)
Theorem data_iter_yields_every_leaf (fs gs leaves : dict)
  (f g a : string) (v : value) :
  In (f, VDict gs) fs -> In (g, VDict leaves) gs -> In (a, v) leaves ->
  keeps_names v = true ->
  snd (_data_iter (VDict fs)) = None ->
  forall key,
    In key [(VStr f, VStr g, VStr a, VStr "zh-CN");
            (VStr f, VStr g, VStr INFO, VStr "zh-CN");
            (VStr f, VStr INFO, VStr INFO, VStr "zh-CN")] ->
    exists row, In row (fst (_data_iter (VDict fs))) /\ key_of row = key.
Proof.
  intros Hf Hg Ha Hk Hend.
  assert (Hm : mem_key (VStr f, VStr g, VStr a, VStr "zh-CN")
                       (fst (data_iter_run (VDict fs))) = true).
  { change (_data_iter (VDict fs)) with (snd (data_iter_run (VDict fs)))
      in Hend.
    unfold data_iter_run in *.
    match goal with
    | |- context [gen_items ?b (VDict fs) []] =>
        destruct (gen_items b (VDict fs) []) as [visited [rows e]] eqn:E
    end.
    cbn [fst snd] in *. subst e.
    revert E. apply (gen_items_reaches _ _ fs (f, VDict gs)); [|exact Hf|].
    { intros [func func_data]. apply gen_items_grows.
      intros [group group_data]. apply gen_items_grows.
      intros [arg value0]. apply gen_for_grows. apply leaf_body_grows. }
    intros v0 v1 rows1.
    apply (gen_items_reaches _ _ gs (g, VDict leaves)); [|exact Hg|].
    { intros [group group_data]. apply gen_items_grows.
      intros [arg value0]. apply gen_for_grows. apply leaf_body_grows. }
    clear v0 v1 rows1. intros v0 v1 rows1.
    apply (gen_items_reaches _ _ leaves (a, v)); [|exact Ha|].
    { intros [arg value0]. apply gen_for_grows. apply leaf_body_grows. }
    clear v0 v1 rows1. intros v0 v1 rows1.
    apply (gen_for_reaches _ _ lang "zh-CN");
      [apply leaf_body_grows | now left |].
    clear v0 v1 rows1. intros v0 v1 rows1 H.
    destruct (info (draft f g a "zh-CN" v) v0) as [[v' r']|e] eqn:Ei;
      [|discriminate].
    injection H as <- _.
    destruct (info_grows _ _ _ _ Ei) as (_ & key & Hkey & Hmem).
    rewrite (draft_key f g a "zh-CN" v Hk) in Hkey. now injection Hkey as <-. }
  destruct (data_iter_run_inv (VDict fs)) as [_ _ _ _ _ Hc].
  destruct (mem_key_In _ _ Hm) as (k' & Hin & E).
  apply key4_eqb_str in E. subst k'.
  destruct (Hc _ Hin) as [Hmg Hmf]. cbn [group_key func_key] in Hmg, Hmf.
  intros key [<-|[<-|[<-|[]]]]; now apply visited_row.
Qed.

End Generator.

(** ** What a migration stores and writes *)

Section MergedRows.

Lemma In_keys_assoc {A : Type} (k : string) (d : list (string * A)) :
  In k (map fst d) -> exists v, assoc k d = Some v.
Proof.
  intros H. destruct (assoc k d) as [v|] eqn:E; [eauto|].
  apply assoc_None_not_In in E. contradiction.
Qed.

(** X14. A row [_data_merge] returns has the nine fields of a row; its
    [name] and [help] are never empty or false; and a row whose [arg] is [_info]
    has the empty text as [type] and [value] and no option, whatever the
    draft said. *)
Theorem data_merge_row_shape (old args data : dict) :
  _data_merge old args = Ok data ->
  (forall k, In k merged_fields -> exists v, assoc k data = Some v)
  /\ truthy (dict_get data "name" VNone) = true
  /\ truthy (dict_get data "help" VNone) = true
  /\ (py_eqb (dict_get data "arg" VNone) (VStr INFO) = true ->
      assoc "type" data = Some (VStr "")
      /\ assoc "value" data = Some (VStr "")
      /\ assoc "option" data = Some (VDict [])).
Proof.
  intros H. apply data_merge_Ok in H. cbv zeta in H.
  destruct H as (key & option & arg & _ & _ & Ea & data2 & Hd2 & ->).
  set (data0 := dict_update merge_defaults args) in *.
  set (data1 := dict_set (dict_set data0 "name" (kept old key "name"))
                         "help" (kept old key "help")) in *.
  assert (K0 : forall k, In k merged_fields -> In k (map fst data0)).
  { intros k Hk. subst data0. apply dict_update_In_keys. exact Hk. }
  assert (K1 : forall k, In k merged_fields -> In k (map fst data1)).
  { intros k Hk. subst data1. now apply dict_set_In_keys, dict_set_In_keys, K0. }
  assert (K2 : forall k, In k merged_fields -> In k (map fst data2)).
  { intros k Hk. destruct (truthy option).
    - destruct Hd2 as (keys & _ & ->). now apply dict_set_In_keys, K1.
    - subst data2. now apply K1. }
  assert (N1 : assoc "name" data1 = Some (kept old key "name")
               /\ assoc "help" data1 = Some (kept old key "help")).
  { subst data1. split.
    - rewrite assoc_dict_set_other by discriminate. apply assoc_dict_set_same.
    - apply assoc_dict_set_same. }
  assert (N2 : assoc "name" data2 = Some (kept old key "name")
               /\ assoc "help" data2 = Some (kept old key "help")).
  { destruct (truthy option).
    - destruct Hd2 as (keys & _ & ->).
      now rewrite !assoc_dict_set_other by discriminate.
    - now subst data2. }
  assert (Hni : forall k, k = "name" \/ k = "help" \/ k = "arg" ->
                          ~ In k (map fst info_reset)).
  { intros k [-> | [-> | ->]]; simpl; intuition discriminate. }
  assert (Harg2 : assoc "arg" data2 = Some arg).
  { destruct (truthy option).
    - destruct Hd2 as (keys & _ & ->). subst data1.
      now rewrite !assoc_dict_set_other by discriminate.
    - subst data2 data1. now rewrite !assoc_dict_set_other by discriminate. }
  destruct (py_eqb arg (VStr INFO)) eqn:Hinfo.
  - split; [|split; [|split]].
    + intros k Hk. apply In_keys_assoc, dict_update_In_keys. now apply K2.
    + unfold dict_get. rewrite assoc_dict_update_other by (apply Hni; auto).
      destruct N2 as [-> _]. apply kept_truthy.
    + unfold dict_get. rewrite assoc_dict_update_other by (apply Hni; auto).
      destruct N2 as [_ ->]. apply kept_truthy.
    + intros _.
      assert (Hnd : NoDup (map fst info_reset))
        by (simpl; repeat constructor; simpl; intuition discriminate).
      repeat split; apply assoc_dict_update_In; auto; simpl; auto.
  - split; [|split; [|split]].
    + intros k Hk. now apply In_keys_assoc, K2.
    + unfold dict_get. destruct N2 as [-> _]. apply kept_truthy.
    + unfold dict_get. destruct N2 as [_ ->]. apply kept_truthy.
    + unfold dict_get. rewrite Harg2, Hinfo. discriminate.
Qed.

End MergedRows.

Section StoreMigration.

Variable filepath_config : value -> string.

Lemma loaded_rows (s : Database) (new : TinyDB.store) :
  current_rows (set_file_db new (migrating s)) = current_rows s
  /\ file_config (set_file_db new (migrating s)) = file_config s.
Proof.
  destruct (migrating_frame s) as (H1 & H2 & H3 & H4 & H5 & H6 & H7).
  unfold current_rows at 1. cbn [db file_config set_file_db].
  now rewrite H1, H4.
Qed.

(** X15. When [update_db] returns, the template it has written is the
    projection of the rows the store had before the call, not of the rows
    the call has stored; the cache of the store is dropped, so that the
    next use reads the new file. *)
Theorem update_db_template_from_prior_rows (s s' : Database) :
  update_db filepath_config s = (Ok tt, s') ->
  exists new0,
    project_rows (config_file filepath_config (VStr "template") s) []
                 (canonical_rows s) = Ok new0
    /\ config_file filepath_config (VStr "template") s'
       = deep_set new0 stats_path VNone
    /\ db s' = None
    /\ current_rows s' = file_db s'.
Proof.
  rewrite update_db_run.
  destruct (migrate (current_rows s) (file_arg s)) as [new|e]; [|discriminate].
  rewrite update_config_run.
  destruct (loaded_rows s new) as [Hc Hf].
  unfold canonical_rows, config_file. rewrite Hc, Hf.
  fold (canonical_rows s). fold (config_file filepath_config (VStr "template") s).
  destruct (project_rows _ [] (canonical_rows s)) as [new0|e]; [|discriminate].
  cbv zeta. cbn [py_eqb String.eqb Ascii.eqb Bool.eqb].
  intros H. injection H as <-. exists new0. split; [reflexivity|].
  unfold write_config, modify, current_rows. cbn.
  now rewrite String.eqb_refl.
Qed.

(** X16. When [update_db] returns, the generator has walked the schema
    definition to its end, and the new store has one row for each row
    the generator yielded, in that order and with the same 4-tuple: a row
    of the prior store that the schema definition no longer yields is not
    carried over. *)
Theorem update_db_stores_generated_rows (s s' : Database) :
  update_db filepath_config s = (Ok tt, s') ->
  snd (_data_iter (file_arg s)) = None
  /\ map key_of (file_db s')
     = map key_of (fst (_data_iter (file_arg s))).
Proof.
  intros H. pose proof (update_db_spec filepath_config s) as Hspec.
  cbv zeta in Hspec. rewrite H in Hspec. cbn [fst snd] in Hspec.
  destruct Hspec as [_ Hspec].
  destruct (migrate (current_rows s) (file_arg s)) as [new|e] eqn:Hm.
  2:{ destruct Hspec as (_ & _ & Hne). now contradiction (Hne tt). }
  destruct Hspec as [-> _]. unfold migrate in Hm.
  destruct (data_iter_inv (file_arg s)) as (visited & [_ _ H4 Hnd _ _]).
  destruct (_data_iter (file_arg s)) as [rows e]. cbn [fst snd] in *.
  inv_rbind Hm as new0 Hrows. destruct e; [discriminate|].
  injection Hm as <-. split; [reflexivity|].
  destruct (migrate_rows_spec (current_rows s) rows H4 [] new0 Hrows)
    as (merged & -> & HF).
  cbn [app]. now destruct (merged_keys filepath_config _ rows merged H4 Hnd HF).
Qed.

(** X17. When the generator raises while it walks the schema definition,
    [update_db] raises as well, and neither the file of the store nor a
    file of a configuration is written. *)
Theorem update_db_writes_nothing_on_bad_schema (s : Database) (e : exn) :
  snd (_data_iter (file_arg s)) = Some e ->
  exists e',
    fst (update_db filepath_config s) = Raise e'
    /\ same_data s (snd (update_db filepath_config s)).
Proof.
  intros H. rewrite update_db_run. unfold migrate.
  destruct (_data_iter (file_arg s)) as [rows e0]. cbn [snd] in H. subst e0.
  assert (Hr : exists e', (do new <- migrate_rows (current_rows s) [] rows;
                           @Raise TinyDB.store e) = Raise e').
  { destruct (migrate_rows (current_rows s) [] rows); cbn [rbind]; eauto. }
  destruct Hr as (e' & ->). exists e'. split; [reflexivity|]. cbn [snd].
  destruct (migrating_frame s) as (H1 & H2 & H3 & H4 & H5 & H6 & H7).
  unfold same_data, current_rows at 1. rewrite H1. auto 10.
Qed.

End StoreMigration.

(** ** What the methods leave alone, and requests on configurations *)

Section CodeFrame.

Variable path_to_arg : string -> string.
Variable dict_to_kv : decl -> string.
Variable py_str : value -> string.

Lemma stable_append_line (s : Database) (l : line) :
  stable (same_data s) (append_line l).
Proof. apply stable_modify. intros st H. exact H. Qed.

Lemma stable_code_loop (s : Database) (args : list dict) :
  forall visited_path visited_func,
    stable (same_data s) (code_loop py_str args visited_path visited_func).
Proof.
  induction args as [|arg rest IH]; intros visited_path visited_func;
    cbn [code_loop].
  - apply stable_ret.
  - repeat first [ apply IH | apply stable_append_line | stable_step ].
Qed.

Lemma same_data_searched (request : dict) (s : Database) :
  same_data s (searched request s).
Proof.
  pose proof (db_search_frame (request_to_query request) s) as F.
  cbv zeta in F.
  destruct F as (H1 & H2 & H3 & H4 & H5 & H6 & H7 & H8 & H9 & H10 & H11).
  unfold same_data, searched. auto 10.
Qed.

(** What a run of [update_code] does. *)
Lemma update_code_run (s : Database) :
  update_code path_to_arg dict_to_kv py_str s
  = match code_loop py_str (canonical_rows s) [] []
                    (searched [("lang", VStr "zh-CN")] s) with
    | (Ok _, s2) =>
        (Ok tt,
         set_file_code (map (render path_to_arg dict_to_kv) (CONFIG_IMPORT s2))
                       s2)
    | (Raise e, s2) => (Raise e, s2)
    end.
Proof.
  unfold update_code, canonical_rows, searched.
  change (request_to_query [("lang", VStr "zh-CN")])
    with (Some [("lang", VStr "zh-CN")]).
  unfold bind at 1.
  pose proof (db_search_run (Some [("lang", VStr "zh-CN")]) s) as E.
  rewrite search_plain in E by discriminate.
  destruct (db_search (Some [("lang", VStr "zh-CN")]) s) as [r s1].
  injection E as -> _. cbn [snd].
  unfold bind at 1.
  destruct (code_loop py_str _ [] [] s1) as [[u|e] s2]; reflexivity.
Qed.

(** X18. [update_code] changes neither the store nor a configuration.
    When it returns, the file of the code holds the lines of
    [CONFIG_IMPORT]; when it raises, it has not written that file. *)
Theorem update_code_writes_only_the_code (s : Database) :
  let s' := snd (update_code path_to_arg dict_to_kv py_str s) in
  file_db s' = file_db s /\ current_rows s' = current_rows s
  /\ file_config s' = file_config s /\ _config s' = _config s
  /\ match fst (update_code path_to_arg dict_to_kv py_str s) with
     | Ok _ => file_code s' = map (render path_to_arg dict_to_kv)
                                  (CONFIG_IMPORT s')
     | Raise _ => file_code s' = file_code s
     end.
Proof.
  cbv zeta. rewrite update_code_run.
  pose proof (stable_code_loop s (canonical_rows s) [] [] _
                (same_data_searched [("lang", VStr "zh-CN")] s)) as H2.
  destruct (code_loop py_str _ [] [] (searched _ s)) as [[u|e] s2];
    cbn [fst snd] in *; destruct H2 as (A1 & A2 & A3 & A4 & A5 & A6 & A7).
  - unfold current_rows in *. cbn. auto.
  - auto.
Qed.

End CodeFrame.

Section Requests.

Variable filepath_config : value -> string.
















(** X21. [upsert_db] does not check that the request names a
    configuration: for a request that fills [func], [group], [arg] and
    [lang] but not [config], the rows are updated and the file of the
    store is written, and then the assertion of [select_function] fails. *)
Theorem upsert_db_without_config_raises_after_write (request : dict)
  (s : Database) :
  complete request = true -> filled request "config" = false ->
  fst (upsert_db filepath_config request s)
  = Raise (AssertionError "Must fill `config` in request")
  /\ file_db (snd (upsert_db filepath_config request s))
     = TinyDB.update request (request_to_query request) (current_rows s).
Proof.
  unfold complete, request_fields, filled. cbn [forallb].
  rewrite andb_true_r, !andb_assoc. intros Hc Hcfg.
  assert (Hfl : truthy (dict_get request "func" VNone) = true
                /\ truthy (dict_get request "lang" VNone) = true).
  { apply andb_prop in Hc. destruct Hc as [Hc Hl].
    apply andb_prop in Hc. destruct Hc as [Hc _].
    apply andb_prop in Hc. destruct Hc as [Hf _]. now split. }
  destruct Hfl as [Hf Hl].
  set (rows := TinyDB.update request (request_to_query request)
                             (current_rows s)).
  assert (Hrun : upsert_db filepath_config request s
                 = (Raise (AssertionError "Must fill `config` in request"),
                    set_file_db rows
                      (set_query_cache []
                         (set_db (Some rows) (snd (self_db s)))))).
  { unfold upsert_db. rewrite Hc.
    unfold bind at 1. unfold assert at 1, lift at 1.
    unfold bind at 1.
    destruct (self_db_spec s) as (s1 & Hs & _). rewrite Hs. cbn [snd].
    unfold bind at 1. unfold modify at 1.
    unfold bind at 1. unfold modify at 1.
    unfold bind at 1. unfold self_db at 1. cbn [db set_db set_query_cache].
    unfold bind at 1. unfold modify at 1.
    unfold select_function.
    cbn [dict_get assoc String.eqb Ascii.eqb Bool.eqb].
    rewrite Hf, Hl, Hcfg. reflexivity. }
  rewrite Hrun. split; reflexivity.
Qed.

(** X22. [upsert_config] for a path the store has no row for raises
    [TypeError], from subscripting [None]; by then it has loaded the
    store and searched it, and nothing else: no configuration is
    projected, cached or written. *)
Theorem upsert_config_unknown_path (request : dict) (path : string)
  (s : Database) :
  complete request = true ->
  is_none (dict_get request "value" VNone) = false ->
  filled request "config" = true ->
  data_to_path request = Ok path ->
  selected request (current_rows s) = [] ->
  upsert_config filepath_config request s
  = (Raise TypeError, searched request s)
  /\ same_data s (searched request s).
Proof.
  unfold complete, request_fields, filled. cbn [forallb].
  rewrite andb_true_r, !andb_assoc. intros Hc Hv Hcfg Hp Hsel.
  assert (Hf : filled request "func" || filled request "group"
               || filled request "arg" = true).
  { unfold filled. apply andb_prop in Hc. destruct Hc as [Hc _].
    apply andb_prop in Hc. destruct Hc as [Hc _].
    apply andb_prop in Hc. destruct Hc as [-> _]. reflexivity. }
  unfold upsert_config. rewrite Hc, Hcfg.
  unfold is_none in Hv.
  assert (Ev : match dict_get request "value" VNone with
               | VNone => false
               | _ => true
               end = true) by (destruct (dict_get request "value" VNone);
                               (reflexivity || discriminate)).
  rewrite Ev. unfold bind at 1. unfold assert at 1, lift at 1.
  unfold bind at 1. unfold assert at 1, lift at 1.
  unfold bind at 1. unfold assert at 1, lift at 1.
  unfold bind at 1. rewrite Hp. unfold lift at 1.
  unfold bind at 1. rewrite (select_db_run request s Hf).
  rewrite documents_of_plain, Hsel.
  2:{ unfold filled. apply andb_prop in Hc. destruct Hc as [Hc _].
      apply andb_prop in Hc. destruct Hc as [_ ->].
      now rewrite orb_true_r. }
  cbn [nest_rows].
  assert (Hd : deep_get (VDict []) path VNone = VNone).
  { unfold deep_get. pose proof (split_nonempty "." path).
    destruct (split "." path); [contradiction | reflexivity]. }
  rewrite Hd. split; [reflexivity | apply same_data_searched].
Qed.

(** X23. When [select_config] returns, the tree it returns has, at the
    path made of the names the request fills, what the configuration of
    the request has there, [None] when it has nothing; the configuration
    is cached by then. *)
Theorem select_config_shows_configuration (request response : dict)
  (s s' : Database) :
  select_config filepath_config request s = (Ok response, s') ->
  exists data,
    cached (dict_get request "config" VNone) data s'
    /\ deep_get (VDict response) (request_path request) VNone
       = deep_get (VDict data) (request_path request) VNone.
Proof.
  intros H. unfold select_config in H.
  inv_bind H as u1 s1 H1. inv_bind H as u2 s2 H2.
  inv_bind H as u3 s3 H3. inv_bind H as u4 s4 H4.
  inv_bind H as view s5 H5. inv_bind H as parts s6 H6. inv_lift H6.
  inv_bind H as data s7 H7. unfold ret in H. injection H as <- <-.
  exists data. split; [exact (config_Ok_cached _ _ _ _ _ H7)|].
  apply join_values_Ok in H6.
  assert (E : request_path request = join "." parts).
  { unfold request_path. rewrite H6, map_map. cbn [str_of].
    now rewrite map_id. }
  rewrite E. unfold deep_get at 1. rewrite deep_set_spec.
  apply deep_get_set_same.
Qed.

End Requests.

(** ** The overlay stays in the documents *)

Section OverlaidTree.

Lemma dict_set_same (d : dict) (k : string) (v : value) :
  assoc k d = Some v -> dict_set d k v = d.
Proof.
  induction d as [|[k' v'] d IH]; [discriminate|]. cbn [assoc dict_set].
  destruct (k' =? k)%string eqn:E.
  - apply String.eqb_eq in E. now intros [= ->]; subst.
  - intros H. now rewrite (IH H).
Qed.

(** A value set under a key of a row that the tree holds at [ks]. *)
Lemma deep_set_under (ks : list string) :
  forall (t : value) (d : dict) (k : string) (v default : value),
    deep_get_keys t ks VNone = VDict d ->
    deep_get_keys (deep_set_keys t (ks ++ [k]) v) ks default
    = VDict (dict_set d k v).
Proof.
  induction ks as [|a ks IH]; intros t d k v default H.
  - cbn in H. subst t. reflexivity.
  - cbn [deep_get_keys] in H. destruct t as [| | | | | |m]; try discriminate H.
    destruct (assoc a m) as [t1|] eqn:E; [|discriminate H].
    cbn [app deep_set_keys deep_get_keys]. rewrite assoc_dict_set_same.
    unfold dict_get. rewrite E. now apply IH.
Qed.

(** A value set under a key of another path of the same length. *)
Lemma deep_set_beside (ks : list string) :
  forall (ks' : list string) (t : value) (d : dict) (k : string)
         (v default : value),
    List.length ks = List.length ks' -> ks <> ks' ->
    deep_get_keys t ks VNone = VDict d ->
    deep_get_keys (deep_set_keys t (ks' ++ [k]) v) ks default = VDict d.
Proof.
  induction ks as [|a ks IH]; intros [|a' ks'] t d k v default Hl Hne H;
    try discriminate Hl; [contradiction|].
  cbn [deep_get_keys] in H. destruct t as [| | | | | |m]; try discriminate H.
  destruct (assoc a m) as [t1|] eqn:E; [|discriminate H].
  cbn [app deep_set_keys deep_get_keys].
  destruct (string_dec a' a) as [->|Ha].
  - rewrite assoc_dict_set_same. unfold dict_get. rewrite E.
    apply IH; [now injection Hl | congruence | exact H].
  - rewrite assoc_dict_set_other by exact Ha. rewrite E.
    clear IH Hl Hne. revert t1 H E. clear. intros t1 H _.
    revert t1 H. induction ks as [|b ks IH]; intros t1 H.
    + exact H.
    + cbn [deep_get_keys] in *. destruct t1; try discriminate H.
      destruct (assoc b d0); [now apply IH | discriminate H].
Qed.

(** After writes under the [value] key of paths of three names, a row
    the tree held at such a path is there with another [value] at
    most. *)
Lemma apply_writes_row (ws : list (list string * value)) :
  forall (t : value) (ks : list string) (d : dict) (default : value),
    (forall w, In w ws ->
               exists ks', fst w = ks' ++ ["value"]
                           /\ List.length ks' = List.length ks) ->
    deep_get_keys t ks VNone = VDict d ->
    exists d',
      deep_get_keys (apply_writes t ws) ks default = VDict d'
      /\ (d' = d \/ exists v, d' = dict_set d "value" v).
Proof.
  induction ws as [|[p v] ws IH]; intros t ks d default Hw H.
  - exists d. split; [|now left]. cbn.
    revert t H. induction ks as [|b ks IHk]; intros t H; [exact H|].
    cbn [deep_get_keys] in *. destruct t; try discriminate H.
    destruct (assoc b d0); [now apply IHk | discriminate H].
  - destruct (Hw (p, v) (or_introl eq_refl)) as (ks' & Hp & Hl).
    cbn [fst] in Hp. subst p.
    assert (Hw' : forall w, In w ws ->
                    exists ks', fst w = ks' ++ ["value"]
                                /\ List.length ks' = List.length ks)
      by (intros w Hin; apply Hw; now right).
    unfold apply_writes. cbn [fold_left fst snd].
    fold (apply_writes (deep_set_keys t (ks' ++ ["value"]) v) ws).
    destruct (list_eq_dec string_dec ks' ks) as [->|Hne].
    + destruct (IH _ ks (dict_set d "value" v) default Hw'
                   (deep_set_under ks t d "value" v VNone H))
        as (d' & Hd' & Hor).
      exists d'. split; [exact Hd'|]. right.
      destruct Hor as [->|(v' & ->)]; [now exists v|].
      exists v'. apply dict_set_twice.
    + apply (IH _ ks d default Hw').
      apply deep_set_beside; [now symmetry | congruence | exact H].
Qed.

Lemma overlay_writes_value (f : string) (sub : dict)
  (w : list string * value) :
  In w (overlay_writes f sub) ->
  exists ks', fst w = ks' ++ ["value"] /\ List.length ks' = 3%nat.
Proof.
  unfold overlay_writes, arg_writes. intros H.
  apply in_flat_map in H. destruct H as ([g gd] & _ & H).
  cbn [fst snd] in H. destruct gd; try contradiction.
  apply in_flat_map in H. destruct H as ([a v] & _ & H).
  cbn [fst snd] in H.
  destruct v; try contradiction; destruct H as [<-|[]];
    exists [f; g; a]; split; reflexivity.
Qed.

(** The documents after the overlay are the documents as the tree shows
    them. *)
Lemma documents_after_shown (tree : dict) (docs : list dict) :
  forallb well_named docs = true ->
  NoDup (map row_keys docs) ->
  documents_after tree docs = map (shown tree) docs.
Proof.
  induction docs as [|doc rest IH]; intros Hw Hnd; [reflexivity|].
  cbn [forallb] in Hw. apply andb_prop in Hw. destruct Hw as [Hd Hr].
  cbn [map] in Hnd. apply NoDup_cons_iff in Hnd. destruct Hnd as [Hni Hnd].
  cbn [documents_after map]. rewrite (IH Hr Hnd). f_equal.
  destruct (well_named_path doc Hd) as (Hp & Hs & _). rewrite Hp.
  assert (Hex : existsb (fun d => match data_to_path d with
                                  | Ok p => (p =? join "." (row_keys doc))%string
                                  | Raise _ => false
                                  end) rest = false).
  { apply not_true_is_false. intros Hex. apply existsb_exists in Hex.
    destruct Hex as (d & Hin & Hd').
    rewrite forallb_forall in Hr.
    destruct (well_named_path d (Hr d Hin)) as (Hp' & Hs' & _).
    rewrite Hp' in Hd'. apply String.eqb_eq in Hd'.
    apply Hni. apply in_map_iff. exists d. split; [|exact Hin].
    now rewrite <- Hs', Hd', Hs. }
  rewrite Hex. unfold shown, deep_get. now rewrite Hs.
Qed.

(** Rows given the values of documents that differ from them by the
    [value] at most are those documents. *)
Lemma with_values_of (rows docs : list dict) :
  Forall2 (fun row doc => doc = row
                          \/ exists v, doc = dict_set row "value" v)
          rows docs ->
  TinyDB.with_values rows (map (assoc "value") docs) = docs.
Proof.
  induction 1 as [|row doc rows docs Hd HF IH]; [reflexivity|].
  cbn [map TinyDB.with_values].
  destruct Hd as [->|(v & ->)].
  - destruct (assoc "value" row) as [v|] eqn:E; rewrite IH; [|reflexivity].
    now rewrite (dict_set_same row "value" v E).
  - now rewrite assoc_dict_set_same, IH.
Qed.

End OverlaidTree.

(** ** The query cache across a call *)

Section CacheEntries.

Lemma find_filter_none {A : Type} (p f : A -> bool) (l : list A) :
  List.find p l = None -> List.find p (filter f l) = None.
Proof.
  induction l as [|x l IH]; [reflexivity|]. cbn [List.find filter].
  destruct (p x) eqn:E; [discriminate|]. intros H.
  destruct (f x); cbn [List.find]; rewrite ?E; now apply IH.
Qed.

(** After a search for [q], the entry of [q] is the one used last, and
    it has the documents the search got. *)
Lemma search_entry (q : query) (c : TinyDB.cache) (rows : TinyDB.store) :
  TinyDB.query_eqb q q = true ->
  exists pre e,
    snd (TinyDB.search (Some q) c rows) = pre ++ [e]
    /\ List.find (TinyDB.holds q) pre = None
    /\ TinyDB.holds q e = true
    /\ fst (TinyDB.search (Some q) c rows)
       = Ok (TinyDB.documents q e rows).
Proof.
  intros Hq. unfold TinyDB.search.
  destruct (TinyDB.find q c) as [e|] eqn:E; cbn [fst snd].
  - unfold TinyDB.refresh. rewrite E.
    exists (filter (fun e' => negb (TinyDB.holds q e')) c), e.
    unfold TinyDB.find in E. apply find_some in E.
    repeat split; [apply find_filter_negb | apply E].
  - unfold TinyDB.put, TinyDB.find in *.
    destruct c as [|x c'].
    + exists [], (TinyDB.Matched q). cbn. repeat split. exact Hq.
    + destruct (Nat.ltb TinyDB.capacity
                        (List.length ((x :: c') ++ [TinyDB.Matched q]))).
      * exists c', (TinyDB.Matched q). cbn [app tl].
        repeat split; [|exact Hq]. cbn [List.find] in E.
        now destruct (TinyDB.holds q x).
      * exists (x :: c'), (TinyDB.Matched q). repeat split; [exact E | exact Hq].
Qed.

(** A search for another query leaves that entry in the cache. *)
Lemma search_keeps_entry (q q' : query) (pre : TinyDB.cache)
  (e : TinyDB.cached) (rows : TinyDB.store) :
  List.find (TinyDB.holds q) pre = None ->
  TinyDB.holds q e = true -> TinyDB.holds q' e = false ->
  TinyDB.find q (snd (TinyDB.search (Some q') (pre ++ [e]) rows)) = Some e.
Proof.
  intros Hpre He He'. unfold TinyDB.search.
  destruct (TinyDB.find q' (pre ++ [e])) as [e'|] eqn:E; cbn [snd].
  - unfold TinyDB.refresh. rewrite E. unfold TinyDB.find.
    rewrite filter_app. cbn [filter]. rewrite He'. cbn [negb].
    rewrite <- app_assoc.
    rewrite find_app_none by now apply find_filter_none.
    cbn [app List.find]. now rewrite He.
  - unfold TinyDB.put, TinyDB.find.
    destruct pre as [|x pre'].
    + cbn. now rewrite He.
    + destruct (Nat.ltb TinyDB.capacity
                        (List.length (((x :: pre') ++ [e])
                                      ++ [TinyDB.Matched q']))).
      * cbn [app tl]. cbn [List.find] in Hpre.
        destruct (TinyDB.holds q x); [discriminate|].
        rewrite <- app_assoc, find_app_none by exact Hpre.
        cbn [app List.find]. now rewrite He.
      * rewrite <- app_assoc, find_app_none by exact Hpre.
        cbn [app List.find]. now rewrite He.
Qed.

(** The entry of the query on [func] and [lang], once its documents
    have been changed in place. *)
Lemma find_change (func lang0 : value) (f : list dict -> list dict)
  (rows : TinyDB.store) (c : TinyDB.cache) (e : TinyDB.cached) :
  let q := [("func", func); ("lang", lang0)] in
  TinyDB.query_eqb q q = true ->
  TinyDB.find q c = Some e ->
  TinyDB.find q (TinyDB.change func lang0 f rows c)
  = Some (TinyDB.Overlaid func lang0
            (map (assoc "value") (f (TinyDB.documents q e rows)))).
Proof.
  intros q Hq. unfold TinyDB.find, TinyDB.change. fold q.
  induction c as [|x c IH]; [discriminate|]. cbn [List.find map].
  destruct (TinyDB.holds q x) eqn:E.
  - intros [= ->]. unfold TinyDB.holds at 1. cbn [TinyDB.cached_query].
    fold q. now rewrite Hq.
  - rewrite E. exact IH.
Qed.

End CacheEntries.

Section OverlayStays.

Variable filepath_config : value -> string.

Lemma searched_cache (request : dict) (s : Database) (rows : TinyDB.store) :
  db s = Some rows ->
  db (searched request s) = Some rows
  /\ query_cache (searched request s)
     = snd (TinyDB.search (request_to_query request) (query_cache s) rows).
Proof.
  intros Hd. unfold searched. rewrite db_search_run. cbn [snd].
  unfold self_db, current_cache, current_rows. rewrite Hd. cbn.
  now rewrite Hd.
Qed.

(** [config] searches the store at most once, for the rows of the
    canonical language. *)
Lemma config_cache (name : value) (s : Database) (rows : TinyDB.store) :
  db s = Some rows ->
  db (snd (config filepath_config name s)) = Some rows
  /\ (query_cache (snd (config filepath_config name s)) = query_cache s
      \/ query_cache (snd (config filepath_config name s))
         = snd (TinyDB.search (Some [("lang", VStr "zh-CN")])
                              (query_cache s) rows)).
Proof.
  intros Hd.
  unfold config, bind, hash_check, lift, gets, ret, modify, read_config.
  cbv beta.
  destruct (hashable name); cbn [snd]; [|auto].
  destruct (vassoc name (_config s)); cbn [snd]; [auto|].
  destruct (vmem name (_config_updated s));
    [cbn [snd db query_cache set__config]; auto|].
  destruct (searched_cache [("lang", VStr "zh-CN")] s rows Hd) as [Hd1 Hc1].
  change (request_to_query [("lang", VStr "zh-CN")])
    with (Some [("lang", VStr "zh-CN")]) in Hc1.
  rewrite update_config_run.
  destruct (project_rows _ [] _) as [new0|e]; cbv zeta; [|cbn [snd]; auto].
  unfold write_config, modify.
  destruct (py_eqb name (VStr "template"));
    cbn [snd db query_cache set__config set__config_updated
         set_file_config set_random_calls]; auto.
Qed.

Lemma Forall2_In_l {A B : Type} (R : A -> B -> Prop) (l : list A)
  (l' : list B) (a : A) :
  Forall2 R l l' -> In a l -> exists b, In b l' /\ R a b.
Proof.
  induction 1 as [|x y l l' Hxy HF IH]; [contradiction|].
  intros [->|Hin].
  - exists y. split; [now left | exact Hxy].
  - destruct (IH Hin) as (b & Hb & Hab). exists b. split; [now right | exact Hab].
Qed.

(** X24. The overlay of [select_function] stays in the documents of the
    store: after a call that returned, [select_db] for the same function
    and language gives a tree that has, at the path of every row of the
    function, the document the call returned there, which is the row
    with the [value] of the overlay.  This is for rows with [str] names
    without dots and pairwise distinct paths, and an instance
    configuration whose names hold no dot. *)
Theorem select_function_overlay_stays (request result : dict)
  (s s' : Database) (f : string) :
  select_function filepath_config request s = (Ok result, s') ->
  dict_get request "func" VNone = VStr f -> no_dot f = true ->
  hashable (dict_get request "lang" VNone) = true ->
  let request3 := [("func", VStr f);
                   ("lang", dict_get request "lang" VNone);
                   ("config", dict_get request "config" VNone)] in
  forallb well_named (selected request3 (current_rows s)) = true ->
  NoDup (map row_keys (selected request3 (current_rows s))) ->
  (forall inst sub,
     cached (dict_get request "config" VNone) inst s' ->
     assoc f inst = Some (VDict sub) -> dotfree sub = true) ->
  current_rows s' = current_rows s
  /\ exists view',
       fst (select_db request3 s') = Ok view'
       /\ forall row,
            In row (selected request3 (current_rows s)) ->
            exists doc,
              deep_get_keys (VDict result) (row_keys row) VNone = VDict doc
              /\ deep_get_keys (VDict view') (row_keys row) VNone = VDict doc
              /\ (doc = row \/ exists v, doc = dict_set row "value" v).
Proof.
  intros H Hfunc Hf Hlang request3 Hw Hnd Hdot.
  set (lang0 := dict_get request "lang" VNone) in *.
  set (config0 := dict_get request "config" VNone) in *.
  set (q := [("func", VStr f); ("lang", lang0)]).
  destruct (select_function_Ok filepath_config request result s s' f
              H Hfunc Hf)
    as (view & inst & s4 & t5 & s5 & Hview & Hq & Hnest & Hresp & Hcfg
        & Hov & Hs').
  fold lang0 config0 request3 q in Hview, Hq, Hnest, Hresp, Hcfg, Hov, Hs'.
  assert (Hqq : TinyDB.query_eqb q q = true).
  { unfold q. cbn [TinyDB.query_eqb fst snd].
    rewrite (py_eqb_refl (VStr f) eq_refl), (py_eqb_refl lang0 Hlang).
    reflexivity. }
  assert (Hfilled : filled request3 "func" || filled request3 "group"
                    || filled request3 "arg" = true).
  { unfold filled, request3.
    unfold request_to_query, request3 in Hq.
    cbn [dict_get assoc String.eqb Ascii.eqb Bool.eqb] in *.
    destruct (truthy (VStr f)); [reflexivity|].
    destruct (truthy lang0); discriminate Hq. }
  set (rows := current_rows s) in *.
  set (docs := documents_of request3 s) in *.
  (* the query cache, step by step *)
  pose proof (select_db_Ok _ _ _ _ Hview)
    as (_ & docs4 & Hs4 & _ & _ & Hcur4 & Hdb4 & _ & _ & _ & Hc4).
  pose proof (select_db_Ok _ _ _ _ Hresp)
    as (_ & docs5 & Hs5 & _ & _ & Hcur5 & Hdb5 & _ & _ & _ & Hc5).
  fold rows in Hs4, Hcur4, Hdb4, Hc4.
  rewrite Hcur4 in Hs5, Hcur5, Hdb5, Hc5. rewrite Hq in Hs4, Hc4, Hs5, Hc5.
  destruct (search_entry q (current_cache s4) rows Hqq)
    as (pre & e & Hpre & Hnone & He & Hdoc).
  assert (Edocs : TinyDB.documents q e rows = docs).
  { rewrite Hc4, search_again, search_documents in Hdoc.
    injection Hdoc as <-. unfold docs, documents_of. now rewrite Hq. }
  assert (Hq5 : query_cache t5 = pre ++ [e]).
  { unfold current_cache in Hc5. rewrite Hdb5 in Hc5.
    now rewrite Hc5, <- Hpre. }
  destruct (config_cache config0 t5 rows Hdb5) as [Hdb' Hc'].
  rewrite Hcfg in Hdb', Hc'. cbn [snd] in Hdb', Hc'.
  assert (Hfind : TinyDB.find q (query_cache s5) = Some e).
  { destruct Hc' as [->| ->]; rewrite Hq5.
    - unfold TinyDB.find. rewrite find_app_none by exact Hnone.
      cbn [List.find]. now rewrite He.
    - apply search_keeps_entry; [exact Hnone | exact He |].
      apply not_true_is_false. intros He'.
      unfold TinyDB.holds in He, He'.
      apply query_eqb_fields in He. apply query_eqb_fields in He'.
      rewrite He in He'. discriminate He'. }
  assert (Hrows' : current_rows s' = rows /\ db s' = Some rows
                   /\ TinyDB.held q (current_cache s')
                      = map (assoc "value") (documents_after result docs)).
  { subst s'. unfold current_rows at 1, current_cache at 1.
    cbn [db set_query_cache query_cache]. rewrite Hdb'.
    split; [reflexivity|]. split; [reflexivity|].
    unfold current_rows, current_cache. rewrite Hdb'.
    cbn [db set_query_cache query_cache]. rewrite Hdb'.
    unfold TinyDB.held.
    pose proof (find_change (VStr f) lang0 (documents_after result) rows
                            (query_cache s5) e Hqq Hfind) as Hfc.
    cbv zeta in Hfc. fold q in Hfc. rewrite Hfc. now rewrite Edocs. }
  destruct Hrows' as (Hcur' & Hdbs' & Hheld).
  split; [exact Hcur'|].
  (* the tree that was returned *)
  assert (Hcached : cached config0 inst s').
  { apply config_Ok_cached in Hcfg. now subst s'. }
  apply (overlay_spec f _ _ _ Hf) in Hov. destruct Hov as (sub & Hsub & Hres).
  assert (Hsub' : assoc f inst = Some (VDict sub)).
  { unfold dict_get in Hsub.
    destruct (assoc f inst); [now subst | discriminate]. }
  specialize (Hres (Hdot inst sub Hcached Hsub')).
  destruct (select_db_view request3 s Hfilled Hw Hnd)
    as (view0 & Hv0 & Hin & _).
  rewrite Hview in Hv0. cbn [fst] in Hv0. injection Hv0 as <-.
  fold docs in Hin.
  destruct (documents_of_names request3 s) as [En Ew].
  fold rows docs in En, Ew.
  assert (Hwd : forallb well_named docs = true) by now rewrite Ew.
  assert (Hndd : NoDup (map row_keys docs)) by now rewrite En.
  assert (Hshown : forall doc,
            In doc docs ->
            deep_get_keys (VDict result) (row_keys doc) VNone
            = VDict (shown result doc)
            /\ (shown result doc = doc
                \/ exists v, shown result doc = dict_set doc "value" v)).
  { intros doc Hd. rewrite forallb_forall in Hwd.
    destruct (well_named_path doc (Hwd doc Hd)) as (_ & _ & Hl3).
    destruct (apply_writes_row (overlay_writes f sub) (VDict view)
                (row_keys doc) doc VNone) as (d' & Hd' & Hor).
    - intros w Hwin. destruct (overlay_writes_value f sub w Hwin)
        as (ks' & Hk & Hl). exists ks'. split; [exact Hk | congruence].
    - now apply Hin.
    - rewrite <- Hres in Hd'. unfold shown. rewrite Hd'. now split. }
  assert (HF : Forall2 (fun row d' =>
                          (d' = row \/ exists v, d' = dict_set row "value" v)
                          /\ deep_get_keys (VDict result) (row_keys row) VNone
                             = VDict d')
                       (selected request3 rows) (map (shown result) docs)).
  { assert (HF0 : Forall2 (fun row doc =>
                     doc = row \/ exists v, doc = dict_set row "value" v)
                    (selected request3 rows) docs).
    { unfold docs, documents_of, selected. rewrite Hq.
      apply with_values_rows. }
    revert Hshown. clear -HF0. intros Hshown.
    induction HF0 as [|row doc rs ds Hd HF0 IH]; cbn [map]; constructor.
    - destruct (Hshown doc (or_introl eq_refl)) as [Hg Hor].
      assert (Ek : row_keys doc = row_keys row)
        by (destruct Hd as [->|(v & ->)];
            [reflexivity | apply dict_set_value_names]).
      rewrite Ek in Hg. split; [|exact Hg].
      destruct Hd as [->|(v & ->)]; [exact Hor|].
      right. destruct Hor as [->|(v' & ->)]; [now exists v|].
      exists v'. apply dict_set_twice.
    - apply IH. intros d Hin. apply Hshown. now right. }
  assert (Hdocs' : documents_of request3 s' = map (shown result) docs).
  { unfold documents_of. rewrite Hq, Hcur'. fold q. rewrite Hheld.
    rewrite (documents_after_shown result docs Hwd Hndd).
    apply with_values_of.
    replace (filter (TinyDB.matches q) rows) with (selected request3 rows)
      by (unfold selected; now rewrite Hq).
    apply (Forall2_impl_In _ _ _ _ HF). now intros row d' _ _ [Hor _]. }
  rewrite <- Hcur' in Hw, Hnd.
  destruct (select_db_view request3 s' Hfilled Hw Hnd)
    as (view' & Hv' & Hin' & _).
  rewrite Hdocs' in Hin'.
  exists view'. split; [exact Hv'|].
  intros row Hrow.
  destruct (Forall2_In_l _ _ _ row HF Hrow) as (d' & Hd' & Hor & Hg).
  exists d'. split; [exact Hg|]. split; [|exact Hor].
  replace (row_keys row) with (row_keys d')
    by (destruct Hor as [->|(v & ->)];
        [reflexivity | apply dict_set_value_names]).
  now apply Hin'.
Qed.

End OverlayStays.

(** * Concrete runs *)

(** The methods are run below with the instance [Demo] of the helper
    functions, from a fresh process over given files. *)

(** ** C1 *)

Lemma update_db_twice_same_store_witness :
  let s := Demo.start interval_schema [labelled_interval_row] [] in
  let s1 := snd (Demo.update_db s) in
  let s2 := snd (Demo.update_db s1) in
  file_arg s1 = file_arg s /\ file_db s2 = file_db s1.
Proof.
  refine (update_db_twice_same_store Demo.filepath_config
            (Demo.start interval_schema [labelled_interval_row] []) _).
  constructor; [reflexivity | constructor].
Defined.

(** The first run reads the label of [a.b] along the path [option.a.b] of
    the prior row; the second run finds no [a] in the row the first run
    wrote, and labels [a.b] with the key. *)
Lemma update_db_twice_nested_label :
  let s := Demo.start dotted_schema [nested_label_row] [] in
  let s1 := snd (Demo.update_db s) in
  let s2 := snd (Demo.update_db s1) in
  fst (Demo.update_db s) = Ok tt /\ fst (Demo.update_db s1) = Ok tt
  /\ map (assoc "option") (file_db s1)
     = [Some (VDict []); Some (VDict []); Some (VDict [("a.b", VStr "X")])]
  /\ map (assoc "option") (file_db s2)
     = [Some (VDict []); Some (VDict []); Some (VDict [("a.b", VStr "a.b")])].
Proof. vm_compute. repeat split. Qed.

(** ** C2 *)

Lemma data_merge_keeps_human_content_witness :
  exists data labels,
    _data_merge labelled_prior mode_draft = Ok data
    /\ assoc "name" data = Some (VStr "Custom Label")
    /\ assoc "help" data = Some (VStr "Main.Scheduler.Mode.help")
    /\ assoc "option" data = Some (VDict labels)
    /\ assoc "a" labels = Some (VStr "Alpha")
    /\ assoc "b" labels = Some (VStr "b").
Proof.
  destruct (data_merge_keeps_human_content labelled_prior mode_draft
              "Main" "Scheduler" "Mode" [("a", VNone); ("b", VNone)])
    as (data & Hm & Hn & Hh & Ho).
  - vm_compute. repeat constructor; simpl; intuition discriminate.
  - reflexivity.
  - reflexivity.
  - reflexivity.
  - reflexivity.
  - destruct Ho as (labels & Hl & Hk & _); [discriminate | discriminate |].
    exists data, labels. split; [exact Hm|]. split; [exact Hn|].
    split; [exact Hh|]. split; [exact Hl|]. split.
    + apply (Hk "a"); [simpl; tauto | reflexivity].
    + apply (Hk "b"); [simpl; tauto | reflexivity].
Defined.

(** The prior label of an option key that holds a dot is not taken up,
    and an [_info] draft that declares options is merged to none. *)
Lemma data_merge_label_not_kept :
  assoc "a.b" [("a.b", VStr "Alpha")] = Some (VStr "Alpha")
  /\ (do data <- _data_merge
                   [("option", VDict [("a.b", VStr "Alpha")])]
                   (draft "F" "G" "A" "zh-CN"
                          (VDict [("value", VStr "a.b");
                                  ("option", VDict [("a.b", VNone)])]));
      getitem (VDict data) "option")
     = Ok (VDict [("a.b", VStr "a.b")])
  /\ (do data <- _data_merge
                   [("option", VDict [("a", VStr "Alpha")])]
                   (dict_set mode_draft "arg" (VStr INFO));
      getitem (VDict data) "option")
     = Ok (VDict []).
Proof. vm_compute. repeat split. Qed.

(** ** C4 *)

Lemma update_db_store_invariants_witness :
  let s' := snd (Demo.update_db (Demo.start interval_schema [] [])) in
  In interval_row (file_db s')
  /\ count_rows (key_of interval_row) (file_db s') = 1%nat
  /\ count_rows (group_key (key_of interval_row)) (file_db s') = 1%nat
  /\ count_rows (func_key (key_of interval_row)) (file_db s') = 1%nat.
Proof.
  assert (Hin : In interval_row
                   (file_db (snd (Demo.update_db
                                    (Demo.start interval_schema [] [])))))
    by (vm_compute; tauto).
  split; [exact Hin|].
  refine (proj2 (update_db_store_invariants Demo.filepath_config
                   (Demo.start interval_schema [] [])
                   (snd (Demo.update_db (Demo.start interval_schema [] [])))
                   interval_row _ Hin)).
  vm_compute. reflexivity.
Defined.

Lemma update_db_two_info_group_rows :
  let s' := snd (Demo.update_db (Demo.start info_group_schema [] [])) in
  fst (Demo.update_db (Demo.start info_group_schema [] [])) = Ok tt
  /\ map key_of (file_db s')
     = [(VStr "F", VStr INFO, VStr INFO, VStr "zh-CN");
        (VStr "F", VStr INFO, VStr "A", VStr "zh-CN")]
  /\ List.length
       (filter (fun r => py_eqb (dict_get r "func" VNone) (VStr "F")
                         && py_eqb (dict_get r "group" VNone) (VStr INFO)
                         && py_eqb (dict_get r "lang" VNone) (VStr "zh-CN"))
               (file_db s')) = 2%nat.
Proof. vm_compute. repeat split. Qed.

(** ** C5 *)

Lemma update_config_fills_typed_defaults_witness :
  exists new s',
    Demo.update_config (VStr "demo") (Demo.start VNone [interval_row] [])
    = (Ok new, s')
    /\ deep_get (VDict new) "Main.Scheduler.Interval" VNone = VInt 10.
Proof.
  destruct (update_config_fills_typed_defaults Demo.filepath_config
              (VStr "demo") (Demo.start VNone [interval_row] []))
    as (new & s' & Hrun & _ & Hrows).
  - reflexivity.
  - reflexivity.
  - vm_compute. repeat constructor. simpl. tauto.
  - exists new, s'. split; [exact Hrun|].
    destruct (Hrows interval_row (VInt 10)) as (path & Hp & _ & Hd).
    + vm_compute. tauto.
    + reflexivity.
    + discriminate.
    + reflexivity.
    + injection Hp as <-. apply Hd. discriminate.
Defined.

Lemma update_config_retypes_default :
  assoc "value" text_default_row = Some (VStr "3")
  /\ is_info text_default_row = false
  /\ (do new <- fst (Demo.update_config (VStr "demo")
                       (Demo.start VNone [text_default_row] []));
      Ok (deep_get (VDict new) "Main.Scheduler.Interval" VNone))
     = Ok (VInt 3).
Proof. vm_compute. repeat split. Qed.

(** ** C7 *)

Lemma update_code_declares_each_path_once_witness :
  let s := Demo.start VNone [interval_row] [] in
  exists new,
    CONFIG_IMPORT (snd (Demo.update_code s)) = CONFIG_IMPORT s ++ new
    /\ NoDup (decl_paths new)
    /\ In "Scheduler.Interval" (decl_paths new).
Proof.
  destruct (update_code_declares_each_path_once
              Demo.path_to_arg Demo.dict_to_kv Demo.py_str
              (Demo.start VNone [interval_row] [])
              (snd (Demo.update_code (Demo.start VNone [interval_row] []))))
    as (new & Hc & _ & Hnd & Hin).
  - vm_compute. reflexivity.
  - exists new. split; [exact Hc|]. split; [exact Hnd|].
    apply Hin. split; [vm_compute; tauto | reflexivity].
Defined.

Lemma update_code_one_line_for_two_funcs :
  let s := Demo.start VNone shared_group_rows [] in
  fst (Demo.update_code s) = Ok tt
  /\ map data_to_path shared_group_rows = [Ok "F1.G.A"; Ok "F2.G.A"]
  /\ decl_paths (CONFIG_IMPORT (snd (Demo.update_code s))) = ["G.A"].
Proof. vm_compute. repeat split. Qed.

(** ** C8 *)



(** ** C9 *)

Lemma upsert_config_stores_typed_or_default_witness :
  let s := Demo.start VNone [interval_row] [] in
  exists data,
    assoc (Demo.filepath_config (VStr "demo"))
          (file_config (snd (Demo.upsert_config interval_upsert s))) = Some data
    /\ deep_get (VDict data) "Main.Scheduler.Interval" VNone = VInt 20.
Proof.
  intros s.
  destruct (Demo.upsert_config interval_upsert s) as [[response|e] s'] eqn:E;
    [|vm_compute in E; discriminate E].
  destruct (upsert_config_stores_typed_or_default Demo.filepath_config
              interval_upsert response s s' E)
    as (path & row & data & typed & stored & Hp & Hin & Hm & Hty & Hf & _
        & Hget & Hne & _).
  exists data. split; [exact Hf|].
  injection Hp as <-. rewrite Hget.
  destruct Hin as [<-|[]].
  vm_compute in Hty. injection Hty as <-. apply Hne. discriminate.
Defined.

Lemma upsert_config_stores_none :
  let s := Demo.start VNone [serial_row] [] in
  let s' := snd (Demo.upsert_config serial_upsert s) in
  (do response <- fst (Demo.upsert_config serial_upsert s); Ok tt) = Ok tt
  /\ file_config s'
     = [("./config/demo.yaml",
         [("Main", VDict [("Emulator", VDict [("Serial", VNone)])]);
          ("Alas", VDict [("DropRecord", VDict [("AzurStatsID", VStr "id")])])])].
Proof. vm_compute. repeat split. Qed.

(** ** C10 *)

Lemma upsert_db_merges_whole_request_witness :
  let s := Demo.start VNone [interval_row] [] in
  let s' := snd (Demo.upsert_db rename_upsert s) in
  file_db s' = [dict_update interval_row rename_upsert]
  /\ assoc "name" (dict_update interval_row rename_upsert)
     = Some (VStr "Interval")
  /\ assoc "config" (dict_update interval_row rename_upsert)
     = Some (VStr "demo").
Proof.
  intros s s'.
  destruct (upsert_db_merges_whole_request Demo.filepath_config
              rename_upsert s) as (Hf & _ & Hall).
  - reflexivity.
  - vm_compute. repeat constructor; simpl; intuition discriminate.
  - split; [exact Hf|]. split.
    + refine (proj2 (Hall interval_row "name" (VStr "Interval") _ _ _));
        [vm_compute; tauto | reflexivity | vm_compute; tauto].
    + refine (proj2 (Hall interval_row "config" (VStr "demo") _ _ _));
        [vm_compute; tauto | reflexivity | vm_compute; tauto].
Defined.

(** ** X2 *)

Lemma data_to_path_splits_back_witness :
  exists path,
    data_to_path interval_row = Ok path
    /\ split "." path = ["Main"; "Scheduler"; "Interval"].
Proof.
  apply (data_to_path_splits_back interval_row "Main" "Scheduler" "Interval");
    reflexivity.
Defined.

(** ** X4 *)

Lemma parse_value_settles_without_options_witness :
  exists v,
    parse_value (VStr "3") (VDict interval_row) = Ok v
    /\ parse_value v (VDict interval_row) = Ok v.
Proof.
  destruct (parse_value_settles_without_options
              (VStr "3") (VDict interval_row) (VDict []) eq_refl eq_refl)
    as (v & H1 & H2 & _).
  exists v. now split.
Defined.

(** ** X6 *)

Lemma select_db_holds_each_selected_row_witness :
  let s := snd (Demo.select_function demo_request
                  (Demo.start VNone [text_default_row] [])) in
  exists view,
    fst (select_db [("func", VStr "Main"); ("lang", VStr "zh-CN")] s)
    = Ok view
    /\ assoc "value" text_default_row = Some (VStr "3")
    /\ deep_get (VDict view) "Main.Scheduler.Interval" VNone
       = VDict (dict_set text_default_row "value" (VInt 3)).
Proof.
  intros s.
  destruct (select_db_holds_each_selected_row
              [("func", VStr "Main"); ("lang", VStr "zh-CN")] s)
    as (view & Hv & Hin & _).
  - reflexivity.
  - reflexivity.
  - vm_compute. repeat constructor; simpl; intuition discriminate.
  - exists view. split; [exact Hv|]. split; [reflexivity|].
    assert (Es : selected [("func", VStr "Main"); ("lang", VStr "zh-CN")]
                          (current_rows s) = [text_default_row])
      by reflexivity.
    assert (Ed : documents_of [("func", VStr "Main"); ("lang", VStr "zh-CN")] s
                 = [dict_set text_default_row "value" (VInt 3)])
      by reflexivity.
    rewrite Es, Ed in Hin.
    apply Forall2_cons_iff in Hin. destruct Hin as [[_ Hp] _].
    now apply Hp.
Defined.

(** ** X7 *)

Lemma select_menu_holds_info_rows_witness :
  let s := Demo.start VNone interval_store [] in
  exists view,
    fst (select_menu [("lang", VStr "zh-CN")] s) = Ok view
    /\ deep_get_keys (VDict view) ["Main"; "_info"; "_info"] VNone
       = VDict main_info_row.
Proof.
  intros s.
  destruct (select_menu_holds_info_rows [("lang", VStr "zh-CN")] s)
    as (view & Hv & Hin).
  - reflexivity.
  - reflexivity.
  - vm_compute. repeat constructor; simpl; intuition discriminate.
  - exists view. split; [exact Hv|].
    destruct (Hin main_info_row) as (f & a & Hk & Hg);
      [vm_compute; tauto|].
    change (row_keys main_info_row) with ["Main"; "_info"; "_info"] in Hk.
    injection Hk as <- <-. exact Hg.
Defined.

(** ** X8 *)

Lemma config_again_returns_cached_witness :
  let s := Demo.start VNone interval_store [] in
  exists data s',
    config Demo.filepath_config (VStr "demo") s = (Ok data, s')
    /\ config Demo.filepath_config (VStr "demo") s' = (Ok data, s').
Proof.
  intros s.
  destruct (config Demo.filepath_config (VStr "demo") s) as [[data|e] s']
    eqn:E; [|vm_compute in E; discriminate E].
  exists data, s'. split; [reflexivity|].
  exact (config_again_returns_cached Demo.filepath_config _ _ _ _ E).
Defined.

(** ** X9 *)

Lemma config_after_clear_rereads_file_witness :
  let s := snd (config Demo.filepath_config (VStr "demo")
                       (Demo.start VNone interval_store [])) in
  fst (config Demo.filepath_config (VStr "demo")
              (snd (config_clear (VStr "demo") s)))
  = Ok (config_file Demo.filepath_config (VStr "demo") s).
Proof.
  intros s.
  refine (proj1 (config_after_clear_rereads_file Demo.filepath_config
                   (VStr "demo") s _ _ _ _)).
  - reflexivity.
  - reflexivity.
  - reflexivity.
  - vm_compute. constructor.
Defined.

(** ** X10 *)

Lemma config_save_writes_cached_data_witness :
  let s := Demo.start VNone interval_store [] in
  exists data s',
    config_save Demo.filepath_config (VStr "demo") s = (Ok tt, s')
    /\ cached (VStr "demo") data s'
    /\ read_config Demo.filepath_config (VStr "demo") s' = (Ok data, s').
Proof.
  intros s.
  destruct (config_save Demo.filepath_config (VStr "demo") s) as [[[]|e] s']
    eqn:E; [|vm_compute in E; discriminate E].
  destruct (config_save_writes_cached_data Demo.filepath_config _ _ _ E)
    as (data & Hc & Hr).
  exists data, s'. auto.
Defined.

(** ** X11 *)

Lemma update_config_statistics_identifier_witness :
  let s := Demo.start VNone interval_store [] in
  exists new s',
    Demo.update_config (VStr "template") s = (Ok new, s')
    /\ deep_get (VDict new) stats_path (VStr "absent") = VNone.
Proof.
  intros s.
  destruct (Demo.update_config (VStr "template") s) as [[new|e] s']
    eqn:E; [|vm_compute in E; discriminate E].
  destruct (update_config_statistics_identifier Demo.filepath_config
              _ _ _ _ E) as (_ & H).
  cbn [py_eqb String.eqb Ascii.eqb Bool.eqb] in H. destruct H as [H _].
  exists new, s'. auto.
Defined.

(** ** X12 *)

Lemma update_config_keeps_file_values_witness :
  let s := Demo.start VNone interval_store demo_files in
  exists new,
    fst (Demo.update_config (VStr "demo") s) = Ok new
    /\ deep_get_keys (VDict new) ["Main"; "Scheduler"; "Interval"] VNone
       = VInt 30
    /\ deep_get_keys (VDict new) ["Old"; "Group"; "Arg"] VNone = VNone.
Proof.
  intros s.
  destruct (update_config_keeps_file_values Demo.filepath_config
              (VStr "demo") s) as (new & s' & Hrun & Hrows & Hstale).
  - reflexivity.
  - vm_compute. repeat constructor; simpl; intuition discriminate.
  - exists new. split; [now rewrite Hrun|]. split.
    + specialize (Hrows interval_row).
      change (row_keys interval_row) with ["Main"; "Scheduler"; "Interval"]
        in Hrows.
      assert (E : projected (config_file Demo.filepath_config (VStr "demo") s)
                            interval_row = Ok (VInt 30)) by reflexivity.
      rewrite E in Hrows.
      assert (H : Ok (VInt 30)
                  = Ok (deep_get_keys (VDict new)
                          ["Main"; "Scheduler"; "Interval"] VNone)).
      { apply Hrows; [vm_compute; tauto | discriminate]. }
      now injection H.
    + apply Hstale; [reflexivity | discriminate |].
      vm_compute. intuition discriminate.
Defined.

(** ** X13 *)

Lemma data_iter_yields_every_leaf_witness :
  exists row,
    In row (fst (_data_iter interval_schema))
    /\ key_of row = (VStr "Main", VStr "Scheduler", VStr INFO, VStr "zh-CN").
Proof.
  apply (data_iter_yields_every_leaf
           [("Main", VDict [("Scheduler", VDict [("Interval", VInt 10)])])]
           [("Scheduler", VDict [("Interval", VInt 10)])]
           [("Interval", VInt 10)] "Main" "Scheduler" "Interval" (VInt 10)).
  - now left.
  - now left.
  - now left.
  - reflexivity.
  - reflexivity.
  - right. now left.
Defined.

(** ** X14 *)

Lemma data_merge_row_shape_witness :
  let args := dict_set mode_draft "arg" (VStr INFO) in
  exists data,
    _data_merge labelled_prior args = Ok data
    /\ assoc "name" data = Some (VStr "Custom Label")
    /\ assoc "value" data = Some (VStr "")
    /\ assoc "option" data = Some (VDict []).
Proof.
  intros args.
  set (data := match _data_merge labelled_prior args with
               | Ok d => d
               | Raise _ => []
               end).
  assert (E : _data_merge labelled_prior args = Ok data) by reflexivity.
  destruct (data_merge_row_shape labelled_prior args data E)
    as (_ & _ & _ & Hi).
  destruct (Hi eq_refl) as (_ & Hv & Ho).
  exists data. split; [exact E|]. split; [reflexivity|]. now split.
Defined.

(** ** X15 *)

(** The first migration of a process that starts without a store writes a
    template that has the statistics identifier only. *)
Lemma update_db_template_from_prior_rows_witness :
  let s := Demo.start interval_schema [] [] in
  exists s',
    Demo.update_db s = (Ok tt, s')
    /\ file_db s' = interval_store
    /\ config_file Demo.filepath_config (VStr "template") s'
       = [("Alas", VDict [("DropRecord", VDict [("AzurStatsID", VNone)])])].
Proof.
  intros s.
  destruct (Demo.update_db s) as [[[]|e] s'] eqn:E;
    [|vm_compute in E; discriminate E].
  exists s'. split; [reflexivity|]. split.
  - assert (Es' : s' = snd (Demo.update_db s)) by (now rewrite E).
    rewrite Es'. reflexivity.
  - destruct (update_db_template_from_prior_rows Demo.filepath_config s s' E)
      as (new0 & Hp & Hf & _).
    rewrite Hf. vm_compute in Hp. injection Hp as <-. reflexivity.
Defined.

(** ** X16 *)

Lemma update_db_stores_generated_rows_witness :
  let s := Demo.start interval_schema [nested_label_row] [] in
  exists s',
    Demo.update_db s = (Ok tt, s')
    /\ map key_of (file_db s') = map key_of interval_store.
Proof.
  intros s.
  destruct (Demo.update_db s) as [[[]|e] s'] eqn:E;
    [|vm_compute in E; discriminate E].
  exists s'. split; [reflexivity|].
  destruct (update_db_stores_generated_rows Demo.filepath_config s s' E)
    as [_ Hk].
  rewrite Hk. reflexivity.
Defined.

(** ** X17 *)

Lemma update_db_writes_nothing_on_bad_schema_witness :
  let s := Demo.start (VInt 3) interval_store [] in
  exists e',
    fst (Demo.update_db s) = Raise e'
    /\ file_db (snd (Demo.update_db s)) = interval_store
    /\ file_config (snd (Demo.update_db s)) = [].
Proof.
  intros s.
  destruct (update_db_writes_nothing_on_bad_schema Demo.filepath_config
              s AttributeError eq_refl) as (e' & He & Hs).
  exists e'. split; [exact He|].
  destruct Hs as (H1 & _ & _ & H4 & _). now rewrite H1, H4.
Defined.

(** ** X21 *)

Lemma upsert_db_without_config_raises_after_write_witness :
  let request := [("func", VStr "Main"); ("group", VStr "Scheduler");
                  ("arg", VStr "Interval"); ("lang", VStr "zh-CN");
                  ("name", VStr "Interval")] in
  let s := Demo.start VNone interval_store [] in
  fst (Demo.upsert_db request s)
  = Raise (AssertionError "Must fill `config` in request")
  /\ file_db (snd (Demo.upsert_db request s))
     = [main_info_row; scheduler_info_row;
        dict_set interval_row "name" (VStr "Interval")].
Proof.
  intros request s.
  destruct (upsert_db_without_config_raises_after_write
              Demo.filepath_config request s eq_refl eq_refl) as [He Hf].
  split; [exact He|]. rewrite Hf. reflexivity.
Defined.

(** ** X22 *)

Lemma upsert_config_unknown_path_witness :
  let s := Demo.start VNone [] [] in
  Demo.upsert_config interval_upsert s
  = (Raise TypeError, searched interval_upsert s)
  /\ _config (searched interval_upsert s) = []
  /\ file_config (searched interval_upsert s) = [].
Proof.
  intros s. split; [|split; reflexivity].
  apply (upsert_config_unknown_path Demo.filepath_config interval_upsert
           "Main.Scheduler.Interval" s); reflexivity.
Defined.

(** ** X23 *)

Lemma select_config_shows_configuration_witness :
  let s := Demo.start VNone [text_default_row] [] in
  exists response,
    fst (select_config Demo.filepath_config demo_request s) = Ok response
    /\ deep_get (VDict response) "Main" VNone
       = VDict [("Scheduler", VDict [("Interval", VInt 3)])].
Proof.
  intros s.
  destruct (select_config Demo.filepath_config demo_request s)
    as [[response|e] s'] eqn:E; [|vm_compute in E; discriminate E].
  destruct (select_config_shows_configuration Demo.filepath_config
              demo_request response s s' E) as (data & Hc & Hd).
  exists response. split; [reflexivity|].
  change (request_path demo_request) with "Main" in Hd. rewrite Hd.
  assert (Es' : s' = snd (select_config Demo.filepath_config demo_request s))
    by (now rewrite E).
  unfold cached in Hc. rewrite Es' in Hc. vm_compute in Hc.
  injection Hc as <-. reflexivity.
Defined.

(** ** X24 *)

Lemma select_function_overlay_stays_witness :
  let s := Demo.start VNone [text_default_row] [] in
  exists result s' view',
    Demo.select_function demo_request s = (Ok result, s')
    /\ fst (select_db demo_request s') = Ok view'
    /\ assoc "value" text_default_row = Some (VStr "3")
    /\ deep_get_keys (VDict view') ["Main"; "Scheduler"; "Interval"] VNone
       = VDict (dict_set text_default_row "value" (VInt 3)).
Proof.
  intros s.
  destruct (Demo.select_function demo_request s) as [[result|e] s'] eqn:E;
    [|vm_compute in E; discriminate E].
  assert (Es' : s' = snd (Demo.select_function demo_request s))
    by (now rewrite E).
  assert (Er : Ok result = fst (Demo.select_function demo_request s))
    by (now rewrite E).
  destruct (select_function_overlay_stays Demo.filepath_config demo_request
              result s s' "Main" E eq_refl eq_refl eq_refl)
    as (_ & view' & Hv & Hrow).
  - reflexivity.
  - vm_compute. repeat constructor; simpl; intuition discriminate.
  - intros inst sub Hc Ha. unfold cached in Hc. rewrite Es' in Hc.
    vm_compute in Hc. injection Hc as <-.
    vm_compute in Ha. injection Ha as <-. reflexivity.
  - exists result, s', view'. split; [reflexivity|]. split; [exact Hv|].
    split; [reflexivity|].
    destruct (Hrow text_default_row) as (doc & Hres & Hview & _);
      [vm_compute; tauto|].
    change (row_keys text_default_row)
      with ["Main"; "Scheduler"; "Interval"] in Hres, Hview.
    rewrite Hview. vm_compute in Er. injection Er as ->.
    vm_compute in Hres. injection Hres as <-. reflexivity.
Defined.
